(** * pyfi.db.model — the declarative database model and its integrity rules

    The module [pyfi/db/model/models.py] is a set of SQLAlchemy declarations:
    classes with [Column] and [relationship] attributes, association
    [Table]s and a few module-level lists.  This development embeds the
    declarations as data, one definition per source declaration, and gives
    them the meaning the ORM and the database give them: attribute
    resolution along the class bases, INSERT with defaults and constraints,
    relationship loading, and DELETE with the declared cascades.  The two
    functions of the module, the DDL hook [use_identity] and
    [AlchemyEncoder.default], and the export list of the package are
    embedded as functions and lists of their own. *)

From Stdlib Require Import String Ascii List ZArith Bool Arith Lia.
Import ListNotations.
Open Scope string_scope.

Set Implicit Arguments.

(** ** Column and relationship declarations *)

(** Column types as they are written in the source.  [String_ None] is a
    bare [String]. *)
Inductive ColType : Type :=
| String_ (length : option nat)
| Text
| Boolean
| Integer
| Float
| DateTime
| LargeBinary
| DOUBLE_PRECISION
| Enum (values : list string) (name : string).

(** Values stored in a row.  A NULL is the absence of the field. *)
Inductive value : Type :=
| VStr (s : string)
| VBool (b : bool)
| VInt (z : Z)
| VTime (t : Z)
| VBytes (s : string).

Definition value_eqb (a b : value) : bool :=
  match a, b with
  | VStr x, VStr y => String.eqb x y
  | VBool x, VBool y => Bool.eqb x y
  | VInt x, VInt y => Z.eqb x y
  | VTime x, VTime y => Z.eqb x y
  | VBytes x, VBytes y => String.eqb x y
  | _, _ => false
  end.

(** What is written after [default=] or [onupdate=]. *)
Inductive Default : Type :=
| literal_column (sql : string)
| datetime_now
| const (v : value).

(** Keyword (and [ForeignKey]) arguments of a [Column]. *)
Inductive ColArg : Type :=
| ForeignKey (target : string) (ondelete : option string)
| unique (b : bool)
| nullable (b : bool)
| primary_key (b : bool)
| autoincrement (b : bool)
| default (d : Default)
| onupdate (d : Default).

Record ColumnDecl : Type := mkColumn {
  col_type : ColType;
  col_args : list ColArg
}.

(** One conjunct of an explicit [primaryjoin]. *)
Inductive JoinCond : Type :=
| JoinOwner (remote_col owner_col : string)   (* foreign(T.remote) == cls.owner *)
| JoinLit (remote_col literal : string).      (* T.remote == "literal" *)

(** Keyword arguments of a [relationship]. *)
Inductive RelArg : Type :=
| secondary (table : string)
| backref (name : string)
| back_populates (name : string)
| cascade (s : string)
| single_parent (b : bool)
| uselist (b : bool)
| lazy_ (s : string)
| viewonly (b : bool)
| order_by (s : string)
| primaryjoin (conds : list JoinCond)
| overlaps (s : string).

Record RelDecl : Type := mkRel {
  rel_target : string;
  rel_args : list RelArg
}.

Inductive Attr : Type :=
| AColumn (c : ColumnDecl)
| ARel (r : RelDecl).

Definition Column (ty : ColType) (args : list ColArg) : Attr :=
  AColumn (mkColumn ty args).

Definition relationship (target : string) (args : list RelArg) : Attr :=
  ARel (mkRel target args).

(** The bases a model class can list. *)
Inductive BaseRef : Type :=
| Base
| BaseModelB
| HasLoginsB
| HasLogsB.

Record Class : Type := mkClass {
  cls_name : string;
  cls_bases : list BaseRef;
  cls_tablename : string;
  cls_body : list (string * Attr)
}.

(** A column of an association [Table]. *)
Record TableDecl : Type := mkTable {
  tbl_name : string;
  tbl_columns : list (string * list ColArg)
}.

(** ** Reading the keyword arguments *)

Fixpoint arg_unique (args : list ColArg) : option bool :=
  match args with
  | [] => None
  | unique b :: _ => Some b
  | _ :: rest => arg_unique rest
  end.

Fixpoint arg_nullable (args : list ColArg) : option bool :=
  match args with
  | [] => None
  | nullable b :: _ => Some b
  | _ :: rest => arg_nullable rest
  end.

Fixpoint arg_primary_key (args : list ColArg) : bool :=
  match args with
  | [] => false
  | primary_key b :: _ => b
  | _ :: rest => arg_primary_key rest
  end.

Fixpoint arg_default (args : list ColArg) : option Default :=
  match args with
  | [] => None
  | default d :: _ => Some d
  | _ :: rest => arg_default rest
  end.

Fixpoint arg_onupdate (args : list ColArg) : option Default :=
  match args with
  | [] => None
  | onupdate d :: _ => Some d
  | _ :: rest => arg_onupdate rest
  end.

Fixpoint arg_fk (args : list ColArg) : option (string * option string) :=
  match args with
  | [] => None
  | ForeignKey t od :: _ => Some (t, od)
  | _ :: rest => arg_fk rest
  end.

(** [unique=True] puts a UNIQUE constraint on the column; an absent
    [unique] puts none. *)
Definition is_unique (c : ColumnDecl) : bool :=
  match arg_unique (col_args c) with Some b => b | None => false end.

Definition is_primary_key (c : ColumnDecl) : bool := arg_primary_key (col_args c).

(** [nullable] defaults to [not primary_key]. *)
Definition is_nullable (c : ColumnDecl) : bool :=
  match arg_nullable (col_args c) with
  | Some b => b
  | None => negb (is_primary_key c)
  end.

Fixpoint arg_secondary (args : list RelArg) : option string :=
  match args with
  | [] => None
  | secondary t :: _ => Some t
  | _ :: rest => arg_secondary rest
  end.

Fixpoint arg_cascade (args : list RelArg) : option string :=
  match args with
  | [] => None
  | cascade s :: _ => Some s
  | _ :: rest => arg_cascade rest
  end.

Fixpoint arg_backref (args : list RelArg) : option string :=
  match args with
  | [] => None
  | backref n :: _ => Some n
  | _ :: rest => arg_backref rest
  end.

Fixpoint arg_viewonly (args : list RelArg) : bool :=
  match args with
  | [] => false
  | viewonly b :: _ => b
  | _ :: rest => arg_viewonly rest
  end.

Fixpoint arg_uselist (args : list RelArg) : option bool :=
  match args with
  | [] => None
  | uselist b :: _ => Some b
  | _ :: rest => arg_uselist rest
  end.

Fixpoint arg_order_by (args : list RelArg) : option string :=
  match args with
  | [] => None
  | order_by s :: _ => Some s
  | _ :: rest => arg_order_by rest
  end.

Fixpoint arg_primaryjoin (args : list RelArg) : option (list JoinCond) :=
  match args with
  | [] => None
  | primaryjoin c :: _ => Some c
  | _ :: rest => arg_primaryjoin rest
  end.

(** ** Small string tools: the cascade string and the [ForeignKey] target *)

Definition comma : ascii := ","%char.
Definition dot : ascii := "."%char.
Definition space : ascii := " "%char.

Fixpoint split_on (sep : ascii) (s : string) : list string :=
  match s with
  | EmptyString => [EmptyString]
  | String c rest =>
      if Ascii.eqb c sep then EmptyString :: split_on sep rest
      else match split_on sep rest with
           | [] => [String c EmptyString]
           | w :: ws => String c w :: ws
           end
  end.

Fixpoint remove_spaces (s : string) : string :=
  match s with
  | EmptyString => EmptyString
  | String c rest =>
      if Ascii.eqb c space then remove_spaces rest else String c (remove_spaces rest)
  end.

Definition mem_string (x : string) (l : list string) : bool :=
  existsb (String.eqb x) l.

(** The cascade options named by a cascade string: the comma-separated
    words, with [all] standing for save-update, merge, refresh-expire,
    expunge and delete.  A relationship without [cascade=] has
    "save-update, merge". *)
Definition cascade_options (r : RelDecl) : list string :=
  let words :=
    match arg_cascade (rel_args r) with
    | Some s => map remove_spaces (split_on comma s)
    | None => ["save-update"; "merge"]
    end in
  if mem_string "all" words
  then (["save-update"; "merge"; "refresh-expire"; "expunge"; "delete"]
        ++ filter (fun w => negb (String.eqb w "all")) words)%list
  else words.

Definition cascades_delete (r : RelDecl) : bool :=
  mem_string "delete" (cascade_options r).

(** ["users.id"] names table [users], column [id]. *)
Definition fk_target (target : string) : string * string :=
  match split_on dot target with
  | t :: c :: _ => (t, c)
  | _ => (target, "id")
  end.

Definition col_fk (c : ColumnDecl) : option (string * string) :=
  match arg_fk (col_args c) with
  | Some (t, _) => Some (fk_target t)
  | None => None
  end.

(** ** The declarations of models.py *)

Definition uuid_generate_v4 : Default := literal_column "uuid_generate_v4()".
Definition current_user : Default := literal_column "current_user".

(** The mixins are [declared_attr]s: one relationship per class that
    lists the mixin, built from that class ([cls.id], [cls.__name__]). *)
Definition HasLogins (cls : string) : list (string * Attr) :=
  [ ("logins", relationship "LoginModel"
       [ order_by "desc(LoginModel.created)";
         primaryjoin [JoinOwner "user_id" "id"];
         lazy_ "select" ]) ].

Definition HasLogs (cls : string) : list (string * Attr) :=
  [ ("logs", relationship "LogModel"
       [ order_by "desc(LogModel.created)";
         primaryjoin [JoinOwner "oid" "id"; JoinLit "discriminator" cls];
         lazy_ "select" ]) ].

(** The abstract [BaseModel]. *)
Definition BaseModel : list (string * Attr) :=
  [ ("id", Column (String_ (Some 40))
       [autoincrement false; default uuid_generate_v4; unique true; primary_key true]);
    ("name", Column (String_ (Some 80)) [unique true; nullable false; primary_key true]);
    ("owner", Column (String_ (Some 40)) [default current_user]);
    ("status", Column (String_ (Some 20)) [nullable false; default (const (VStr "ready"))]);
    ("requested_status", Column (String_ (Some 40)) [default (const (VStr "ready"))]);
    ("enabled", Column Boolean []);
    ("created", Column DateTime [default datetime_now; nullable false]);
    ("lastupdated", Column DateTime
       [default datetime_now; onupdate datetime_now; nullable false]) ].

Definition LogModel : Class := mkClass "LogModel" [Base] "log"
  [ ("id", Column (String_ (Some 40))
       [autoincrement false; default uuid_generate_v4; unique true; primary_key true]);
    ("user_id", Column (String_ None) [ForeignKey "users.id" None; nullable false]);
    ("user", relationship "UserModel" [lazy_ "True"]);
    ("public", Column Boolean [default (const (VBool false))]);
    ("created", Column DateTime [default datetime_now; nullable false]);
    ("oid", Column (String_ (Some 40)) [primary_key true]);
    ("discriminator", Column (String_ (Some 40)) []);
    ("text", Column (String_ (Some 80)) [nullable false]);
    ("source", Column (String_ (Some 40)) [nullable false]) ].

(** The module-level list [rights].  Two adjacent string literals with no
    comma between them are one literal in Python, so the entry written
    ["EDIT_PROCESSOR_CODE" "LS_PROCESSORS"] is the single string below. *)
Definition rights : list string :=
  [ "ALL"; "CREATE"; "READ"; "UPDATE"; "DELETE"; "DB_DROP"; "DB_INIT";
    "START_AGENT"; "RUN_TASK"; "CANCEL_TASK";
    "START_PROCESSOR"; "STOP_PROCESSOR"; "PAUSE_PROCESSOR"; "RESUME_PROCESSOR";
    "LOCK_PROCESSOR"; "UNLOCK_PROCESSOR";
    "VIEW_PROCESSOR"; "VIEW_PROCESSOR_CONFIG"; "VIEW_PROCESSOR_CODE";
    "EDIT_PROCESSOR_CONFIG";
    "EDIT_PROCESSOR_CODE" ++ "LS_PROCESSORS";
    "LS_USERS"; "LS_USER"; "LS_PLUGS"; "LS_SOCKETS"; "LS_QUEUES"; "LS_AGENTS";
    "LS_NODES"; "LS_SCHEDULERS"; "LS_WORKERS";
    "ADD_PROCESSOR"; "ADD_AGENT"; "ADD_NODE"; "ADD_PLUG"; "ADD_PRIVILEGE";
    "ADD_QUEUE"; "ADD_ROLE"; "ADD_SCHEDULER"; "ADD_SOCKET"; "ADD_USER";
    "UPDATE_PROCESSOR"; "UPDATE_AGENT"; "UPDATE_NODE"; "UPDATE_PLUG";
    "UPDATE_ROLE"; "UPDATE_SCHEDULER"; "UPDATE_SOCKET"; "UPDATE_USER";
    "DELETE_PROCESSOR"; "DELETE_AGENT"; "DELETE_NODE"; "DELETE_PLUG";
    "DELETE_PRIVILEGE"; "DELETE_QUEUE"; "DELETE_ROLE"; "DELETE_SCHEDULER";
    "DELETE_SOCKET"; "DELETE_USER";
    "READ_PROCESSOR"; "READ_AGENT"; "READ_NODE"; "READ_LOG"; "READ_PLUG";
    "READ_PRIVILEGE"; "READ_QUEUE"; "READ_ROLE"; "READ_SCHEDULER";
    "READ_SOCKET"; "READ_USER" ].

Definition PrivilegeModel : Class := mkClass "PrivilegeModel" [BaseModelB] "privilege"
  [ ("right", Column (Enum rights "right") []) ].

Definition role_privileges : TableDecl := mkTable "role_privileges"
  [ ("role_id", [ForeignKey "role.id" None]);
    ("privilege_id", [ForeignKey "privilege.id" None]) ].

Definition RoleModel : Class := mkClass "RoleModel" [BaseModelB] "role"
  [ ("privileges", relationship "PrivilegeModel"
       [secondary "role_privileges"; lazy_ "subquery"]) ].

Definition user_privileges_revoked : TableDecl := mkTable "user_privileges_revoked"
  [ ("user_id", [ForeignKey "users.id" None]);
    ("privilege_id", [ForeignKey "privilege.id" None]) ].

Definition user_privileges : TableDecl := mkTable "user_privileges"
  [ ("user_id", [ForeignKey "users.id" None]);
    ("privilege_id", [ForeignKey "privilege.id" None]) ].

Definition user_roles : TableDecl := mkTable "user_roles"
  [ ("user_id", [ForeignKey "users.id" None]);
    ("role_id", [ForeignKey "role.id" None]) ].

Definition UserModel : Class := mkClass "UserModel" [HasLoginsB; BaseModelB] "users"
  [ ("email", Column (String_ (Some 120)) [unique true; nullable false]);
    ("password", Column (String_ (Some 60)) [unique false; nullable false]);
    ("clear", Column (String_ (Some 60)) [unique false; nullable false]);
    ("privileges", relationship "PrivilegeModel"
       [secondary "user_privileges"; lazy_ "subquery"]);
    ("revoked", relationship "PrivilegeModel"
       [secondary "user_privileges_revoked"; lazy_ "subquery"]);
    ("roles", relationship "RoleModel" [secondary "user_roles"; lazy_ "subquery"]) ].

Definition socket_types : list string := ["RESULT"; "ERROR"].
Definition plug_types : list string := ["RESULT"; "ERROR"].
Definition schedule_types : list string := ["CRON"; "INTERVAL"].
Definition strategies : list string := ["BALANCED"; "EFFICIENT"].

Definition FileModel : Class := mkClass "FileModel" [BaseModelB] "file"
  [ ("path", Column (String_ (Some 120)) []);
    ("filename", Column (String_ (Some 80)) []);
    ("collection", Column (String_ (Some 80)) []);
    ("code", Column Text []);
    ("type", Column (String_ (Some 40)) []);
    ("icon", Column (String_ (Some 40)) []);
    ("versions", relationship "VersionModel"
       [back_populates "file"; cascade "all, delete-orphan"]);
    ("user_id", Column (String_ None) [ForeignKey "users.id" None; nullable false]);
    ("user", relationship "UserModel" [lazy_ "True"]) ].

Definition flows_versions : TableDecl := mkTable "flows_versions"
  [ ("flow_id", [ForeignKey "flow.id" None; primary_key true]);
    ("version_id", [ForeignKey "versions.id" None; primary_key true]) ].

Definition FlowModel : Class := mkClass "FlowModel" [BaseModelB] "flow"
  [ ("processors", relationship "ProcessorModel" [lazy_ "True"]);
    ("file_id", Column (String_ None) [ForeignKey "file.id" None; nullable false]);
    ("file", relationship "FileModel"
       [lazy_ "True"; cascade "all, delete-orphan"; single_parent true]);
    ("versions", relationship "VersionModel"
       [secondary "flows_versions"; lazy_ "True"]) ].

Definition AgentModel : Class := mkClass "AgentModel" [BaseModelB] "agent"
  [ ("hostname", Column (String_ (Some 60)) []);
    ("cpus", Column Integer []);
    ("port", Column Integer []);
    ("pid", Column Integer []);
    ("workers", relationship "WorkerModel"
       [backref "agent"; lazy_ "True"; cascade "all, delete-orphan"]);
    ("node_id", Column (String_ (Some 40)) [ForeignKey "node.id" None; nullable false]) ].

Definition ActionModel : Class := mkClass "ActionModel" [BaseModelB] "action"
  [ ("params", Column (String_ (Some 80)) []);
    ("target", Column (String_ (Some 20)) [nullable false]) ].

Definition WorkerModel : Class := mkClass "WorkerModel" [BaseModelB] "worker"
  [ ("backend", Column (String_ (Some 40)) [nullable false]);
    ("broker", Column (String_ (Some 40)) [nullable false]);
    ("concurrency", Column Integer []);
    ("process", Column Integer []);
    ("port", Column Integer []);
    ("hostname", Column (String_ (Some 60)) []);
    ("workerdir", Column (String_ (Some 256)) []);
    ("processor", relationship "ProcessorModel" []);
    ("processor_id", Column (String_ (Some 40))
       [ForeignKey "processor.id" (Some "CASCADE"); nullable false]);
    ("deployment_id", Column (String_ (Some 40))
       [ForeignKey "deployment.id" None; nullable true]);
    ("deployment", relationship "DeploymentModel" [back_populates "worker"]);
    ("agent_id", Column (String_ (Some 40)) [ForeignKey "agent.id" None; nullable false]) ].

Definition ContainerModel : Class := mkClass "ContainerModel" [BaseModelB] "container"
  [ ("container_id", Column (String_ (Some 80)) [unique true; nullable false]) ].

Definition VersionModel : Class := mkClass "VersionModel" [Base] "versions"
  [ ("id", Column (String_ (Some 40))
       [autoincrement false; default uuid_generate_v4; unique true; primary_key true]);
    ("name", Column (String_ (Some 80)) [unique false; nullable false]);
    ("file_id", Column (String_ None) [ForeignKey "file.id" None; nullable false]);
    ("file", relationship "FileModel"
       [lazy_ "True"; cascade "all, delete-orphan"; single_parent true]);
    ("owner", Column (String_ (Some 40)) [default current_user]);
    ("flow", Column Text [unique false; nullable false]);
    ("version", Column DateTime
       [default datetime_now; onupdate datetime_now; nullable false]) ].

Definition DeploymentModel : Class := mkClass "DeploymentModel" [BaseModelB] "deployment"
  [ ("name", Column (String_ (Some 80)) [unique false; nullable false]);
    ("hostname", Column (String_ (Some 80)) [nullable false]);
    ("cpus", Column Integer [default (const (VInt 1)); nullable false]);
    ("processor_id", Column (String_ (Some 40))
       [ForeignKey "processor.id" None; nullable false]);
    ("worker", relationship "WorkerModel"
       [lazy_ "True"; uselist false; back_populates "deployment"]) ].

Definition ProcessorModel : Class :=
  mkClass "ProcessorModel" [HasLogsB; BaseModelB] "processor"
  [ ("module", Column (String_ (Some 80)) [nullable false]);
    ("beat", Column Boolean []);
    ("gitrepo", Column (String_ (Some 180)) []);
    ("branch", Column (String_ (Some 30)) [default (const (VStr "main"))]);
    ("commit", Column (String_ (Some 50)) [nullable true]);
    ("gittag", Column (String_ (Some 50)) [nullable true]);
    ("retries", Column Integer []);
    ("concurrency", Column Integer []);
    ("receipt", Column (String_ (Some 80)) [nullable true]);
    ("ratelimit", Column (String_ (Some 10)) [default (const (VInt 60))]);
    ("perworker", Column Boolean [default (const (VBool true))]);
    ("timelimit", Column Integer []);
    ("ignoreresult", Column Boolean []);
    ("serializer", Column (String_ (Some 10)) []);
    ("backend", Column (String_ (Some 80)) []);
    ("ackslate", Column Boolean []);
    ("trackstarted", Column Boolean []);
    ("disabled", Column Boolean []);
    ("retrydelay", Column Integer []);
    ("password", Column Boolean []);
    ("requirements", Column Text []);
    ("endpoint", Column Text []);
    ("modulepath", Column Text []);
    ("icon", Column Text []);
    ("cron", Column Text []);
    ("hasapi", Column Boolean []);
    ("uistate", Column Text []);
    ("description", Column Text [nullable true; default (const (VStr "Some description"))]);
    ("container_image", Column (String_ (Some 60)) []);
    ("container_command", Column (String_ (Some 180)) []);
    ("container_version", Column (String_ (Some 20)) [default (const (VStr "latest"))]);
    ("use_container", Column Boolean [default (const (VBool false))]);
    ("detached", Column Boolean [default (const (VBool false))]);
    ("user_id", Column (String_ None) [ForeignKey "users.id" None; nullable false]);
    ("user", relationship "UserModel" [backref "processor"; lazy_ "True"]);
    ("flow_id", Column (String_ (Some 40)) [ForeignKey "flow.id" None; nullable true]);
    ("password", relationship "PasswordModel" [lazy_ "True"; viewonly true]);
    ("password_id", Column (String_ None) [ForeignKey "passwords.id" None; nullable true]);
    ("plugs", relationship "PlugModel"
       [backref "processor"; lazy_ "True"; cascade "all, delete-orphan"]);
    ("deployments", relationship "DeploymentModel"
       [backref "processor"; lazy_ "True"; cascade "all, delete-orphan"]);
    ("sockets", relationship "SocketModel"
       [backref "processor"; lazy_ "True"; cascade "all, delete-orphan"]) ].

Definition JobModel : Class := mkClass "JobModel" [Base] "jobs"
  [ ("id", Column (String_ (Some 200)) [primary_key true]);
    ("next_run_time", Column DOUBLE_PRECISION []);
    ("job_state", Column LargeBinary []) ].

Definition PasswordModel : Class := mkClass "PasswordModel" [BaseModelB] "passwords"
  [ ("id", Column (String_ (Some 40))
       [autoincrement false; default uuid_generate_v4; unique true; primary_key true]);
    ("password", Column (String_ (Some 60)) [nullable false]);
    ("processor", relationship "ProcessorModel" [lazy_ "True"; uselist false]) ].

Definition NetworkModel : Class := mkClass "NetworkModel" [BaseModelB] "network"
  [ ("schedulers", relationship "SchedulerModel"
       [backref "network"; lazy_ "True"; cascade "all, delete"]);
    ("queues", relationship "QueueModel"
       [backref "network"; lazy_ "True"; cascade "all, delete"]);
    ("nodes", relationship "NodeModel"
       [backref "network"; lazy_ "True"; cascade "all, delete"]);
    ("user_id", Column (String_ None) [ForeignKey "users.id" None; nullable false]);
    ("user", relationship "UserModel" [lazy_ "True"]) ].

Definition WorkModel : Class := mkClass "WorkModel" [BaseModelB] "work"
  [ ("next_run_time", Column DOUBLE_PRECISION []);
    ("job_state", Column LargeBinary []);
    ("task_id", Column (String_ (Some 40)) [ForeignKey "task.id" None]);
    ("task", relationship "TaskModel" [single_parent true]) ].

Definition calls_events : TableDecl := mkTable "calls_events"
  [ ("call_id", [ForeignKey "call.id" None; primary_key true]);
    ("event_id", [ForeignKey "event.id" None; primary_key true]) ].

Definition CallModel : Class := mkClass "CallModel" [BaseModelB] "call"
  [ ("name", Column (String_ (Some 80)) [unique false; nullable false]);
    ("state", Column (String_ (Some 10)) []);
    ("parent", Column (String_ (Some 80)) [nullable true]);
    ("taskparent", Column (String_ (Some 80)) [nullable true]);
    ("resultid", Column (String_ (Some 80)) []);
    ("celeryid", Column (String_ (Some 80)) []);
    ("tracking", Column (String_ (Some 80)) []);
    ("argument", Column (String_ (Some 40)) []);
    ("task_id", Column (String_ (Some 40)) [ForeignKey "task.id" None; nullable false]);
    ("started", Column DateTime [default datetime_now; nullable false]);
    ("finished", Column DateTime []);
    ("socket_id", Column (String_ (Some 40)) [ForeignKey "socket.id" None; nullable false]);
    ("socket", relationship "SocketModel"
       [back_populates "call"; lazy_ "True"; uselist false]);
    ("events", relationship "EventModel"
       [secondary "calls_events"; lazy_ "True"; cascade "all, delete"]) ].

Definition SchedulerModel : Class := mkClass "SchedulerModel" [BaseModelB] "scheduler"
  [ ("nodes", relationship "NodeModel" [backref "scheduler"; lazy_ "True"]);
    ("strategy", Column (Enum strategies "strategies") []);
    ("network_id", Column (String_ (Some 40)) [ForeignKey "network.id" None]) ].

Definition SettingsModel : Class := mkClass "SettingsModel" [BaseModelB] "settings"
  [ ("value", Column (String_ (Some 80)) [nullable false]) ].

Definition NodeModel : Class := mkClass "NodeModel" [BaseModelB] "node"
  [ ("hostname", Column (String_ (Some 60)) []);
    ("scheduler_id", Column (String_ (Some 40))
       [ForeignKey "scheduler.id" None; nullable true]);
    ("memsize", Column (String_ (Some 60)) [default (const (VStr "NaN"))]);
    ("freemem", Column (String_ (Some 60)) [default (const (VStr "NaN"))]);
    ("memused", Column Float [default (const (VInt 0))]);
    ("disksize", Column (String_ (Some 60)) [default (const (VStr "NaN"))]);
    ("diskusage", Column (String_ (Some 60)) [default (const (VStr "NaN"))]);
    ("cpus", Column Integer [default (const (VInt 0))]);
    ("cpuload", Column Float [default (const (VInt 0))]);
    ("network_id", Column (String_ (Some 40)) [ForeignKey "network.id" None]);
    ("agent", relationship "AgentModel"
       [backref "node"; uselist false; cascade "all, delete-orphan"]) ].

Definition plugs_arguments : TableDecl := mkTable "plugs_arguments"
  [ ("plug_id", [ForeignKey "plug.id" None; primary_key true]);
    ("argument_id", [ForeignKey "argument.id" None; primary_key true]) ].

Definition ArgumentModel : Class := mkClass "ArgumentModel" [BaseModelB] "argument"
  [ ("name", Column (String_ (Some 60)) [nullable false]);
    ("position", Column Integer [default (const (VInt 0))]);
    ("kind", Column Integer []);
    ("task_id", Column (String_ (Some 40)) [ForeignKey "task.id" None]);
    ("user_id", Column (String_ None) [ForeignKey "users.id" None; nullable false]);
    ("user", relationship "UserModel" [lazy_ "True"]);
    ("plugs", relationship "PlugModel" [backref "argument"]) ].

Definition TaskModel : Class := mkClass "TaskModel" [BaseModelB] "task"
  [ ("module", Column (String_ (Some 120)) [nullable false; primary_key true]);
    ("gitrepo", Column (String_ (Some 180)) [nullable false; primary_key true]);
    ("mixin", Column Boolean [default (const (VBool false))]);
    ("source", Column Text []);
    ("code", Column Text []);
    ("sockets", relationship "SocketModel" [back_populates "task"]);
    ("arguments", relationship "ArgumentModel" [backref "task"]) ].

Definition EventModel : Class := mkClass "EventModel" [BaseModelB] "event"
  [ ("note", Column (String_ (Some 80)) [nullable false]);
    ("name", Column (String_ (Some 80)) [nullable false]);
    ("call_id", Column (String_ (Some 40)) [ForeignKey "call.id" None]);
    ("call", relationship "CallModel"
       [back_populates "events"; single_parent true; cascade "all, delete-orphan"]) ].

Definition sockets_queues : TableDecl := mkTable "sockets_queues"
  [ ("socket_id", [ForeignKey "socket.id" None]);
    ("queue_id", [ForeignKey "queue.id" None]) ].

Definition plugs_source_sockets : TableDecl := mkTable "plugs_source_sockets"
  [ ("plug_id", [ForeignKey "plug.id" None; primary_key true]);
    ("socket_id", [ForeignKey "socket.id" None; primary_key true]) ].

Definition plugs_target_sockets : TableDecl := mkTable "plugs_target_sockets"
  [ ("plug_id", [ForeignKey "plug.id" None; primary_key true]);
    ("socket_id", [ForeignKey "socket.id" None; primary_key true]) ].

Definition GateModel : Class := mkClass "GateModel" [BaseModelB] "gate"
  [ ("open", Column Boolean []);
    ("task_id", Column (String_ (Some 40)) [ForeignKey "task.id" None]) ].

Definition SocketModel : Class := mkClass "SocketModel" [BaseModelB] "socket"
  [ ("processor_id", Column (String_ (Some 40))
       [ForeignKey "processor.id" None; nullable false]);
    ("schedule_type", Column (Enum schedule_types "schedule_type") []);
    ("scheduled", Column Boolean []);
    ("cron", Column (String_ (Some 20)) []);
    ("description", Column Text [nullable true; default (const (VStr "Some description"))]);
    ("interval", Column Integer []);
    ("task_id", Column (String_ (Some 40)) [ForeignKey "task.id" None]);
    ("task", relationship "TaskModel"
       [back_populates "sockets"; single_parent true; cascade "delete, delete-orphan"]);
    ("user_id", Column (String_ None) [ForeignKey "users.id" None; nullable false]);
    ("user", relationship "UserModel" [lazy_ "True"]);
    ("wait", Column Boolean [default (const (VBool false))]);
    ("sourceplugs", relationship "PlugModel" [secondary "plugs_source_sockets"]);
    ("targetplugs", relationship "PlugModel" [secondary "plugs_target_sockets"]);
    ("queue", relationship "QueueModel" [secondary "sockets_queues"; uselist false]);
    ("call", relationship "CallModel"
       [back_populates "socket"; cascade "all, delete-orphan"]) ].

Definition plugs_queues : TableDecl := mkTable "plugs_queues"
  [ ("plug_id", [ForeignKey "plug.id" None]);
    ("queue_id", [ForeignKey "queue.id" None]) ].

Definition PlugModel : Class := mkClass "PlugModel" [BaseModelB] "plug"
  [ ("type", Column (Enum plug_types "plug_type") [default (const (VStr "RESULT"))]);
    ("processor_id", Column (String_ (Some 40))
       [ForeignKey "processor.id" None; nullable false]);
    ("source", relationship "SocketModel"
       [back_populates "sourceplugs"; secondary "plugs_source_sockets"; uselist false]);
    ("target", relationship "SocketModel"
       [back_populates "targetplugs"; secondary "plugs_target_sockets"; uselist false]);
    ("argument_id", Column (String_ None) [ForeignKey "argument.id" None]);
    ("user_id", Column (String_ None) [ForeignKey "users.id" None; nullable false]);
    ("user", relationship "UserModel" [lazy_ "True"]);
    ("description", Column Text [nullable true; default (const (VStr "Some description"))]);
    ("queue", relationship "QueueModel" [secondary "plugs_queues"; uselist false]) ].

Definition QueueModel : Class := mkClass "QueueModel" [BaseModelB] "queue"
  [ ("qtype", Column (String_ (Some 20)) [nullable false; default (const (VStr "direct"))]);
    ("durable", Column Boolean [default (const (VBool true))]);
    ("reliable", Column Boolean [default (const (VBool true))]);
    ("auto_delete", Column Boolean [default (const (VBool true))]);
    ("max_length", Column Integer [default (const (VInt (-1)))]);
    ("max_length_bytes", Column Integer [default (const (VInt (-1)))]);
    ("message_ttl", Column Integer [default (const (VInt 3000))]);
    ("expires", Column Integer [default (const (VInt 3000))]);
    ("network_id", Column (String_ (Some 40)) [ForeignKey "network.id" None]) ].

Definition LoginModel : Class := mkClass "LoginModel" [Base] "login"
  [ ("id", Column (String_ (Some 40))
       [autoincrement false; default uuid_generate_v4; unique true; primary_key true]);
    ("owner", Column (String_ (Some 40)) [default current_user]);
    ("created", Column DateTime [default datetime_now; nullable false]);
    ("lastupdated", Column DateTime
       [default datetime_now; onupdate datetime_now; nullable false]);
    ("login", Column DateTime [default datetime_now; nullable false]);
    ("token", Column (String_ (Some 40))
       [autoincrement false; default uuid_generate_v4; unique true; primary_key true]);
    ("user_id", Column (String_ None) [ForeignKey "users.id" None; nullable false]);
    ("user", relationship "UserModel" [lazy_ "True"; overlaps "logins"]) ].

(** Every mapped class of the module, in source order, and every
    association table. *)
Definition models : list Class :=
  [ LogModel; PrivilegeModel; RoleModel; UserModel; FileModel; FlowModel;
    AgentModel; ActionModel; WorkerModel; ContainerModel; VersionModel;
    DeploymentModel; ProcessorModel; JobModel; PasswordModel; NetworkModel;
    WorkModel; CallModel; SchedulerModel; SettingsModel; NodeModel;
    ArgumentModel; TaskModel; EventModel; GateModel; SocketModel; PlugModel;
    QueueModel; LoginModel ].

Definition association_tables : list TableDecl :=
  [ role_privileges; user_privileges_revoked; user_privileges; user_roles;
    flows_versions; calls_events; plugs_arguments; sockets_queues;
    plugs_source_sockets; plugs_target_sockets; plugs_queues ].

(** ** Attribute resolution *)

Fixpoint lookup (A : Type) (k : string) (l : list (string * A)) : option A :=
  match l with
  | [] => None
  | (k', a) :: rest => if String.eqb k k' then Some a else lookup k rest
  end.

Definition bound (A : Type) (k : string) (l : list (string * A)) : bool :=
  match lookup k l with Some _ => true | None => false end.

(** A class body is executed top to bottom: a name assigned twice keeps
    its last value. *)
Fixpoint last_bindings (A : Type) (body : list (string * A)) : list (string * A) :=
  match body with
  | [] => []
  | (n, a) :: rest =>
      if bound n rest then last_bindings rest else (n, a) :: last_bindings rest
  end.

Definition base_body (b : BaseRef) (cls : string) : list (string * Attr) :=
  match b with
  | Base => []
  | BaseModelB => BaseModel
  | HasLoginsB => HasLogins cls
  | HasLogsB => HasLogs cls
  end.

(** The attributes a class ends up with: its own, then those of its bases
    from left to right that it has not bound itself. *)
Definition attributes (c : Class) : list (string * Attr) :=
  fold_left
    (fun acc b =>
       (acc ++ filter (fun na => negb (bound (fst na) acc))
                      (last_bindings (base_body b (cls_name c))))%list)
    (cls_bases c) (last_bindings (cls_body c)).

Fixpoint columns_in (attrs : list (string * Attr)) : list (string * ColumnDecl) :=
  match attrs with
  | [] => []
  | (n, AColumn c) :: rest => (n, c) :: columns_in rest
  | (_, ARel _) :: rest => columns_in rest
  end.

Fixpoint relationships_in (attrs : list (string * Attr)) : list (string * RelDecl) :=
  match attrs with
  | [] => []
  | (n, ARel r) :: rest => (n, r) :: relationships_in rest
  | (_, AColumn _) :: rest => relationships_in rest
  end.

Definition columns (c : Class) : list (string * ColumnDecl) := columns_in (attributes c).

Definition relationships (c : Class) : list (string * RelDecl) :=
  relationships_in (attributes c).

Definition find_class (name : string) : option Class :=
  find (fun c => String.eqb (cls_name c) name) models.

Definition find_table (name : string) : option TableDecl :=
  find (fun t => String.eqb (tbl_name t) name) association_tables.

(** [backref="n"] on a relationship of class [m] towards [c] gives [c] an
    attribute [n]: a plain relationship back to [m]. *)
Definition backrefs (c : Class) : list (string * RelDecl) :=
  flat_map
    (fun m =>
       flat_map
         (fun nr =>
            if String.eqb (rel_target (snd nr)) (cls_name c)
            then match arg_backref (rel_args (snd nr)) with
                 | Some n => [(n, mkRel (cls_name m) [])]
                 | None => []
                 end
            else [])
         (relationships m))
    models.

Definition all_relationships (c : Class) : list (string * RelDecl) :=
  (relationships c ++ backrefs c)%list.

(** ** The store *)

Definition Row : Type := list (string * value).

Definition get (r : Row) (k : string) : option value := lookup k r.

(** The rows of the store, each with the name of its table, in the order
    in which they were written: the order in which a query that asks for
    none is taken to return them. *)
Definition DB : Type := list (string * Row).

Definition table_rows (db : DB) (t : string) : list Row :=
  map snd (filter (fun e => String.eqb (fst e) t) db).

(** SQL equality: a NULL equals nothing. *)
Definition sql_eqb (a b : option value) : bool :=
  match a, b with
  | Some x, Some y => value_eqb x y
  | _, _ => false
  end.

(** What the defaults draw on: the clock, the identifier generator (one
    draw per defaulted column) and the session's user. *)
Record Env : Type := mkEnv {
  now : Z;
  uuid_v4 : string -> string;
  acting_user : string
}.

Definition eval_default (env : Env) (col : string) (d : Default) : option value :=
  match d with
  | literal_column sql =>
      if String.eqb sql "uuid_generate_v4()" then Some (VStr (uuid_v4 env col))
      else if String.eqb sql "current_user" then Some (VStr (acting_user env))
      else None
  | datetime_now => Some (VTime (now env))
  | const v => Some v
  end.

(** The constraint a statement broke.  The database reports each as an
    integrity error; on create and update that is the specification's
    [ValidationError], on delete its [CascadeConflict]. *)
Inductive Violation : Type :=
| UnknownField (k : string)
| NotNull (k : string)
| BadValue (k : string)
| NotUnique (k : string)
| DuplicateKey
| NoReferent (k : string)
| StillReferenced (table : string)
| NoSuchRow.

Inductive error : Type :=
| ValidationError (why : Violation)
| CascadeConflict (table : string).

Inductive result (A : Type) : Type :=
| Ok (a : A)
| Err (e : error).

Arguments Ok {A} a.
Arguments Err {A} e.

(** ** INSERT *)

(** The row sent to the database: for each column the value given, else
    its default, else NULL. *)
Fixpoint with_defaults (env : Env) (cols : list (string * ColumnDecl)) (kw : Row) : Row :=
  match cols with
  | [] => []
  | (k, c) :: rest =>
      match lookup k kw with
      | Some v => (k, v) :: with_defaults env rest kw
      | None =>
          match arg_default (col_args c) with
          | Some d =>
              match eval_default env k d with
              | Some v => (k, v) :: with_defaults env rest kw
              | None => with_defaults env rest kw
              end
          | None => with_defaults env rest kw
          end
      end
  end.

(** A text the database can hold has no NUL character. *)
Definition nul_free (s : string) : bool :=
  forallb (fun ch => negb (Ascii.eqb ch Ascii.zero)) (list_ascii_of_string s).

(** Does the database take the value for a column of this type?  An
    [Enum] takes its values only, a [String(n)] a text of at most [n]
    characters, an [Integer] what fits in 32 bits.  (PostgreSQL cuts a
    longer text down to [n] characters when all it cuts are blanks; the
    model refuses every longer text, and what is proved of stored values
    is stated for values that fit.) *)
Definition type_ok (ty : ColType) (v : value) : bool :=
  match ty, v with
  | Enum values _, VStr s => mem_string s values
  | Enum _ _, _ => false
  | String_ (Some n), VStr s => Nat.leb (String.length s) n && nul_free s
  | String_ None, VStr s => nul_free s
  | Text, VStr s => nul_free s
  | Integer, VInt z => Z.leb (-2147483648) z && Z.leb z 2147483647
  | _, _ => true
  end.

(** The value is of the type of the column and the column takes it: the
    database stores it as it is given and hands it back the same. *)
Definition fits (ty : ColType) (v : value) : bool :=
  type_ok ty v &&
  match ty, v with
  | String_ _, VStr _ | Text, VStr _ | Enum _ _, VStr _ => true
  | Boolean, VBool _ => true
  | Integer, VInt _ => true
  | DateTime, VTime _ => true
  | LargeBinary, VBytes _ => true
  | _, _ => false
  end.

Definition first_name (A : Type) (p : string * A -> bool) (l : list (string * A))
  : option string :=
  match find p l with Some (k, _) => Some k | None => None end.

Definition check_not_null (cols : list (string * ColumnDecl)) (row : Row) : option string :=
  first_name
    (fun kc => negb (is_nullable (snd kc)) &&
               match get row (fst kc) with Some _ => false | None => true end)
    cols.

Definition check_types (cols : list (string * ColumnDecl)) (row : Row) : option string :=
  first_name
    (fun kc => match get row (fst kc) with
               | Some v => negb (type_ok (col_type (snd kc)) v)
               | None => false
               end)
    cols.

Definition check_unique (cols : list (string * ColumnDecl)) (others : list Row) (row : Row)
  : option string :=
  first_name
    (fun kc => is_unique (snd kc) &&
               existsb (fun r => sql_eqb (get r (fst kc)) (get row (fst kc))) others)
    cols.

Definition primary_key_of (cols : list (string * ColumnDecl)) : list string :=
  map fst (filter (fun kc => is_primary_key (snd kc)) cols).

Definition same_key (ks : list string) (a b : Row) : bool :=
  forallb (fun k => sql_eqb (get a k) (get b k)) ks.

Definition check_primary_key (cols : list (string * ColumnDecl)) (others : list Row)
  (row : Row) : bool :=
  match primary_key_of cols with
  | [] => true
  | ks => negb (existsb (same_key ks row) others)
  end.

Definition check_foreign_keys (db : DB) (cols : list (string * ColumnDecl)) (row : Row)
  : option string :=
  first_name
    (fun kc => match col_fk (snd kc), get row (fst kc) with
               | Some (t, c), Some v =>
                   negb (existsb (fun r => sql_eqb (get r c) (Some v)) (table_rows db t))
               | _, _ => false
               end)
    cols.

Definition check_row (db : DB) (cols : list (string * ColumnDecl)) (others : list Row)
  (row : Row) : option Violation :=
  match check_not_null cols row with
  | Some k => Some (NotNull k)
  | None =>
  match check_types cols row with
  | Some k => Some (BadValue k)
  | None =>
  match check_unique cols others row with
  | Some k => Some (NotUnique k)
  | None =>
  if negb (check_primary_key cols others row) then Some DuplicateKey
  else
  match check_foreign_keys db cols row with
  | Some k => Some (NoReferent k)
  | None => None
  end end end end.

(** Creating a record of class [c] from keyword arguments [kw]. *)
Definition insert (env : Env) (db : DB) (c : Class) (kw : Row) : result DB :=
  let cols := columns c in
  match first_name (fun kv => negb (bound (fst kv) cols)) kw with
  | Some k => Err (ValidationError (UnknownField k))
  | None =>
      let row := with_defaults env cols kw in
      match check_row db cols (table_rows db (cls_tablename c)) row with
      | Some v => Err (ValidationError v)
      | None => Ok (db ++ [(cls_tablename c, row)])%list
      end
  end.

(** ** Foreign keys *)

Definition class_of_table (t : string) : option Class :=
  find (fun c => String.eqb (cls_tablename c) t) models.

(** The foreign keys of a table: column, referenced (table, column),
    and the [ondelete] rule. *)
Definition fks_in (cols : list (string * list ColArg))
  : list (string * (string * string) * option string) :=
  flat_map (fun ka => match arg_fk (snd ka) with
                      | Some (tg, od) => [(fst ka, fk_target tg, od)]
                      | None => []
                      end) cols.

Definition table_fks (t : string) : list (string * (string * string) * option string) :=
  match class_of_table t with
  | Some c => fks_in (map (fun kc => (fst kc, col_args (snd kc))) (columns c))
  | None =>
      match find_table t with
      | Some td => fks_in (tbl_columns td)
      | None => []
      end
  end.

(** Does the foreign key [fk] of row [e] point at one of the rows [gone]? *)
Definition points_into (gone : DB) (e : string * Row)
  (fk : string * (string * string) * option string) : bool :=
  match fk with
  | (k, (t, c), _) =>
      existsb (fun g => String.eqb (fst g) t && sql_eqb (get (snd g) c) (get (snd e) k))
              gone
  end.

(** ** UPDATE *)

(** The row after an update: for each column the value assigned ([None]
    assigns NULL), else its [onupdate], else the value it had. *)
Fixpoint updated_row (env : Env) (cols : list (string * ColumnDecl))
  (changes : list (string * option value)) (old : Row) : Row :=
  match cols with
  | [] => []
  | (k, c) :: rest =>
      let tail := updated_row env rest changes old in
      match lookup k changes with
      | Some (Some v) => (k, v) :: tail
      | Some None => tail
      | None =>
          match match arg_onupdate (col_args c) with
                | Some d => eval_default env k d
                | None => get old k
                end with
          | Some v => (k, v) :: tail
          | None => tail
          end
      end
  end.

Definition has_id (i : string) (r : Row) : bool := sql_eqb (get r "id") (Some (VStr i)).

Definition is_row (t : string) (i : string) (e : string * Row) : bool :=
  String.eqb (fst e) t && has_id i (snd e).

(** Does the assignment leave the stored value as it is? *)
Definition unchanged (old : Row) (kv : string * option value) : bool :=
  match get old (fst kv), snd kv with
  | Some a, Some b => value_eqb a b
  | None, None => true
  | _, _ => false
  end.

(** A row that pointed at the old version of a row and does not point at
    the new one. *)
Definition left_behind (t : string) (old new : Row) (e : string * Row) : bool :=
  existsb (fun fk => points_into [(t, old)] e fk && negb (points_into [(t, new)] e fk))
          (table_fks (fst e)).

(** Updating the record of class [c] whose [id] is [i].  When no
    assignment changes a value the unit of work sends no statement: the
    row stays as it is and takes no [onupdate] stamp.  Otherwise the new
    version of the row is checked like a new row and written after the
    rows in store, and the database refuses to take a referenced key away
    from the rows that point at it. *)
Definition update (env : Env) (db : DB) (c : Class) (i : string)
  (changes : list (string * option value)) : result DB :=
  let cols := columns c in
  let t := cls_tablename c in
  match first_name (fun kv => negb (bound (fst kv) cols)) changes with
  | Some k => Err (ValidationError (UnknownField k))
  | None =>
      match find (has_id i) (table_rows db t) with
      | None => Err (ValidationError NoSuchRow)
      | Some old =>
          if forallb (unchanged old) changes then Ok db
          else
            let row := updated_row env cols changes old in
            let rest := filter (fun e => negb (is_row t i e)) db in
            match check_row db cols (table_rows rest t) row with
            | Some v => Err (ValidationError v)
            | None =>
                match find (left_behind t old row) rest with
                | Some e => Err (ValidationError (StillReferenced (fst e)))
                | None => Ok (rest ++ [(t, row)])%list
                end
            end
      end
  end.

(** ** Loading a relationship *)

(** How a relationship joins its two tables.  Without [primaryjoin] or
    [secondary] the ORM takes the one foreign key between the two tables:
    on the owner's table the relationship is many-to-one, on the target's
    it is one-to-many. *)
Inductive Join : Type :=
| ByCondition (conds : list JoinCond)
| ManyToMany (assoc owner_col owner_key target_col target_key : string)
| ManyToOne (local_col remote_key : string)
| OneToMany (remote_col local_key : string)
| NoJoin.

Definition fk_column_to (cols : list (string * ColumnDecl)) (table : string)
  : option (string * string) :=
  match find (fun kc => match col_fk (snd kc) with
                        | Some (t, _) => String.eqb t table
                        | None => false
                        end) cols with
  | Some (k, c) => match col_fk c with Some (_, rc) => Some (k, rc) | None => None end
  | None => None
  end.

Definition table_fk_to (td : TableDecl) (table : string) : option (string * string) :=
  fk_column_to (map (fun ka => (fst ka, mkColumn (String_ None) (snd ka))) (tbl_columns td))
               table.

Definition join_of (owner : Class) (r : RelDecl) (tc : Class) : Join :=
  match arg_primaryjoin (rel_args r) with
  | Some conds => ByCondition conds
  | None =>
      match arg_secondary (rel_args r) with
      | Some st =>
          match find_table st with
          | Some td =>
              match table_fk_to td (cls_tablename owner), table_fk_to td (cls_tablename tc) with
              | Some (oc, ok), Some (tcol, tk) => ManyToMany st oc ok tcol tk
              | _, _ => NoJoin
              end
          | None => NoJoin
          end
      | None =>
          match fk_column_to (columns owner) (cls_tablename tc) with
          | Some (lc, rk) => ManyToOne lc rk
          | None =>
              match fk_column_to (columns tc) (cls_tablename owner) with
              | Some (rc, lk) => OneToMany rc lk
              | None => NoJoin
              end
          end
      end
  end.

Definition holds (o x : Row) (c : JoinCond) : bool :=
  match c with
  | JoinOwner rc oc => sql_eqb (get x rc) (get o oc)
  | JoinLit rc lit => sql_eqb (get x rc) (Some (VStr lit))
  end.

(** Is target row [x] related to owner row [o]? *)
Definition joined (db : DB) (j : Join) (o x : Row) : bool :=
  match j with
  | ByCondition conds => forallb (holds o x) conds
  | ManyToMany st oc ok tcol tk =>
      existsb (fun a => sql_eqb (get a oc) (get o ok) && sql_eqb (get a tcol) (get x tk))
              (table_rows db st)
  | ManyToOne lc rk => sql_eqb (get x rk) (get o lc)
  | OneToMany rc lk => sql_eqb (get x rc) (get o lk)
  | NoJoin => false
  end.

(** [order_by="desc(T.col)"] names [col]. *)
Definition order_column (s : string) : option string :=
  if String.prefix "desc(" s
  then match split_on dot (String.substring 5 (String.length s - 6) s) with
       | _ :: c :: _ => Some c
       | _ => None
       end
  else None.

Definition time_key (c : string) (r : Row) : option Z :=
  match get r c with Some (VTime t) => Some t | _ => None end.

(** In descending order a NULL sorts before every value. *)
Definition key_gt (a b : option Z) : bool :=
  match a, b with
  | None, Some _ => true
  | Some x, Some y => Z.ltb y x
  | _, _ => false
  end.

Fixpoint insert_desc (c : string) (r : Row) (l : list Row) : list Row :=
  match l with
  | [] => [r]
  | x :: rest =>
      if key_gt (time_key c x) (time_key c r) then x :: insert_desc c r rest
      else r :: x :: rest
  end.

Definition sort_desc (c : string) (l : list Row) : list Row :=
  fold_right (insert_desc c) [] l.

(** Without [order_by] the rows come as the table holds them. *)
Definition ordered (r : RelDecl) (rows : list Row) : list Row :=
  match arg_order_by (rel_args r) with
  | Some s => match order_column s with Some c => sort_desc c rows | None => rows end
  | None => rows
  end.

(** Does the attribute hold one record rather than a list?  [uselist]
    says so; left out, a many-to-one relationship holds one record and
    every other a list. *)
Definition scalar (r : RelDecl) (j : Join) : bool :=
  match arg_uselist (rel_args r) with
  | Some b => negb b
  | None => match j with ManyToOne _ _ => true | _ => false end
  end.

(** The rows of the target [tc] that satisfy the join of relationship
    [r] of class [owner] for the owner row [o], in the order of the
    relationship. *)
Definition matching (db : DB) (owner : Class) (r : RelDecl) (tc : Class) (o : Row)
  : list Row :=
  ordered r (filter (joined db (join_of owner r tc) o)
                    (table_rows db (cls_tablename tc))).

(** The rows a relationship [r] of class [owner] loads for the owner row
    [o]: all that match, or the first of them when the attribute holds
    one record. *)
Definition related (db : DB) (owner : Class) (r : RelDecl) (o : Row) : list Row :=
  match find_class (rel_target r) with
  | Some tc =>
      if scalar r (join_of owner r tc)
      then firstn 1 (matching db owner r tc o)
      else matching db owner r tc o
  | None => []
  end.

(** Reading attribute [attr] of the record [i] of class [c]. *)
Definition load (db : DB) (c : Class) (i : string) (attr : string) : list Row :=
  match lookup attr (all_relationships c), find (has_id i) (table_rows db (cls_tablename c)) with
  | Some r, Some o => related db c r o
  | _, _ => []
  end.

(** ** DELETE with the declared cascades *)

(** A record: the name of its class and its [id]. *)
Definition obj : Type := (string * string)%type.

Definition obj_eqb (a b : obj) : bool :=
  String.eqb (fst a) (fst b) && String.eqb (snd a) (snd b).

Definition mem_obj (o : obj) (s : list obj) : bool := existsb (obj_eqb o) s.

Definition row_ids (rows : list Row) : list string :=
  flat_map (fun r => match get r "id" with Some (VStr i) => [i] | _ => [] end) rows.

Definition participates (r : RelDecl) : bool := negb (arg_viewonly (rel_args r)).

(** The records the delete cascade reaches from [o] in one step: what each
    relationship with the [delete] option loads.  ([delete-orphan] bears on
    a child taken out of its parent's collection, which is not an
    operation of this store.) *)
Definition delete_targets (db : DB) (o : obj) : list obj :=
  match find_class (fst o) with
  | None => []
  | Some c =>
      flat_map
        (fun row =>
           flat_map
             (fun nr =>
                if cascades_delete (snd nr) && participates (snd nr)
                then map (fun i => (rel_target (snd nr), i))
                         (row_ids (related db c (snd nr) row))
                else [])
             (all_relationships c))
        (filter (has_id (snd o)) (table_rows db (cls_tablename c)))
  end.

(** Depth-first walk of the cascade with a visited list.  Every step down
    adds a record not seen before, so the walk from one record never
    goes deeper than there are rows. *)
Fixpoint cascade_visit (fuel : nat) (db : DB) (seen : list obj) (o : obj) : list obj :=
  if mem_obj o seen then seen
  else match fuel with
       | O => o :: seen
       | S f => fold_left (cascade_visit f db) (delete_targets db o) (o :: seen)
       end.

Definition delete_set (db : DB) (o : obj) : list obj :=
  cascade_visit (S (length db)) db [] o.

(** Is this stored row one of the records to delete? *)
Definition marked (s : list obj) (e : string * Row) : bool :=
  match class_of_table (fst e), get (snd e) "id" with
  | Some c, Some (VStr i) => mem_obj (cls_name c, i) s
  | _, _ => false
  end.

(** The columns of the target's table that a relationship sets to NULL
    when the owner goes away and the target stays. *)
Definition foreign_cols (j : Join) : list string :=
  match j with
  | OneToMany rc _ => [rc]
  | ByCondition conds =>
      flat_map (fun c => match c with JoinOwner rc _ => [rc] | JoinLit _ _ => [] end) conds
  | _ => []
  end.

(** Rows to detach: (table, id, column) for each record that is related
    to a deleted one, is not deleted itself, and holds the foreign key. *)
Definition detachments (db : DB) (s : list obj) : list (string * string * string) :=
  flat_map
    (fun o =>
       match find_class (fst o) with
       | None => []
       | Some c =>
           flat_map
             (fun row =>
                flat_map
                  (fun nr =>
                     if participates (snd nr)
                     then match find_class (rel_target (snd nr)) with
                          | None => []
                          | Some tc =>
                              flat_map
                                (fun i =>
                                   if mem_obj (cls_name tc, i) s then []
                                   else map (fun k => (cls_tablename tc, i, k))
                                            (foreign_cols (join_of c (snd nr) tc)))
                                (row_ids (related db c (snd nr) row))
                          end
                     else [])
                  (all_relationships c))
             (filter (has_id (snd o)) (table_rows db (cls_tablename c)))
       end)
    s.

Definition blocked (d : string * string * string) : bool :=
  match d with
  | (t, _, k) =>
      match class_of_table t with
      | Some c => match lookup k (columns c) with
                  | Some col => negb (is_nullable col)
                  | None => false
                  end
      | None => false
      end
  end.

Definition detached_cols (ds : list (string * string * string)) (t i : string)
  : list string :=
  flat_map (fun d => match d with
                     | (t', i', k) =>
                         if String.eqb t t' && String.eqb i i' then [k] else []
                     end) ds.

(** Detaching is an UPDATE of the row: the columns go to NULL and the
    [onupdate] stamps are taken. *)
Definition detach (env : Env) (ds : list (string * string * string)) (e : string * Row)
  : string * Row :=
  match class_of_table (fst e), get (snd e) "id" with
  | Some c, Some (VStr i) =>
      match detached_cols ds (fst e) i with
      | [] => e
      | ks => (fst e, updated_row env (columns c) (map (fun k => (k, None)) ks) (snd e))
      end
  | _, _ => e
  end.

(** Rows of association tables that link a deleted record to a record
    one of its many-to-many relationships has loaded: the table, and the
    two columns with the key values they hold. *)
Definition unlinks (db : DB) (s : list obj)
  : list (string * (string * value) * (string * value)) :=
  flat_map
    (fun o =>
       match find_class (fst o) with
       | None => []
       | Some c =>
           flat_map
             (fun row =>
                flat_map
                  (fun nr =>
                     if participates (snd nr)
                     then match find_class (rel_target (snd nr)) with
                          | None => []
                          | Some tc =>
                              match join_of c (snd nr) tc with
                              | ManyToMany st oc ok tcol tk =>
                                  match get row ok with
                                  | Some v =>
                                      flat_map
                                        (fun x => match get x tk with
                                                  | Some w => [(st, (oc, v), (tcol, w))]
                                                  | None => []
                                                  end)
                                        (related db c (snd nr) row)
                                  | None => []
                                  end
                              | _ => []
                              end
                          end
                     else [])
                  (all_relationships c))
             (filter (has_id (snd o)) (table_rows db (cls_tablename c)))
       end)
    s.

Definition unlinked (us : list (string * (string * value) * (string * value)))
  (e : string * Row) : bool :=
  existsb (fun u => match u with
                    | (st, (oc, v), (tcol, w)) =>
                        String.eqb (fst e) st &&
                        sql_eqb (get (snd e) oc) (Some v) &&
                        sql_eqb (get (snd e) tcol) (Some w)
                    end) us.

(** Rows the database removes itself: a foreign key declared
    [ondelete="CASCADE"] that points at a removed row. *)
Definition db_cascaded (gone : DB) (e : string * Row) : bool :=
  existsb (fun fk => match snd fk with
                     | Some od => String.eqb od "CASCADE" && points_into gone e fk
                     | None => false
                     end)
          (table_fks (fst e)).

Definition dangling (gone : DB) (e : string * Row) : bool :=
  existsb (points_into gone e) (table_fks (fst e)).

(** Deleting the record [i] of class [c]: the cascade marks records, the
    related records that stay are detached, the association rows of the
    marked records and the marked rows go, and the database refuses the
    whole statement if a remaining row still points at a removed one. *)
Definition delete (env : Env) (db : DB) (c : Class) (i : string) : result DB :=
  let s := delete_set db (cls_name c, i) in
  let ds := detachments db s in
  match find blocked ds with
  | Some (t, _, _) => Err (CascadeConflict t)
  | None =>
      let gone := filter (marked s) db in
      let kept := filter (fun e => negb (marked s e)) db in
      let kept := filter (fun e => negb (unlinked (unlinks db s) e)) kept in
      let kept := map (detach env ds) kept in
      let gone' := filter (db_cascaded gone) kept in
      let kept := filter (fun e => negb (db_cascaded gone e)) kept in
      match find (dangling (gone ++ gone')%list) kept with
      | Some e => Err (CascadeConflict (fst e))
      | None => Ok kept
      end
  end.

(** Adding a target to a many-to-many collection stores one row in the
    association table.  The row is checked like any other: the columns of
    a primary key are required and no two rows share the key, and the
    foreign keys must point at stored rows. *)
Definition associate (db : DB) (t : TableDecl) (row : Row) : result DB :=
  let cols := map (fun ka => (fst ka, mkColumn (String_ None) (snd ka))) (tbl_columns t) in
  match check_row db cols (table_rows db (tbl_name t)) row with
  | Some v => Err (ValidationError v)
  | None => Ok (db ++ [(tbl_name t, row)])%list
  end.

Definition bind (A B : Type) (r : result A) (f : A -> result B) : result B :=
  match r with
  | Ok a => f a
  | Err e => Err e
  end.

Notation "x <- a ;; b" := (bind a (fun x => b))
  (at level 61, a at next level, right associativity).

(** ** Authorization *)

Inductive decision : Type := allow | deny.

Definition rights_of (rows : list Row) : list string :=
  flat_map (fun r => match get r "right" with Some (VStr s) => [s] | _ => [] end) rows.

(** The grant data as the module declares it: [UserModel.privileges],
    [UserModel.roles] with [RoleModel.privileges], and [UserModel.revoked]. *)
Definition direct_grants (db : DB) (actor : string) : list string :=
  rights_of (load db UserModel actor "privileges").

Definition role_grants (db : DB) (actor : string) : list string :=
  flat_map (fun role => rights_of (load db RoleModel role "privileges"))
           (row_ids (load db UserModel actor "roles")).

Definition revoked_set (db : DB) (actor : string) : list string :=
  rights_of (load db UserModel actor "revoked").

(** Modelled from the spec: step 1 of the decision procedure of section
    4.3.  The effective grant set is the direct privileges together with
    the privileges of every role held. *)
Definition effective_grants (db : DB) (actor : string) : list string :=
  (direct_grants db actor ++ role_grants db actor)%list.

(** Modelled from the spec: step 2 of the procedure.  The revoked set is
    subtracted from the effective grant set. *)
Definition resulting_set (db : DB) (actor : string) : list string :=
  filter (fun p => negb (mem_string p (revoked_set db actor))) (effective_grants db actor).

(** Modelled from the spec: the decision procedure [authorize] of section
    4.3, which the module under study does not contain (it only declares
    the grant data and registers the classes with the policy engine).
    Revocation always wins however the privilege was granted: a revoked
    action is denied (step 2).  [ALL] in the resulting set grants every
    other action, otherwise the action must match an entry by name (step
    3).  Otherwise deny (step 4).  The resource does not enter the
    decision. *)
Definition authorize (db : DB) (actor action resource : string) : decision :=
  if mem_string action (revoked_set db actor) then deny
  else if mem_string "ALL" (resulting_set db actor)
          || mem_string action (resulting_set db actor)
  then allow
  else deny.

(** ** Sample stores, built with the operations above *)

Definition env_at (t : Z) : Env := mkEnv t (fun col => "generated-" ++ col) "alice".

Definition the_db (r : result DB) : DB :=
  match r with Ok db => db | Err _ => [] end.

Definition alice : Row :=
  [ ("id", VStr "u1"); ("name", VStr "alice"); ("email", VStr "alice@example.org");
    ("password", VStr "$2b$12$hash"); ("clear", VStr "secret") ].

(** One user, one processor with two sockets on the same task, two plugs
    and a deployment. *)
Definition build_topology : result DB :=
  db <- insert (env_at 1) [] UserModel alice ;;
  db <- insert (env_at 2) db ProcessorModel
          [("id", VStr "p1"); ("name", VStr "proc"); ("module", VStr "mod");
           ("user_id", VStr "u1")] ;;
  db <- insert (env_at 3) db TaskModel
          [("id", VStr "t1"); ("name", VStr "task"); ("module", VStr "mod");
           ("gitrepo", VStr "repo")] ;;
  db <- insert (env_at 4) db SocketModel
          [("id", VStr "s1"); ("name", VStr "in1"); ("processor_id", VStr "p1");
           ("task_id", VStr "t1"); ("user_id", VStr "u1")] ;;
  db <- insert (env_at 5) db SocketModel
          [("id", VStr "s2"); ("name", VStr "in2"); ("processor_id", VStr "p1");
           ("task_id", VStr "t1"); ("user_id", VStr "u1")] ;;
  db <- insert (env_at 6) db PlugModel
          [("id", VStr "g1"); ("name", VStr "plug1"); ("processor_id", VStr "p1");
           ("user_id", VStr "u1")] ;;
  db <- insert (env_at 7) db PlugModel
          [("id", VStr "g2"); ("name", VStr "plug2"); ("processor_id", VStr "p1");
           ("user_id", VStr "u1")] ;;
  insert (env_at 8) db DeploymentModel
          [("id", VStr "d1"); ("name", VStr "dep"); ("hostname", VStr "host");
           ("processor_id", VStr "p1")].

Definition topology : DB := Eval vm_compute in the_db build_topology.

Definition call_kw (i : string) : Row :=
  [ ("id", VStr i); ("name", VStr "run"); ("task_id", VStr "t1"); ("socket_id", VStr "s1") ].

(** A call on socket [s1] with two events, the second created later. *)
Definition build_ledger : result DB :=
  db <- insert (env_at 10) topology CallModel (call_kw "c1") ;;
  db <- insert (env_at 11) db EventModel
          [("id", VStr "e1"); ("name", VStr "received"); ("note", VStr "received");
           ("call_id", VStr "c1")] ;;
  db <- associate db calls_events [("call_id", VStr "c1"); ("event_id", VStr "e1")] ;;
  db <- insert (env_at 12) db EventModel
          [("id", VStr "e2"); ("name", VStr "postrun"); ("note", VStr "postrun");
           ("call_id", VStr "c1")] ;;
  associate db calls_events [("call_id", VStr "c1"); ("event_id", VStr "e2")].

Definition ledger : DB := Eval vm_compute in the_db build_ledger.

Definition privilege_kw (i r : string) : Row :=
  [ ("id", VStr i); ("name", VStr r); ("right", VStr r) ].

(** The example of the specification: [alice] holds role [editor], which
    grants READ and UPDATE, and has UPDATE revoked.  [root] holds ALL
    directly and has READ revoked. *)
Definition build_grants : result DB :=
  db <- insert (env_at 1) [] UserModel alice ;;
  db <- insert (env_at 1) db UserModel
          [("id", VStr "u2"); ("name", VStr "root"); ("email", VStr "root@example.org");
           ("password", VStr "$2b$12$hash"); ("clear", VStr "secret")] ;;
  db <- insert (env_at 2) db PrivilegeModel (privilege_kw "pr1" "READ") ;;
  db <- insert (env_at 2) db PrivilegeModel (privilege_kw "pr2" "UPDATE") ;;
  db <- insert (env_at 2) db PrivilegeModel (privilege_kw "pr3" "ALL") ;;
  db <- insert (env_at 3) db RoleModel [("id", VStr "r1"); ("name", VStr "editor")] ;;
  db <- associate db role_privileges [("role_id", VStr "r1"); ("privilege_id", VStr "pr1")] ;;
  db <- associate db role_privileges [("role_id", VStr "r1"); ("privilege_id", VStr "pr2")] ;;
  db <- associate db user_roles [("user_id", VStr "u1"); ("role_id", VStr "r1")] ;;
  db <- associate db user_privileges_revoked
          [("user_id", VStr "u1"); ("privilege_id", VStr "pr2")] ;;
  db <- associate db user_privileges [("user_id", VStr "u2"); ("privilege_id", VStr "pr3")] ;;
  associate db user_privileges_revoked [("user_id", VStr "u2"); ("privilege_id", VStr "pr1")].

Definition grants : DB := Eval vm_compute in the_db build_grants.

(** Audit rows: two log entries on processor [p1], one entry with the
    same [oid] but another class name, and two logins of [alice]. *)
Definition log_kw (i cls : string) : Row :=
  [ ("id", VStr i); ("user_id", VStr "u1"); ("oid", VStr "p1");
    ("discriminator", VStr cls); ("text", VStr "started"); ("source", VStr "agent") ].

Definition build_audit : result DB :=
  db <- insert (env_at 20) topology LogModel (log_kw "l1" "ProcessorModel") ;;
  db <- insert (env_at 21) db LogModel (log_kw "l2" "ProcessorModel") ;;
  db <- insert (env_at 22) db LogModel (log_kw "l3" "SocketModel") ;;
  db <- insert (env_at 23) db LoginModel
          [("id", VStr "n1"); ("token", VStr "tok1"); ("user_id", VStr "u1")] ;;
  insert (env_at 24) db LoginModel
          [("id", VStr "n2"); ("token", VStr "tok2"); ("user_id", VStr "u1")].

Definition audit : DB := Eval vm_compute in the_db build_audit.

(** ** Notions used in the statements *)

Definition undefaulted (k : string) (cols : list (string * ColumnDecl)) : bool :=
  forallb (fun kc => negb (String.eqb (fst kc) k) ||
                     match arg_default (col_args (snd kc)) with
                     | None => true
                     | Some _ => false
                     end) cols.

Definition third_socket : Row :=
  [ ("id", VStr "s3"); ("name", VStr "in3"); ("processor_id", VStr "p1");
    ("task_id", VStr "t1"); ("user_id", VStr "u1") ].

Definition name_is_unique (c : Class) : bool :=
  match lookup "name" (columns c) with
  | Some col => is_unique col
  | None => false
  end.

Definition name_is_required (c : Class) : bool :=
  match lookup "name" (columns c) with
  | Some col => negb (is_nullable col) && undefaulted "name" (columns c)
  | None => false
  end.





(** Newest first: no row is followed by a strictly later one. *)
Fixpoint newest_first (c : string) (l : list Row) : bool :=
  match l with
  | [] => true
  | x :: rest =>
      match rest with
      | [] => true
      | y :: _ => negb (key_gt (time_key c y) (time_key c x)) && newest_first c rest
      end
  end.

Definition tagged (conds : list JoinCond) : bool :=
  existsb (fun c => match c with JoinLit _ _ => true | JoinOwner _ _ => false end) conds.

(** Does the lookup behind attribute [attr] of class [c] compare a type
    tag as well as the owner's id? *)
Definition filters_on_type_tag (c : Class) (attr : string) : bool :=
  match lookup attr (all_relationships c) with
  | Some r => match arg_primaryjoin (rel_args r) with
              | Some conds => tagged conds
              | None => false
              end
  | None => false
  end.

Definition no_onupdate (k : string) (cols : list (string * ColumnDecl)) : bool :=
  forallb (fun kc => negb (String.eqb (fst kc) k) ||
                     match arg_onupdate (col_args (snd kc)) with
                     | None => true
                     | Some _ => false
                     end) cols.

(** The plug, socket and deployment rows that reference processor [p]. *)
Definition children (db : DB) (p : string) : DB :=
  filter (fun e => mem_string (fst e) ["plug"; "socket"; "deployment"] &&
                   sql_eqb (get (snd e) "processor_id") (Some (VStr p))) db.

Definition child_class (t : string) : string :=
  if String.eqb t "plug" then "PlugModel"
  else if String.eqb t "socket" then "SocketModel"
  else "DeploymentModel".

(** No name occurs twice. *)
Fixpoint distinct_names (l : list string) : bool :=
  match l with
  | [] => true
  | x :: rest => negb (mem_string x rest) && distinct_names rest
  end.

(** Column [k0] carries no constraint that a value [v] could break: [v]
    fits the type, and the column is neither unique, nor part of the
    primary key, nor a foreign key. *)
Definition free_column (k0 : string) (v : value) (cols : list (string * ColumnDecl))
  : bool :=
  forallb (fun kc => negb (String.eqb (fst kc) k0) ||
                     (type_ok (col_type (snd kc)) v &&
                      negb (is_unique (snd kc)) &&
                      negb (is_primary_key (snd kc)) &&
                      match col_fk (snd kc) with None => true | Some _ => false end))
          cols.

(** The records a store holds: class name and [id] of every row of a
    mapped table. *)
Definition stored_objects (db : DB) : list obj :=
  flat_map (fun e => match class_of_table (fst e), get (snd e) "id" with
                     | Some c, Some (VStr i) => [(cls_name c, i)]
                     | _, _ => []
                     end) db.

(** How many records of [u] the walk has not seen yet. *)
Definition unseen (u seen : list obj) : nat :=
  length (filter (fun x => negb (mem_obj x seen)) u).

(** ** Further notions *)

Definition default_eqb (a b : Default) : bool :=
  match a, b with
  | literal_column x, literal_column y => String.eqb x y
  | datetime_now, datetime_now => true
  | const x, const y => value_eqb x y
  | _, _ => false
  end.

(** Column [k] is declared with default [d]. *)
Definition default_is (k : string) (d : Default) (cols : list (string * ColumnDecl)) : bool :=
  match lookup k cols with
  | Some col => match arg_default (col_args col) with
                | Some d' => default_eqb d d'
                | None => false
                end
  | None => false
  end.

(** Column [k] is declared with [onupdate=d]. *)
Definition onupdate_is (k : string) (d : Default) (cols : list (string * ColumnDecl)) : bool :=
  match lookup k cols with
  | Some col => match arg_onupdate (col_args col) with
                | Some d' => default_eqb d d'
                | None => false
                end
  | None => false
  end.

(** Column [k] exists and has no [onupdate]. *)
Definition plain_column (k : string) (cols : list (string * ColumnDecl)) : bool :=
  match lookup k cols with
  | Some col => match arg_onupdate (col_args col) with
                | Some _ => false
                | None => true
                end
  | None => false
  end.

Definition inherits_base (c : Class) : bool :=
  existsb (fun b => match b with BaseModelB => true | _ => false end) (cls_bases c).

(** The key of each stored row: its table and its [id]. *)
Definition keys (db : DB) : list (string * value) :=
  flat_map (fun e => match get (snd e) "id" with
                     | Some v => [(fst e, v)]
                     | None => []
                     end) db.

(** No two rows of a table share an [id]. *)
Definition ids_unique (db : DB) : Prop := NoDup (keys db).

(** Every foreign key that holds a value points at a stored row. *)
Definition references_valid (db : DB) : Prop :=
  forall t r k t' c' od v,
    In (t, r) db -> In (k, (t', c'), od) (table_fks t) -> get r k = Some v ->
    exists r', In (t', r') db /\ get r' c' = Some v.

(** The columns that any relationship of the module can set to NULL. *)
Definition all_foreign_cols : list string :=
  flat_map (fun c =>
    flat_map (fun nr =>
      match find_class (rel_target (snd nr)) with
      | Some tc => foreign_cols (join_of c (snd nr) tc)
      | None => []
      end) (all_relationships c)) models.

(** The two halves of a delete: the rows the cascade marks, and the
    other rows once unlinked and detached. *)
Definition delete_gone (db : DB) (s : list obj) : DB := filter (marked s) db.

Definition delete_kept (env : Env) (db : DB) (s : list obj) : DB :=
  map (detach env (detachments db s))
      (filter (fun e => negb (unlinked (unlinks db s) e))
              (filter (fun e => negb (marked s e)) db)).

(** A foreign key that the detaching of a row cannot disturb: it points
    at an [id] of a mapped table, and its column takes no [onupdate]. *)
Definition steady_fk (t : string) (fk : string * (string * string) * option string) : bool :=
  match fk with
  | (k, (t', c'), _) =>
      String.eqb c' "id" &&
      match class_of_table t' with Some _ => true | None => false end &&
      match class_of_table t with
      | Some c => no_onupdate k (columns c)
      | None => true
      end
  end.

Definition steady_fks (t : string) : bool := forallb (steady_fk t) (table_fks t).

(** [references_valid], decided. *)
Definition references_ok (db : DB) : bool :=
  forallb (fun e =>
    forallb (fun fk =>
      match fk with
      | (k, (t', c'), _) =>
          match get (snd e) k with
          | None => true
          | Some v => existsb (fun r' => sql_eqb (get r' c') (Some v)) (table_rows db t')
          end
      end) (table_fks (fst e))) db.

(** The topology with a network around it: one scheduler, one queue and
    one node in the network, an agent on the node, and a worker of the
    agent that runs processor [p1] in deployment [d1]. *)
Definition build_cluster : result DB :=
  db <- insert (env_at 20) topology NetworkModel
          [("id", VStr "n1"); ("name", VStr "net"); ("user_id", VStr "u1")] ;;
  db <- insert (env_at 21) db SchedulerModel
          [("id", VStr "sc1"); ("name", VStr "sched"); ("strategy", VStr "BALANCED");
           ("network_id", VStr "n1")] ;;
  db <- insert (env_at 22) db QueueModel
          [("id", VStr "q1"); ("name", VStr "queue"); ("network_id", VStr "n1")] ;;
  db <- insert (env_at 23) db NodeModel
          [("id", VStr "nd1"); ("name", VStr "node"); ("scheduler_id", VStr "sc1");
           ("network_id", VStr "n1")] ;;
  db <- insert (env_at 24) db AgentModel
          [("id", VStr "ag1"); ("name", VStr "agent"); ("node_id", VStr "nd1")] ;;
  insert (env_at 25) db WorkerModel
          [("id", VStr "w1"); ("name", VStr "worker"); ("backend", VStr "redis");
           ("broker", VStr "amqp"); ("processor_id", VStr "p1");
           ("deployment_id", VStr "d1"); ("agent_id", VStr "ag1")].

Definition cluster : DB := Eval vm_compute in the_db build_cluster.

(** A file with two versions, and the same with a flow that uses the
    file and lists the first version. *)
Definition build_versions : result DB :=
  db <- insert (env_at 30) topology FileModel
          [("id", VStr "f1"); ("name", VStr "flow.json"); ("user_id", VStr "u1")] ;;
  db <- insert (env_at 31) db VersionModel
          [("id", VStr "v1"); ("name", VStr "first"); ("file_id", VStr "f1");
           ("flow", VStr "{}")] ;;
  insert (env_at 32) db VersionModel
          [("id", VStr "v2"); ("name", VStr "second"); ("file_id", VStr "f1");
           ("flow", VStr "{}")].

Definition versions : DB := Eval vm_compute in the_db build_versions.

Definition build_library : result DB :=
  db <- insert (env_at 33) versions FlowModel
          [("id", VStr "fl1"); ("name", VStr "pipeline"); ("file_id", VStr "f1")] ;;
  db <- associate db flows_versions [("flow_id", VStr "fl1"); ("version_id", VStr "v1")] ;;
  update (env_at 34) db ProcessorModel "p1" [("flow_id", Some (VStr "fl1"))].

Definition library : DB := Eval vm_compute in the_db build_library.

(** A list of class names that the delete cascade does not leave: every
    relationship with the [delete] option of a class in the list targets
    a class in the list. *)
Definition cascade_closed (names : list string) : bool :=
  forallb (fun cn =>
    match find_class cn with
    | Some c =>
        forallb (fun nr =>
          negb (cascades_delete (snd nr) && participates (snd nr)) ||
          mem_string (rel_target (snd nr)) names) (all_relationships c)
    | None => true
    end) names.

(** The (table, column) pairs that some relationship sets to NULL when
    its owner is deleted. *)
Definition detachable : list (string * string) :=
  flat_map (fun c =>
    flat_map (fun nr =>
      if participates (snd nr)
      then match find_class (rel_target (snd nr)) with
           | Some tc => map (fun k => (cls_tablename tc, k))
                            (foreign_cols (join_of c (snd nr) tc))
           | None => []
           end
      else []) (all_relationships c)) models.

Definition mem_pair (p : string * string) (l : list (string * string)) : bool :=
  existsb (fun q => String.eqb (fst p) (fst q) && String.eqb (snd p) (snd q)) l.

(** No foreign key of table [t] is declared [ondelete="CASCADE"]. *)
Definition no_db_cascade (t : string) : bool :=
  forallb (fun fk => match snd fk with None => true | Some _ => false end) (table_fks t).

(** Every relationship that can set column [k] of the table of [tc] to
    NULL carries the [delete] cascade: the record it loads goes with its
    owner instead of being let go. *)
Definition held_by_cascade (tc : Class) (k : string) : bool :=
  forallb (fun c0 =>
    forallb (fun nr =>
      negb (participates (snd nr)) ||
      match find_class (rel_target (snd nr)) with
      | Some tc0 =>
          negb (String.eqb (cls_tablename tc0) (cls_tablename tc)) ||
          negb (mem_string k (foreign_cols (join_of c0 (snd nr) tc0))) ||
          cascades_delete (snd nr)
      | None => true
      end) (all_relationships c0)) models.

(** The one-to-many relationships with the [delete] cascade that hold
    one record ([NodeModel.agent]): the table of the child has no
    [ondelete] key, and no relationship lets go of the column that points
    at the parent. *)
Definition scalar_cascades_hold : bool :=
  forallb (fun c =>
    forallb (fun nr =>
      match find_class (rel_target (snd nr)) with
      | Some tc =>
          match join_of c (snd nr) tc with
          | OneToMany k lk =>
              negb (cascades_delete (snd nr) && participates (snd nr) &&
                    scalar (snd nr) (OneToMany k lk)) ||
              (no_db_cascade (cls_tablename tc) && held_by_cascade tc k)
          | _ => true
          end
      | None => true
      end) (all_relationships c)) models.

(** The column [k] of class [tx] is a foreign key to the [id] of class
    [tc] that nothing lets go of when a [tc] record is deleted: it takes
    no [onupdate], it is required or no relationship sets it to NULL, and
    its table has no [ondelete="CASCADE"]. *)
Definition blocking_reference (tx : Class) (k : string) (tc : Class) : bool :=
  match lookup k (columns tx) with
  | Some col =>
      match col_fk col with
      | Some (t, rc) => String.eqb t (cls_tablename tc) && String.eqb rc "id"
      | None => false
      end
      && match arg_onupdate (col_args col) with None => true | Some _ => false end
      && (negb (is_nullable col) || negb (mem_pair (cls_tablename tx, k) detachable))
      && no_db_cascade (cls_tablename tx)
  | None => false
  end.

(** The classes with a column named [k]. *)
Definition classes_with (k : string) : list Class :=
  filter (fun c => bound k (columns c)) models.

(** No relationship sets a column of table [t] to NULL, and no foreign
    key of [t] is declared [ondelete="CASCADE"]. *)
Definition untouched_table (t : string) : bool :=
  negb (existsb (fun p => String.eqb (fst p) t) detachable) && no_db_cascade t.

(** A class whose relationships only look up the record a foreign key of
    its own names, without the [delete] cascade. *)
Definition standalone (c : Class) : bool :=
  forallb (fun nr =>
    negb (participates (snd nr)) ||
    (negb (cascades_delete (snd nr)) &&
     match find_class (rel_target (snd nr)) with
     | Some tc => match join_of c (snd nr) tc with
                  | ManyToOne _ _ => true
                  | _ => false
                  end
     | None => true
     end)) (all_relationships c).

(** A row fits its columns: every required column holds a value, every
    [Enum] column one of its values, every [String(n)] column at most [n]
    characters. *)
Definition conforms (cols : list (string * ColumnDecl)) (row : Row) : bool :=
  forallb (fun kc =>
    match get row (fst kc) with
    | Some v => type_ok (col_type (snd kc)) v
    | None => is_nullable (snd kc)
    end) cols.

Definition all_conform (db : DB) : bool :=
  forallb (fun e => match class_of_table (fst e) with
                    | Some c => conforms (columns c) (snd e)
                    | None => true
                    end) db.

(** Every [onupdate] of the schema is a time stamp on a column that takes
    one. *)
Definition onupdate_stamps (c : Class) : bool :=
  forallb (fun kc =>
    match arg_onupdate (col_args (snd kc)) with
    | None => true
    | Some datetime_now => type_ok (col_type (snd kc)) (VTime 0)
    | Some _ => false
    end) (columns c).

Fixpoint arg_back_populates (args : list RelArg) : option string :=
  match args with
  | [] => None
  | back_populates n :: _ => Some n
  | _ :: rest => arg_back_populates rest
  end.

(** Two joins are the two directions of one link: the same foreign key
    read from either end, or the same association table with its two
    columns exchanged. *)
Definition mirror (j j' : Join) : bool :=
  match j, j' with
  | ManyToOne lc rk, OneToMany rc lk => String.eqb lc rc && String.eqb rk lk
  | OneToMany rc lk, ManyToOne lc rk => String.eqb lc rc && String.eqb rk lk
  | ManyToMany st oc ok tcol tk, ManyToMany st' oc' ok' tcol' tk' =>
      String.eqb st st' && String.eqb oc tcol' && String.eqb ok tk' &&
      String.eqb tcol oc' && String.eqb tk ok'
  | _, _ => false
  end.

(** The relationships declared with [back_populates] or [backref]:
    class, attribute, target class, attribute on the target, and whether
    the two joins mirror each other. *)
Definition two_sided : list (string * string * string * string * bool) :=
  flat_map (fun c => flat_map (fun nr =>
    let r := snd nr in
    match find_class (rel_target r) with
    | Some tc =>
        map (fun b =>
               (cls_name c, fst nr, cls_name tc, b,
                match lookup b (all_relationships tc) with
                | Some r' => String.eqb (rel_target r') (cls_name c) &&
                             mirror (join_of c r tc) (join_of tc r' c)
                | None => false
                end))
            (match arg_back_populates (rel_args r) with Some b => [b] | None => [] end ++
             match arg_backref (rel_args r) with Some b => [b] | None => [] end)%list
    | None => []
    end) (relationships c)) models.

(** The record of class [c] with [id] [i] is in store, and its row
    passes the checks of its table beside the other rows: what the
    database guarantees of every row it holds. *)
Definition well_stored (db : DB) (c : Class) (i : string) : bool :=
  let t := cls_tablename c in
  match find (has_id i) (table_rows db t) with
  | Some old =>
      match check_row db (columns c)
              (table_rows (filter (fun e => negb (is_row t i e)) db) t) old with
      | None => true
      | Some _ => false
      end
  | None => false
  end.

(** Every [onupdate] of class [c] is [datetime.now], on a column that
    takes a time and carries no other constraint. *)
Definition stamps_free (c : Class) : bool :=
  forallb (fun kc => match arg_onupdate (col_args (snd kc)) with
                     | None => true
                     | Some d =>
                         default_eqb d datetime_now &&
                         type_ok (col_type (snd kc)) (VTime 0) &&
                         negb (is_unique (snd kc)) &&
                         negb (is_primary_key (snd kc)) &&
                         match col_fk (snd kc) with None => true | Some _ => false end
                     end)
          (columns c).

(** ** The column DDL hook

    [use_identity] is registered for [CreateColumn] on PostgreSQL: it takes
    the text the compiler wrote for the column and replaces every
    [SERIAL] in it.  [str.replace] scans from the left and replaces the
    occurrences that do not overlap; [skip] counts the characters of an
    occurrence still to pass over. *)
Fixpoint replace_skipping (old new : string) (skip : nat) (s : string) : string :=
  match s with
  | EmptyString => EmptyString
  | String a rest =>
      match skip with
      | S n => replace_skipping old new n rest
      | O =>
          if String.prefix old s
          then new ++ replace_skipping old new (String.length old - 1) rest
          else String a (replace_skipping old new 0 rest)
      end
  end.

Definition str_replace (old new s : string) : string := replace_skipping old new 0 s.

Definition use_identity (text : string) : string :=
  str_replace "SERIAL" "INT GENERATED BY DEFAULT AS IDENTITY" text.

(** [pat in s]. *)
Fixpoint contains (pat s : string) : bool :=
  match s with
  | EmptyString => String.prefix pat EmptyString
  | String a rest => String.prefix pat s || contains pat rest
  end.

Fixpoint drop (n : nat) (s : string) : string :=
  match n, s with
  | S m, String _ rest => drop m rest
  | _, _ => s
  end.

(** No non-empty end of [w] starts the replacement text. *)
Fixpoint apart_from (new w : string) : Prop :=
  match w with
  | EmptyString => True
  | String _ w' => (forall u, String.prefix w (new ++ u) = false) /\ apart_from new w'
  end.

(** ** The JSON encoder

    [AlchemyEncoder.default] is what [json.dumps(obj, cls=AlchemyEncoder)]
    calls for an object it cannot encode by itself; [BaseModel.__repr__]
    goes through it.  Python values, as far as the encoder tells them
    apart: *)
Set Warnings "-register-all".

Inductive pyvalue : Type :=
| PNone
| PBool (b : bool)
| PInt (z : Z)
| PFloat (repr : string)
| PStr (s : string)
| PDatetime (shown : string)              (* a [datetime]; [str(data)] is [shown] *)
| PList (items : list pyvalue)            (* a list or a tuple *)
| PDict (items : list (string * pyvalue)) (* a dict with string keys *)
| PObject (cls : string).                 (* anything else: a model, a method, bytes *)

(** [json.dumps(data)] with the stock encoder returns; otherwise it
    raises [TypeError]. *)
Fixpoint json_ok (v : pyvalue) : bool :=
  match v with
  | PNone | PBool _ | PInt _ | PFloat _ | PStr _ => true
  | PDatetime _ => false
  | PList items => forallb json_ok items
  | PDict items => forallb (fun kv => match kv with (_, d) => json_ok d end) items
  | PObject _ => false
  end.

(** An object as [default] sees it: whether its class is a declarative
    class, and what [dir(obj)] lists, each name with the value
    [obj.__getattribute__] returns for it. *)
Record pyobject : Type := mkObject {
  is_declarative : bool;
  class_name : string;
  dir : list (string * pyvalue)
}.

Inductive outcome (A : Type) : Type :=
| Returned (a : A)
| Raised (exception : string).

Arguments Returned {A} a.
Arguments Raised {A} exception.

(** [not x.startswith("_") and x != "metadata"] *)
Definition public (field : string) : bool :=
  negb (String.prefix "_" field) && negb (String.eqb field "metadata").

(** The body of the loop: a [datetime] is replaced by its text, a value
    the stock encoder takes is kept, and the [TypeError] of any other
    value is caught and the field set to [None]. *)
Definition encode_field (data : pyvalue) : pyvalue :=
  let data := match data with PDatetime shown => PStr shown | _ => data end in
  if json_ok data then data else PNone.

Module AlchemyEncoder.

Definition default (obj : pyobject) : outcome pyvalue :=
  if is_declarative obj
  then Returned (PDict (map (fun fd => (fst fd, encode_field (snd fd)))
                            (filter (fun fd => public (fst fd)) (dir obj))))
  else Raised "TypeError".

End AlchemyEncoder.

(** ** The package [pyfi/db/model/__init__.py]

    The names the package imports from [.models], and its [__all__]. *)
Definition imported : list string :=
  [ "ActionModel"; "AgentModel"; "AlchemyEncoder"; "ArgumentModel"; "Base";
    "CallModel"; "DeploymentModel"; "EventModel"; "FileModel"; "FlowModel";
    "JobModel"; "LoginModel"; "LogModel"; "NetworkModel"; "NodeModel";
    "PasswordModel"; "PlugModel"; "ProcessorModel"; "QueueModel"; "RoleModel";
    "SchedulerModel"; "SettingsModel"; "SocketModel"; "TaskModel"; "UserModel";
    "VersionModel"; "WorkerModel"; "WorkModel"; "oso" ].

Definition __all__ : list string :=
  [ "oso"; "AlchemyEncoder"; "WorkerModel"; "VersionModel"; "ArgumentModel";
    "LoginModel"; "EventModel"; "AlchemyEncoder"; "AgentModel"; "RoleModel";
    "ProcessorModel"; "UserModel"; "QueueModel"; "WorkModel"; "LogModel";
    "PlugModel"; "FileModel"; "SocketModel"; "FlowModel"; "JobModel";
    "CallModel"; "ActionModel"; "SettingsModel"; "NodeModel"; "TaskModel";
    "SchedulerModel"; "Base"; "DeploymentModel"; "PasswordModel"; "NetworkModel" ].

(** What [models.py] binds besides the mapped classes, as far as the
    package asks for it. *)
Definition module_objects : list string := ["oso"; "Base"; "AlchemyEncoder"].

(** No two rows of [worker] name the same deployment. *)
Definition one_worker_each (db : DB) : bool :=
  forallb (fun x =>
    forallb (fun y =>
      negb (sql_eqb (get x "deployment_id") (get y "deployment_id")) ||
      sql_eqb (get x "id") (get y "id")) (table_rows db "worker"))
    (table_rows db "worker").

(** Column [k] of [worker] may be NULL. *)
Definition worker_lets_go (k : string) : bool := negb (blocked ("worker", "", k)).

(** Every relationship that reaches [WorkerModel] either takes the
    workers along, through a one-to-many [delete] cascade on their [id],
    or only clears columns of [worker] that may be NULL. *)
Definition worker_links : bool :=
  forallb (fun c =>
    forallb (fun nr =>
      negb (participates (snd nr)) ||
      negb (String.eqb (rel_target (snd nr)) "WorkerModel") ||
      match join_of c (snd nr) WorkerModel with
      | OneToMany k lk =>
          (cascades_delete (snd nr) && String.eqb lk "id") || worker_lets_go k
      | j => forallb worker_lets_go (foreign_cols j)
      end) (all_relationships c)) models.

(** * Properties *)

Unset Implicit Arguments.

(** Facts about the declarations are settled by evaluating them. *)
Ltac by_computation := vm_compute; reflexivity.

(** ** Basic facts about lookups and the checks *)

Lemma value_eqb_refl (v : value) : value_eqb v v = true.
Proof.
  destruct v; simpl.
  - apply String.eqb_refl.
  - destruct b; reflexivity.
  - apply Z.eqb_refl.
  - apply Z.eqb_refl.
  - apply String.eqb_refl.
Qed.

Lemma value_eqb_eq (a b : value) : value_eqb a b = true -> a = b.
Proof.
  destruct a, b; simpl; intro H; try discriminate.
  - apply String.eqb_eq in H. now subst.
  - apply Bool.eqb_prop in H. now subst.
  - apply Z.eqb_eq in H. now subst.
  - apply Z.eqb_eq in H. now subst.
  - apply String.eqb_eq in H. now subst.
Qed.

Lemma sql_eqb_some (a : option value) (v : value) :
  sql_eqb a (Some v) = true <-> a = Some v.
Proof.
  split.
  - destruct a as [x|]; simpl; intro H; [|discriminate].
    apply value_eqb_eq in H. now subst.
  - intros ->. simpl. apply value_eqb_refl.
Qed.

Lemma has_id_get (i : string) (r : Row) :
  has_id i r = true <-> get r "id" = Some (VStr i).
Proof. unfold has_id. apply sql_eqb_some. Qed.

Lemma lookup_In {A : Type} (k : string) (l : list (string * A)) (a : A) :
  lookup k l = Some a -> In (k, a) l.
Proof.
  induction l as [|[k' a'] l IH]; simpl; [discriminate|].
  destruct (String.eqb_spec k k') as [->|_].
  - intros [= ->]. now left.
  - intro H. right. now apply IH.
Qed.

Lemma bound_lookup {A : Type} (k : string) (l : list (string * A)) :
  bound k l = true <-> exists a, lookup k l = Some a.
Proof.
  unfold bound. destruct (lookup k l) as [a|].
  - split; [now exists a | reflexivity].
  - split; [discriminate | intros [a H]; discriminate].
Qed.

Lemma lookup_none_not_in {A : Type} (k : string) (l : list (string * A)) :
  lookup k l = None <-> ~ In k (map fst l).
Proof.
  induction l as [|[k' a] l IH]; simpl; [tauto|].
  destruct (String.eqb_spec k k') as [->|Hne].
  - split; [discriminate|]. intro H. exfalso. apply H. now left.
  - rewrite IH. split.
    + intros H [E|Hin]; [now apply Hne|contradiction].
    + intros H Hin. apply H. now right.
Qed.

Lemma first_name_none {A : Type} (p : string * A -> bool) (l : list (string * A)) :
  first_name p l = None -> forall x, In x l -> p x = false.
Proof.
  unfold first_name. intros H x Hx.
  destruct (find p l) as [[k a]|] eqn:E; [discriminate|].
  exact (find_none p l E x Hx).
Qed.

Lemma first_name_none_intro {A : Type} (p : string * A -> bool) (l : list (string * A)) :
  (forall x, In x l -> p x = false) -> first_name p l = None.
Proof.
  intro H. unfold first_name. destruct (find p l) as [[k a]|] eqn:E; [|reflexivity].
  apply find_some in E. destruct E as [Hin Hp]. rewrite (H _ Hin) in Hp. discriminate.
Qed.

Lemma first_name_found {A : Type} (p : string * A -> bool) (l : list (string * A)) x :
  In x l -> p x = true -> exists k, first_name p l = Some k.
Proof.
  intros Hx Hp. destruct (first_name p l) as [k|] eqn:E.
  - now exists k.
  - rewrite (first_name_none p l E x Hx) in Hp. discriminate.
Qed.

Lemma mem_string_In (x : string) (l : list string) :
  mem_string x l = true <-> In x l.
Proof.
  unfold mem_string. rewrite existsb_exists. split.
  - intros [y [Hy E]]. apply String.eqb_eq in E. now subst.
  - intro H. exists x. split; [exact H|apply String.eqb_refl].
Qed.

Lemma existsb_agree {A : Type} (f g : A -> bool) (l : list A) :
  (forall x, In x l -> f x = g x) -> existsb f l = existsb g l.
Proof.
  induction l as [|x l IH]; intro H; simpl; [reflexivity|].
  rewrite (H x (or_introl eq_refl)), IH; [reflexivity|].
  intros y Hy. apply H. now right.
Qed.

Lemma forallb_agree {A : Type} (f g : A -> bool) (l : list A) :
  (forall x, In x l -> f x = g x) -> forallb f l = forallb g l.
Proof.
  induction l as [|x l IH]; intro H; simpl; [reflexivity|].
  rewrite (H x (or_introl eq_refl)), IH; [reflexivity|].
  intros y Hy. apply H. now right.
Qed.

Lemma table_rows_In (db : DB) (t : string) (r : Row) :
  In r (table_rows db t) <-> In (t, r) db.
Proof.
  unfold table_rows. rewrite in_map_iff. split.
  - intros [[t' r'] [E H]]. simpl in E. subst r'.
    apply filter_In in H. destruct H as [H Ht]. simpl in Ht.
    apply String.eqb_eq in Ht. now subst.
  - intro H. exists (t, r). split; [reflexivity|].
    apply filter_In. split; [assumption|]. simpl. apply String.eqb_refl.
Qed.

Lemma distinct_names_NoDup (l : list string) : distinct_names l = true -> NoDup l.
Proof.
  induction l as [|x l IH]; simpl; intro H; [constructor|].
  apply andb_true_iff in H. destruct H as [Hx Hl]. constructor; [|now apply IH].
  intro Hin. apply mem_string_In in Hin. rewrite Hin in Hx. discriminate.
Qed.

(** ** INSERT: the row stored and the rows refused *)

Lemma insert_ok (env : Env) (db db' : DB) (c : Class) (kw : Row) :
  insert env db c kw = Ok db' ->
  db' = (db ++ [(cls_tablename c, with_defaults env (columns c) kw)])%list /\
  check_row db (columns c) (table_rows db (cls_tablename c))
            (with_defaults env (columns c) kw) = None.
Proof.
  unfold insert.
  destruct (first_name _ kw); [discriminate|].
  destruct (check_row _ _ _ _); [discriminate|].
  intros [= <-]. now split.
Qed.

Lemma insert_rejects (env : Env) (db : DB) (c : Class) (kw : Row) (v : Violation) :
  check_row db (columns c) (table_rows db (cls_tablename c))
            (with_defaults env (columns c) kw) = Some v ->
  exists w, insert env db c kw = Err (ValidationError w).
Proof.
  unfold insert. intro H.
  destruct (first_name _ kw) as [k|].
  - now exists (UnknownField k).
  - rewrite H. now exists v.
Qed.

Lemma get_with_defaults_given (env : Env) (cols : list (string * ColumnDecl))
  (kw : Row) (k : string) (v : value) :
  bound k cols = true -> lookup k kw = Some v ->
  get (with_defaults env cols kw) k = Some v.
Proof.
  intros Hb Hk. induction cols as [|[k' c'] cols IH]; [discriminate|].
  unfold bound in Hb. simpl in Hb. simpl.
  destruct (String.eqb_spec k k') as [<-|Hne].
  - rewrite Hk. unfold get. simpl. now rewrite String.eqb_refl.
  - assert (IH' : get (with_defaults env cols kw) k = Some v) by (apply IH; exact Hb).
    assert (Hskip : forall v', get ((k', v') :: with_defaults env cols kw) k = Some v).
    { intro v'. unfold get. simpl.
      destruct (String.eqb_spec k k'); [contradiction|exact IH']. }
    destruct (lookup k' kw); [apply Hskip|].
    destruct (arg_default (col_args c')) as [d|]; [|exact IH'].
    destruct (eval_default env k' d); [apply Hskip|exact IH'].
Qed.

Lemma get_with_defaults_default (env : Env) (cols : list (string * ColumnDecl))
  (kw : Row) (k : string) (c : ColumnDecl) (d : Default) (v : value) :
  lookup k cols = Some c -> lookup k kw = None ->
  arg_default (col_args c) = Some d -> eval_default env k d = Some v ->
  get (with_defaults env cols kw) k = Some v.
Proof.
  intros Hc Hk Hd Hv. induction cols as [|[k' c'] cols IH]; [discriminate|].
  simpl in Hc. simpl.
  destruct (String.eqb_spec k k') as [<-|Hne].
  - injection Hc as ->. rewrite Hk, Hd, Hv. unfold get. simpl.
    now rewrite String.eqb_refl.
  - specialize (IH Hc).
    assert (Hskip : forall v', get ((k', v') :: with_defaults env cols kw) k = Some v).
    { intro v'. unfold get. simpl.
      destruct (String.eqb_spec k k'); [contradiction|exact IH]. }
    destruct (lookup k' kw); [apply Hskip|].
    destruct (arg_default (col_args c')) as [d'|]; [|exact IH].
    destruct (eval_default env k' d'); [apply Hskip|exact IH].
Qed.

Lemma get_with_defaults_null (env : Env) (cols : list (string * ColumnDecl))
  (kw : Row) (k : string) :
  lookup k kw = None ->
  (forall c, In (k, c) cols -> arg_default (col_args c) = None) ->
  get (with_defaults env cols kw) k = None.
Proof.
  intros Hk Hc. induction cols as [|[k' c'] cols IH]; [reflexivity|].
  simpl.
  assert (IH' : get (with_defaults env cols kw) k = None).
  { apply IH. intros c Hin. apply Hc. now right. }
  destruct (String.eqb_spec k k') as [<-|Hne].
  - rewrite Hk. rewrite (Hc c' (or_introl eq_refl)). exact IH'.
  - assert (Hskip : forall v', get ((k', v') :: with_defaults env cols kw) k = None).
    { intro v'. unfold get. simpl.
      destruct (String.eqb_spec k k'); [contradiction|exact IH']. }
    destruct (lookup k' kw); [apply Hskip|].
    destruct (arg_default (col_args c')) as [d'|]; [|exact IH'].
    destruct (eval_default env k' d'); [apply Hskip|exact IH'].
Qed.

Lemma undefaulted_spec (k : string) (cols : list (string * ColumnDecl)) :
  undefaulted k cols = true ->
  forall c, In (k, c) cols -> arg_default (col_args c) = None.
Proof.
  unfold undefaulted. rewrite forallb_forall. intros H c Hin.
  specialize (H (k, c) Hin). simpl in H. rewrite String.eqb_refl in H. simpl in H.
  destruct (arg_default (col_args c)); [discriminate|reflexivity].
Qed.

(** A required column left without a value and without a default is
    refused. *)
Lemma insert_requires (env : Env) (db : DB) (c : Class) (kw : Row) (k : string)
  (col : ColumnDecl) :
  In (k, col) (columns c) -> is_nullable col = false ->
  (forall col', In (k, col') (columns c) -> arg_default (col_args col') = None) ->
  lookup k kw = None ->
  exists w, insert env db c kw = Err (ValidationError w).
Proof.
  intros Hin Hnn Hnd Hk.
  assert (Hg : get (with_defaults env (columns c) kw) k = None)
    by (apply get_with_defaults_null; assumption).
  destruct (first_name_found
              (fun kc => negb (is_nullable (snd kc)) &&
                 match get (with_defaults env (columns c) kw) (fst kc) with
                 | Some _ => false | None => true end)
              (columns c) (k, col) Hin) as [k0 Hk0].
  { simpl. now rewrite Hnn, Hg. }
  apply insert_rejects with (v := NotNull k0).
  unfold check_row, check_not_null. now rewrite Hk0.
Qed.

Lemma check_unique_clash (cols : list (string * ColumnDecl)) (others : list Row)
  (row old : Row) (k : string) (col : ColumnDecl) (v : value) :
  In (k, col) cols -> is_unique col = true ->
  In old others -> get old k = Some v -> get row k = Some v ->
  exists k', check_unique cols others row = Some k'.
Proof.
  intros Hin Hu Hold Ho Hr. unfold check_unique.
  apply first_name_found with (x := (k, col)); [exact Hin|].
  cbn [fst snd]. rewrite Hu. simpl. apply existsb_exists.
  exists old. split; [exact Hold|]. rewrite Ho, Hr. simpl. apply value_eqb_refl.
Qed.

(** ** UPDATE: the row written *)

Lemma updated_row_absent (env : Env) (cols : list (string * ColumnDecl))
  (changes : list (string * option value)) (old : Row) (k : string) :
  lookup k cols = None -> get (updated_row env cols changes old) k = None.
Proof.
  induction cols as [|[k' c'] cols IH]; simpl; [reflexivity|].
  destruct (String.eqb_spec k k') as [->|Hne]; [discriminate|].
  intro H. specialize (IH H).
  assert (Hskip : forall v', get ((k', v') :: updated_row env cols changes old) k = None).
  { intro v'. unfold get. simpl. destruct (String.eqb_spec k k'); [contradiction|exact IH]. }
  destruct (lookup k' changes) as [[w|]|]; [apply Hskip|exact IH|].
  destruct (match arg_onupdate (col_args c') with
            | Some d => eval_default env k' d
            | None => get old k'
            end); [apply Hskip|exact IH].
Qed.

(** The fields of an updated row, when no column name repeats. *)
Lemma updated_row_get (env : Env) (cols : list (string * ColumnDecl))
  (changes : list (string * option value)) (old : Row) (k : string) :
  NoDup (map fst cols) ->
  get (updated_row env cols changes old) k =
    match lookup k cols with
    | None => None
    | Some c =>
        match lookup k changes with
        | Some ov => ov
        | None => match arg_onupdate (col_args c) with
                  | Some d => eval_default env k d
                  | None => get old k
                  end
        end
    end.
Proof.
  induction cols as [|[k' c'] cols IH]; simpl; [reflexivity|].
  intro Hnd. inversion Hnd as [|? ? Hnotin Hnd']; subst. specialize (IH Hnd').
  destruct (String.eqb_spec k k') as [->|Hne].
  - assert (Htail : get (updated_row env cols changes old) k' = None).
    { apply updated_row_absent. now apply lookup_none_not_in. }
    destruct (lookup k' changes) as [[w|]|].
    + unfold get. simpl. now rewrite String.eqb_refl.
    + exact Htail.
    + destruct (match arg_onupdate (col_args c') with
                | Some d => eval_default env k' d
                | None => get old k'
                end) as [v|]; [|exact Htail].
      unfold get. simpl. now rewrite String.eqb_refl.
  - assert (Hskip : forall v', get ((k', v') :: updated_row env cols changes old) k
                               = get (updated_row env cols changes old) k).
    { intro v'. unfold get. simpl.
      destruct (String.eqb_spec k k'); [contradiction|reflexivity]. }
    destruct (lookup k' changes) as [[w|]|]; [now rewrite Hskip|exact IH|].
    destruct (match arg_onupdate (col_args c') with
              | Some d => eval_default env k' d
              | None => get old k'
              end); [now rewrite Hskip|exact IH].
Qed.

Lemma updated_row_keeps (env : Env) (cols : list (string * ColumnDecl))
  (changes : list (string * option value)) (old : Row) (k : string) (v : value) :
  no_onupdate k cols = true ->
  (forall w, lookup k changes <> Some (Some w)) ->
  get (updated_row env cols changes old) k = Some v -> get old k = Some v.
Proof.
  intros Hn Hc. induction cols as [|[k' c'] cols IH]; simpl; [discriminate|].
  unfold no_onupdate in Hn. simpl in Hn. apply andb_true_iff in Hn.
  destruct Hn as [Hhead Hrest]. specialize (IH Hrest).
  assert (Hskip : forall v', k <> k' ->
            get ((k', v') :: updated_row env cols changes old) k = Some v ->
            get old k = Some v).
  { intros v' Hne. unfold get. simpl.
    destruct (String.eqb_spec k k'); [contradiction|exact IH]. }
  destruct (String.eqb_spec k k') as [<-|Hne].
  - rewrite String.eqb_refl in Hhead. simpl in Hhead.
    destruct (lookup k changes) as [[w|]|] eqn:E.
    + exfalso. now apply (Hc w).
    + exact IH.
    + destruct (arg_onupdate (col_args c')); [discriminate|].
      destruct (get old k) as [v0|] eqn:Eo; [|exact IH].
      unfold get at 1. simpl. rewrite String.eqb_refl. auto.
  - destruct (lookup k' changes) as [[w|]|].
    + now apply Hskip.
    + exact IH.
    + destruct (match arg_onupdate (col_args c') with
                | Some d => eval_default env k' d
                | None => get old k'
                end); [now apply Hskip|exact IH].
Qed.

Lemma lookup_nulls (k : string) (ks : list string) (w : value) :
  lookup k (map (fun k0 => (k0, @None value)) ks) <> Some (Some w).
Proof.
  induction ks as [|k0 ks IH]; simpl; [discriminate|].
  destruct (String.eqb k k0); [discriminate|exact IH].
Qed.

(** Two rows fare alike in every check when each column holds the same
    value in both, or carries no constraint and holds a value of its type
    in the second. *)
Lemma check_row_free (db : DB) (cols : list (string * ColumnDecl)) (others : list Row)
  (r0 r1 : Row) :
  (forall k c, In (k, c) cols ->
     get r1 k = get r0 k \/
     ((exists v, get r1 k = Some v /\ type_ok (col_type c) v = true) /\
      is_unique c = false /\ is_primary_key c = false /\ col_fk c = None)) ->
  check_row db cols others r0 = None ->
  check_row db cols others r1 = None.
Proof.
  intro Hcol. unfold check_row.
  destruct (check_not_null cols r0) eqn:E1; [discriminate|].
  destruct (check_types cols r0) eqn:E2; [discriminate|].
  destruct (check_unique cols others r0) eqn:E3; [discriminate|].
  destruct (negb (check_primary_key cols others r0)) eqn:E4; [discriminate|].
  destruct (check_foreign_keys db cols r0) eqn:E5; [discriminate|].
  intros _.
  assert (F1 : check_not_null cols r1 = None).
  { apply first_name_none_intro. intros [k c] Hin. cbn [fst snd].
    pose proof (first_name_none _ _ E1 _ Hin) as H0. cbn [fst snd] in H0.
    destruct (Hcol k c Hin) as [->|[[v [-> _]] _]]; [exact H0|].
    apply andb_false_r. }
  assert (F2 : check_types cols r1 = None).
  { apply first_name_none_intro. intros [k c] Hin. cbn [fst snd].
    pose proof (first_name_none _ _ E2 _ Hin) as H0. cbn [fst snd] in H0.
    destruct (Hcol k c Hin) as [->|[[v [-> Ht]] _]]; [exact H0|].
    now rewrite Ht. }
  assert (F3 : check_unique cols others r1 = None).
  { apply first_name_none_intro. intros [k c] Hin. cbn [fst snd].
    pose proof (first_name_none _ _ E3 _ Hin) as H0. cbn [fst snd] in H0.
    destruct (Hcol k c Hin) as [->|[_ [Hu _]]]; [exact H0|].
    now rewrite Hu. }
  assert (F4 : check_primary_key cols others r1 = check_primary_key cols others r0).
  { unfold check_primary_key.
    assert (Hk : forall k, In k (primary_key_of cols) -> get r1 k = get r0 k).
    { intros k Hk. unfold primary_key_of in Hk. apply in_map_iff in Hk.
      destruct Hk as [[k' c] [<- Hin]]. apply filter_In in Hin.
      destruct Hin as [Hin Hpk]. cbn [fst snd] in *.
      destruct (Hcol k' c Hin) as [E|[_ [_ [Hn _]]]]; [exact E|].
      rewrite Hn in Hpk. discriminate. }
    destruct (primary_key_of cols) as [|k ks] eqn:Ek; [reflexivity|].
    f_equal. apply existsb_agree. intros r _. unfold same_key.
    apply forallb_agree. intros k1 Hk1. now rewrite (Hk k1 Hk1). }
  assert (F5 : check_foreign_keys db cols r1 = None).
  { apply first_name_none_intro. intros [k c] Hin. cbn [fst snd].
    pose proof (first_name_none _ _ E5 _ Hin) as H0. cbn [fst snd] in H0.
    destruct (Hcol k c Hin) as [->|[_ [_ [_ Hf]]]]; [exact H0|].
    now rewrite Hf. }
  now rewrite F1, F2, F3, F4, E4, F5.
Qed.


(** What a successful update did: nothing, when no assignment changed a
    value; otherwise it took the row out, checked the new version against
    the other rows and wrote it last. *)
Lemma update_cases (env : Env) (db db' : DB) (c : Class) (i : string)
  (changes : list (string * option value)) :
  update env db c i changes = Ok db' ->
  exists old,
    find (has_id i) (table_rows db (cls_tablename c)) = Some old /\
    (forall k ov, In (k, ov) changes -> bound k (columns c) = true) /\
    ((forallb (unchanged old) changes = true /\ db' = db) \/
     (forallb (unchanged old) changes = false /\
      check_row db (columns c)
        (table_rows (filter (fun e => negb (is_row (cls_tablename c) i e)) db)
                    (cls_tablename c))
        (updated_row env (columns c) changes old) = None /\
      find (left_behind (cls_tablename c) old (updated_row env (columns c) changes old))
           (filter (fun e => negb (is_row (cls_tablename c) i e)) db) = None /\
      db' = (filter (fun e => negb (is_row (cls_tablename c) i e)) db ++
             [(cls_tablename c, updated_row env (columns c) changes old)])%list)).
Proof.
  unfold update.
  destruct (first_name _ changes) eqn:Ek; [discriminate|].
  destruct (find (has_id i) (table_rows db (cls_tablename c))) as [old|]; [|discriminate].
  intro H. exists old. split; [reflexivity|]. split.
  - intros k ov Hin. pose proof (first_name_none _ _ Ek (k, ov) Hin) as Hb.
    cbn [fst] in Hb. now apply negb_false_iff in Hb.
  - destruct (forallb (unchanged old) changes).
    + left. injection H as <-. now split.
    + right. destruct (check_row _ _ _ _); [discriminate|].
      destruct (find (left_behind _ _ _) _); [discriminate|].
      injection H as <-. repeat split.
Qed.

(** ** Loading relationships *)

Lemma load_unfold (db : DB) (c : Class) (i attr : string) (r : RelDecl)
  (tc : Class) (j : Join) :
  lookup attr (all_relationships c) = Some r ->
  find_class (rel_target r) = Some tc ->
  join_of c r tc = j ->
  scalar r j = false ->
  load db c i attr =
    match find (has_id i) (table_rows db (cls_tablename c)) with
    | Some o => ordered r (filter (joined db j o) (table_rows db (cls_tablename tc)))
    | None => []
    end.
Proof.
  intros Hr Ht Hj Hs. unfold load. rewrite Hr.
  destruct (find (has_id i) (table_rows db (cls_tablename c))); [|reflexivity].
  unfold related, matching. now rewrite Ht, Hj, Hs.
Qed.

Lemma owner_found (db : DB) (t i : string) :
  (exists o, find (has_id i) (table_rows db t) = Some o /\ get o "id" = Some (VStr i))
  \/ (find (has_id i) (table_rows db t) = None /\
      forall o, In (t, o) db -> get o "id" <> Some (VStr i)).
Proof.
  destruct (find (has_id i) (table_rows db t)) as [o|] eqn:E.
  - left. exists o. split; [reflexivity|].
    apply find_some in E. now apply has_id_get.
  - right. split; [reflexivity|]. intros o Ho Hid.
    apply table_rows_In in Ho. pose proof (find_none _ _ E o Ho) as Hn.
    apply has_id_get in Hid. rewrite Hid in Hn. discriminate.
Qed.

Lemma insert_desc_In (c : string) (r x : Row) (l : list Row) :
  In x (insert_desc c r l) <-> x = r \/ In x l.
Proof.
  induction l as [|y l IH]; simpl.
  - intuition.
  - destruct (key_gt (time_key c y) (time_key c r)); simpl; rewrite ?IH; intuition.
Qed.

Lemma sort_desc_In (c : string) (x : Row) (l : list Row) :
  In x (sort_desc c l) <-> In x l.
Proof.
  induction l as [|y l IH]; simpl; [tauto|].
  rewrite insert_desc_In, IH. intuition.
Qed.

Lemma key_gt_asym (a b : option Z) : key_gt a b = true -> key_gt b a = false.
Proof.
  destruct a as [x|], b as [y|]; simpl; try reflexivity; try discriminate.
  intro H. apply Z.ltb_lt in H. apply Z.ltb_ge. lia.
Qed.

Lemma newest_first_tail (c : string) (x : Row) (l : list Row) :
  newest_first c (x :: l) = true -> newest_first c l = true.
Proof.
  destruct l; [reflexivity|]. cbn [newest_first]. intro H.
  apply andb_true_iff in H. tauto.
Qed.

Lemma insert_desc_sorted (c : string) (r : Row) (l : list Row) :
  newest_first c l = true -> newest_first c (insert_desc c r l) = true.
Proof.
  induction l as [|y l IH]; [reflexivity|].
  intro Hs. cbn [insert_desc].
  destruct (key_gt (time_key c y) (time_key c r)) eqn:E.
  - specialize (IH (newest_first_tail _ _ _ Hs)).
    destruct l as [|z l'].
    + cbn. rewrite (key_gt_asym _ _ E). reflexivity.
    + cbn [insert_desc] in *.
      cbn [newest_first] in Hs. apply andb_true_iff in Hs. destruct Hs as [Hyz Hl].
      destruct (key_gt (time_key c z) (time_key c r)) eqn:E2.
      * cbn [newest_first]. cbn [newest_first] in IH. rewrite Hyz. exact IH.
      * cbn [newest_first]. cbn [newest_first] in IH.
        rewrite (key_gt_asym _ _ E). exact IH.
  - cbn [newest_first]. rewrite E. exact Hs.
Qed.

Lemma sort_desc_sorted (c : string) (l : list Row) :
  newest_first c (sort_desc c l) = true.
Proof.
  induction l as [|x l IH]; [reflexivity|].
  simpl. now apply insert_desc_sorted.
Qed.

Lemma ordered_In (r : RelDecl) (x : Row) (l : list Row) :
  In x (ordered r l) <-> In x l.
Proof.
  unfold ordered. destruct (arg_order_by (rel_args r)) as [s|]; [|tauto].
  destruct (order_column s); [apply sort_desc_In|tauto].
Qed.

Lemma matching_In (db : DB) (c tc : Class) (r : RelDecl) (o x : Row) :
  In x (matching db c r tc o) <->
  In (cls_tablename tc, x) db /\ joined db (join_of c r tc) o x = true.
Proof. unfold matching. now rewrite ordered_In, filter_In, table_rows_In. Qed.

Lemma first_In {A : Type} (x : A) (l : list A) : In x (firstn 1 l) -> In x l.
Proof. destruct l as [|y l]; [intros []|]. intros [<-|[]]. now left. Qed.

(** What a relationship loads is among the rows that match. *)
Lemma related_matching (db : DB) (c tc : Class) (r : RelDecl) (o x : Row) :
  find_class (rel_target r) = Some tc ->
  In x (related db c r o) -> In x (matching db c r tc o).
Proof.
  intros Ht. unfold related. rewrite Ht.
  destruct (scalar r (join_of c r tc)); [apply first_In|auto].
Qed.

(** A list relationship loads every row that matches. *)
Lemma related_intro (db : DB) (c tc : Class) (r : RelDecl) (o x : Row) :
  find_class (rel_target r) = Some tc ->
  scalar r (join_of c r tc) = false ->
  In (cls_tablename tc, x) db ->
  joined db (join_of c r tc) o x = true ->
  In x (related db c r o).
Proof.
  intros Ht Hs Hx Hj. unfold related. rewrite Ht, Hs.
  apply matching_In. now split.
Qed.

(** Any relationship loads a row when one matches. *)
Lemma related_some (db : DB) (c tc : Class) (r : RelDecl) (o x : Row) :
  find_class (rel_target r) = Some tc ->
  In (cls_tablename tc, x) db ->
  joined db (join_of c r tc) o x = true ->
  exists y, In y (related db c r o) /\ In y (matching db c r tc o).
Proof.
  intros Ht Hx Hj. unfold related. rewrite Ht.
  assert (Hm : In x (matching db c r tc o)) by (apply matching_In; now split).
  destruct (scalar r (join_of c r tc)); [|now exists x].
  destruct (matching db c r tc o) as [|y l]; [destruct Hm|].
  exists y. split; now left.
Qed.

(** ** The delete cascade *)

Lemma obj_eqb_eq (a b : obj) : obj_eqb a b = true <-> a = b.
Proof.
  destruct a as [a1 a2], b as [b1 b2]. unfold obj_eqb. simpl.
  rewrite andb_true_iff, !String.eqb_eq. split.
  - intros [-> ->]. reflexivity.
  - intros [= -> ->]. now split.
Qed.

Lemma mem_obj_In (o : obj) (s : list obj) : mem_obj o s = true <-> In o s.
Proof.
  unfold mem_obj. rewrite existsb_exists. split.
  - intros [x [Hx E]]. apply obj_eqb_eq in E. now subst.
  - intro H. exists o. split; [exact H|]. now apply obj_eqb_eq.
Qed.

(** The walk only ever adds to the visited list, and adds the record it
    is called on. *)
Lemma cascade_visit_grows (db : DB) (fuel : nat) :
  forall seen o,
    In o (cascade_visit fuel db seen o) /\
    (forall x, In x seen -> In x (cascade_visit fuel db seen o)).
Proof.
  induction fuel as [|f IH]; intros seen o; simpl.
  - destruct (mem_obj o seen) eqn:E.
    + split; [now apply mem_obj_In|auto].
    + split; [now left|intros x Hx; now right].
  - destruct (mem_obj o seen) eqn:E.
    + split; [now apply mem_obj_In|auto].
    + assert (Hfold : forall l acc x, In x acc ->
                        In x (fold_left (cascade_visit f db) l acc)).
      { induction l as [|t l IHl]; intros acc x Hx; simpl; [exact Hx|].
        apply IHl. exact (proj2 (IH acc t) x Hx). }
      split.
      * apply Hfold. now left.
      * intros x Hx. apply Hfold. now right.
Qed.

Lemma cascade_fold_visits (db : DB) (f : nat) (l : list obj) :
  forall acc x, In x acc \/ In x l -> In x (fold_left (cascade_visit f db) l acc).
Proof.
  induction l as [|t l IH]; intros acc x H; simpl.
  - destruct H as [H|[]]. exact H.
  - apply IH. destruct H as [H|[<-|H]].
    + left. exact (proj2 (cascade_visit_grows db f acc t) x H).
    + left. exact (proj1 (cascade_visit_grows db f acc t)).
    + now right.
Qed.

Lemma delete_set_root (db : DB) (o : obj) : In o (delete_set db o).
Proof. unfold delete_set. exact (proj1 (cascade_visit_grows db _ [] o)). Qed.

Lemma delete_set_targets (db : DB) (o t : obj) :
  In t (delete_targets db o) -> In t (delete_set db o).
Proof.
  intro H. unfold delete_set. simpl. apply cascade_fold_visits. now right.
Qed.

Lemma row_ids_In (rows : list Row) (x : Row) (i : string) :
  In x rows -> get x "id" = Some (VStr i) -> In i (row_ids rows).
Proof.
  intros Hx Hid. unfold row_ids. apply in_flat_map. exists x.
  split; [exact Hx|]. rewrite Hid. now left.
Qed.

(** One step of the cascade: a relationship with the [delete] option
    reaches every record it loads. *)
Lemma delete_targets_intro (db : DB) (c : Class) (i a j : string) (r : RelDecl)
  (o x : Row) :
  find_class (cls_name c) = Some c ->
  In (cls_tablename c, o) db -> get o "id" = Some (VStr i) ->
  In (a, r) (all_relationships c) ->
  cascades_delete r = true -> participates r = true ->
  In x (related db c r o) -> get x "id" = Some (VStr j) ->
  In (rel_target r, j) (delete_targets db (cls_name c, i)).
Proof.
  intros Hc Ho Hid Hr Hcd Hp Hx Hj. unfold delete_targets. cbn [fst snd].
  rewrite Hc. apply in_flat_map. exists o. split.
  - apply filter_In. split; [now apply table_rows_In|now apply has_id_get].
  - apply in_flat_map. exists (a, r). split; [exact Hr|]. cbn [snd].
    rewrite Hcd, Hp. simpl. apply in_map_iff. exists j. split; [reflexivity|].
    now apply row_ids_In with (x := x).
Qed.

(** Detaching a row changes neither its table nor, where [id] has no
    [onupdate], its identity. *)
Lemma detach_table (env : Env) ds (e : string * Row) :
  fst (detach env ds e) = fst e.
Proof.
  unfold detach. destruct (class_of_table (fst e)); [|reflexivity].
  destruct (get (snd e) "id") as [[i| | | |]|]; try reflexivity.
  destruct (detached_cols ds (fst e) i); reflexivity.
Qed.

Lemma detach_id (env : Env) ds (e : string * Row) (c : Class) (v : value) :
  class_of_table (fst e) = Some c ->
  no_onupdate "id" (columns c) = true ->
  get (snd (detach env ds e)) "id" = Some v -> get (snd e) "id" = Some v.
Proof.
  intros Hc Hn. unfold detach. rewrite Hc.
  destruct (get (snd e) "id") as [[i| | | |]|] eqn:E; try (now rewrite E).
  destruct (detached_cols ds (fst e) i) as [|k ks]; [now rewrite E|].
  cbn [snd]. intro H. apply updated_row_keeps in H; [|exact Hn|apply lookup_nulls].
  now rewrite <- H, E.
Qed.

(** What a successful delete leaves: every remaining row is an unmarked
    row of the old store, detached where needed, and none of them points
    at a row that was marked. *)
Lemma delete_ok (env : Env) (db db' : DB) (c : Class) (i : string) :
  delete env db c i = Ok db' ->
  forall e, In e db' ->
    (exists e0, In e0 db /\
                marked (delete_set db (cls_name c, i)) e0 = false /\
                e = detach env (detachments db (delete_set db (cls_name c, i))) e0) /\
    (forall g, In g db -> marked (delete_set db (cls_name c, i)) g = true ->
               dangling [g] e = false).
Proof.
  unfold delete.
  set (s := delete_set db (cls_name c, i)).
  set (ds := detachments db s).
  destruct (find blocked ds) as [[[t ?] ?]|]; [discriminate|].
  set (gone := filter (marked s) db).
  set (kept := map (detach env ds)
                 (filter (fun e => negb (unlinked (unlinks db s) e))
                    (filter (fun e => negb (marked s e)) db))).
  destruct (find _ _) as [e1|] eqn:Ef; [discriminate|].
  intros [= <-] e He.
  apply filter_In in He. destruct He as [He Hnc].
  split.
  - unfold kept in He. apply in_map_iff in He. destruct He as [e0 [<- He0]].
    apply filter_In in He0. destruct He0 as [He0 _].
    apply filter_In in He0. destruct He0 as [He0 Hm].
    exists e0. split; [exact He0|]. split; [|reflexivity].
    now apply negb_true_iff in Hm.
  - intros g Hg Hm.
    assert (Hin : In e (filter (fun e => negb (db_cascaded gone e)) kept))
      by (apply filter_In; now split).
    pose proof (find_none _ _ Ef e Hin) as Hd.
    unfold dangling in *. apply not_true_is_false. intro Hx.
    apply existsb_exists in Hx. destruct Hx as [fk [Hfk Hp]].
    assert (Hd' : existsb (points_into
                    (gone ++ filter (db_cascaded gone) kept)%list e)
                    (table_fks (fst e)) = true).
    { apply existsb_exists. exists fk. split; [exact Hfk|].
      destruct fk as [[k [t cn]] od]. unfold points_into in *.
      apply existsb_exists in Hp. destruct Hp as [g' [[<-|[]] Hg']].
      apply existsb_exists. exists g. split; [|exact Hg'].
      apply in_or_app. left. apply filter_In. now split. }
    rewrite Hd' in Hd. discriminate.
Qed.

Lemma marked_intro (s : list obj) (t : string) (x : Row) (c : Class) (i : string) :
  class_of_table t = Some c -> get x "id" = Some (VStr i) ->
  In (cls_name c, i) s -> marked s (t, x) = true.
Proof.
  intros Hc Hid Hin. unfold marked. cbn [fst snd]. rewrite Hc, Hid.
  now apply mem_obj_In.
Qed.

(** A marked record leaves no row behind. *)
Lemma delete_removes_marked (env : Env) (db db' : DB) (c tc : Class) (i j t : string) :
  delete env db c i = Ok db' ->
  In (cls_name tc, j) (delete_set db (cls_name c, i)) ->
  class_of_table t = Some tc ->
  no_onupdate "id" (columns tc) = true ->
  forall y, In (t, y) db' -> get y "id" <> Some (VStr j).
Proof.
  intros Hok Hin Hc Hn y Hy Hid.
  destruct (proj1 (delete_ok _ _ _ _ _ Hok _ Hy)) as [e0 [_ [Hm He]]].
  assert (Ht : fst e0 = t).
  { pose proof (detach_table env (detachments db (delete_set db (cls_name c, i))) e0) as H.
    rewrite <- He in H. simpl in H. now symmetry. }
  assert (Hid0 : get (snd e0) "id" = Some (VStr j)).
  { apply detach_id with (env := env)
      (ds := detachments db (delete_set db (cls_name c, i))) (c := tc).
    - now rewrite Ht.
    - exact Hn.
    - rewrite <- He. exact Hid. }
  destruct e0 as [t0 x0]. simpl in Ht, Hid0. subst t0.
  rewrite (marked_intro _ t x0 tc j Hc Hid0 Hin) in Hm. discriminate.
Qed.

(** A row that still points at a marked record makes the delete fail. *)
Lemma delete_leaves_no_reference (env : Env) (db db' : DB) (c tc : Class)
  (i t k tt : string) (od : option string) (g : Row) :
  delete env db c i = Ok db' ->
  In (cls_name tc, i) (delete_set db (cls_name c, i)) ->
  class_of_table tt = Some tc ->
  In (tt, g) db -> get g "id" = Some (VStr i) ->
  In (k, (tt, "id"), od) (table_fks t) ->
  forall y, In (t, y) db' -> get y k <> Some (VStr i).
Proof.
  intros Hok Hin Hc Hg Hid Hfk y Hy Hk.
  pose proof (proj2 (delete_ok _ _ _ _ _ Hok _ Hy) (tt, g) Hg
                (marked_intro _ tt g tc i Hc Hid Hin)) as Hd.
  unfold dangling in Hd. cbn [fst] in Hd.
  assert (Ht : existsb (points_into [(tt, g)] (t, y)) (table_fks t) = true).
  { apply existsb_exists. exists (k, (tt, "id"), od). split; [exact Hfk|].
    unfold points_into. cbn [existsb fst snd].
    rewrite String.eqb_refl, Hid, Hk. simpl. now rewrite String.eqb_refl. }
  rewrite Ht in Hd. discriminate.
Qed.

(** *** The walk is complete

    The depth bound given to the walk is never the reason it stops: the
    records it returns are closed under the cascade. *)

Lemma models_by_table (tc : Class) :
  In tc models ->
  exists c, class_of_table (cls_tablename tc) = Some c /\ cls_name c = cls_name tc.
Proof.
  intro Hin. unfold models in Hin. cbn [In] in Hin.
  repeat (destruct Hin as [<-|Hin]; [eexists; split; [vm_compute; reflexivity|reflexivity]|]).
  contradiction.
Qed.

Lemma find_class_sound (n : string) (tc : Class) :
  find_class n = Some tc -> In tc models /\ cls_name tc = n.
Proof.
  unfold find_class. intro H. apply find_some in H. destruct H as [Hin E].
  split; [exact Hin|now apply String.eqb_eq].
Qed.

Lemma stored_objects_length (db : DB) : length (stored_objects db) <= length db.
Proof.
  unfold stored_objects. induction db as [|e l IH]; [simpl; lia|].
  cbn [flat_map]. rewrite length_app. unfold obj in *.
  set (rest := flat_map _ l) in *.
  destruct (class_of_table (fst e)); [|cbn [length]; lia].
  destruct (get (snd e) "id") as [[i| | | |]|]; cbn [length]; lia.
Qed.

Lemma unseen_mono (u : list obj) (seen seen' : list obj) :
  (forall x, In x seen -> In x seen') -> unseen u seen' <= unseen u seen.
Proof.
  intro H. unfold unseen. induction u as [|y l IH]; simpl; [lia|].
  destruct (mem_obj y seen') eqn:E'; destruct (mem_obj y seen) eqn:E; simpl; try lia.
  apply mem_obj_In in E. apply H in E. apply mem_obj_In in E.
  rewrite E in E'. discriminate.
Qed.

Lemma unseen_drops (u : list obj) (seen : list obj) (o : obj) :
  In o u -> mem_obj o seen = false -> S (unseen u (o :: seen)) <= unseen u seen.
Proof.
  unfold unseen. induction u as [|y l IH]; intros Hin Hno; [destruct Hin|].
  cbn [filter mem_obj existsb].
  destruct (obj_eqb y o) eqn:Eyo.
  - apply obj_eqb_eq in Eyo. subst y. rewrite Hno. cbn [orb negb length].
    pose proof (unseen_mono l seen (o :: seen) (fun x Hx => or_intror Hx)) as Hm.
    apply le_n_S. exact Hm.
  - destruct Hin as [->|Hin].
    { assert (T : obj_eqb o o = true) by now apply obj_eqb_eq.
      rewrite T in Eyo. discriminate. }
    specialize (IH Hin Hno). cbn [orb].
    destruct (mem_obj y seen) eqn:Ey.
    + unfold mem_obj in Ey. rewrite Ey. exact IH.
    + unfold mem_obj in Ey. rewrite Ey. cbn [negb length]. apply le_n_S. exact IH.
Qed.

Lemma unseen_none (u : list obj) (seen : list obj) (o : obj) :
  In o u -> unseen u seen <= 0 -> mem_obj o seen = true.
Proof.
  unfold unseen. intros Hin H.
  destruct (mem_obj o seen) eqn:E; [reflexivity|exfalso].
  assert (Hf : In o (filter (fun x => negb (mem_obj x seen)) u)).
  { apply filter_In. split; [exact Hin|]. now rewrite E. }
  destruct (filter (fun x => negb (mem_obj x seen)) u); [destruct Hf|].
  simpl in H. lia.
Qed.

Section Walk.

Variable db : DB.
Variable root : obj.

(** Every record the walk can meet: the root and the stored rows. *)
Let universe : list obj := root :: stored_objects db.

Lemma targets_stored (x t : obj) :
  In t (delete_targets db x) -> In t universe.
Proof.
  unfold delete_targets. destruct (find_class (fst x)) as [c|]; [|intros []].
  intro H. apply in_flat_map in H. destruct H as [row [_ H]].
  apply in_flat_map in H. destruct H as [[a r] [_ H]]. cbn [snd] in H.
  destruct (cascades_delete r && participates r); [|destruct H].
  apply in_map_iff in H. destruct H as [j [<- Hj]].
  unfold row_ids in Hj. apply in_flat_map in Hj. destruct Hj as [y [Hy Hid]].
  destruct (find_class (rel_target r)) as [tc|] eqn:Etc;
    [|unfold related in Hy; rewrite Etc in Hy; destruct Hy].
  apply (related_matching db c tc r row y Etc), matching_In in Hy.
  destruct Hy as [Hy _].
  destruct (find_class_sound _ _ Etc) as [Hm Hn].
  destruct (models_by_table tc Hm) as [c' [Hc' Hn']].
  right. unfold stored_objects. apply in_flat_map.
  exists (cls_tablename tc, y). split; [exact Hy|]. cbn [fst snd]. rewrite Hc'.
  destruct (get y "id") as [[i| | | |]|]; try contradiction.
  destruct Hid as [<-|[]]. left. now rewrite Hn', Hn.
Qed.

(** With fuel for every unseen record, each record the walk adds has
    all its cascade targets in the result. *)
Lemma cascade_visit_closed (fuel : nat) :
  forall seen o,
    In o universe -> unseen universe seen <= fuel ->
    forall x, In x (cascade_visit fuel db seen o) ->
      In x seen \/
      forall t, In t (delete_targets db x) -> In t (cascade_visit fuel db seen o).
Proof.
  induction fuel as [|f IH]; intros seen o Ho Hf x Hx.
  - cbn [cascade_visit] in *. rewrite (unseen_none universe seen o Ho Hf) in *.
    now left.
  - cbn [cascade_visit] in *. destruct (mem_obj o seen) eqn:E; [now left|].
    assert (Hfold : forall l acc,
              (forall t, In t l -> In t universe) -> unseen universe acc <= f ->
              forall y, In y (fold_left (cascade_visit f db) l acc) ->
                In y acc \/
                forall t, In t (delete_targets db y) ->
                          In t (fold_left (cascade_visit f db) l acc)).
    { induction l as [|t l IHl]; intros acc Hl Hacc y Hy; [now left|].
      cbn [fold_left] in *.
      assert (Hgrow : forall z, In z acc -> In z (cascade_visit f db acc t))
        by (intros z Hz; exact (proj2 (cascade_visit_grows db f acc t) z Hz)).
      destruct (IHl (cascade_visit f db acc t)
                  (fun t' Ht' => Hl t' (or_intror Ht'))
                  (Nat.le_trans _ _ _ (unseen_mono universe _ _ Hgrow) Hacc) y Hy)
        as [Hin|Hcl]; [|now right].
      destruct (IH acc t (Hl t (or_introl eq_refl)) Hacc y Hin) as [Hin'|Hcl];
        [now left|right].
      intros t' Ht'. apply cascade_fold_visits. left. now apply Hcl. }
    pose proof (unseen_drops universe seen o Ho E) as Hdrop.
    assert (Hfuel : unseen universe (o :: seen) <= f) by lia.
    destruct (Hfold (delete_targets db o) (o :: seen)
                (fun t Ht => targets_stored o t Ht) Hfuel x Hx)
      as [[<-|Hin]|Hcl].
    + right. intros t Ht. apply cascade_fold_visits. now right.
    + now left.
    + now right.
Qed.

End Walk.

(** The records marked for deletion are closed under the cascade. *)
Lemma delete_set_closed (db : DB) (o x t : obj) :
  In x (delete_set db o) -> In t (delete_targets db x) -> In t (delete_set db o).
Proof.
  intros Hx Ht. unfold delete_set in *.
  assert (Hfuel : unseen (o :: stored_objects db) [] <= S (length db)).
  { unfold unseen. pose proof (stored_objects_length db) as Hl.
    pose proof (filter_length_le (fun x => negb (mem_obj x [])) (o :: stored_objects db))
      as Hf. cbn [length] in Hf. lia. }
  destruct (cascade_visit_closed db o (S (length db)) [] o (or_introl eq_refl) Hfuel x Hx)
    as [[]|Hcl].
  now apply Hcl.
Qed.

Lemma lookup_of_In {A : Type} (k : string) (a : A) (l : list (string * A)) :
  NoDup (map fst l) -> In (k, a) l -> lookup k l = Some a.
Proof.
  induction l as [|[k' a'] l IH]; intros Hd Hin; [destruct Hin|].
  simpl in Hd. apply NoDup_cons_iff in Hd. destruct Hd as [Hn Hd]. simpl.
  destruct Hin as [[= -> ->]|Hin].
  - now rewrite String.eqb_refl.
  - destruct (String.eqb_spec k k') as [->|_]; [|now apply IH].
    exfalso. apply Hn. apply in_map_iff. now exists (k', a).
Qed.

Lemma models_columns_distinct (c : Class) :
  In c models -> NoDup (map fst (columns c)).
Proof.
  intro Hin. apply distinct_names_NoDup. unfold models in Hin. cbn [In] in Hin.
  repeat (destruct Hin as [<-|Hin]; [vm_compute; reflexivity|]).
  contradiction.
Qed.

Lemma check_row_conforms (db : DB) (cols : list (string * ColumnDecl))
  (others : list Row) (row : Row) :
  check_row db cols others row = None -> conforms cols row = true.
Proof.
  unfold check_row. intro H.
  destruct (check_not_null cols row) eqn:Enn; [discriminate|].
  destruct (check_types cols row) eqn:Ety; [discriminate|]. clear H.
  unfold conforms. apply forallb_forall. intros kc Hkc.
  pose proof (first_name_none _ _ Enn kc Hkc) as H1.
  pose proof (first_name_none _ _ Ety kc Hkc) as H2. cbv beta in H1, H2.
  destruct (get row (fst kc)) as [v|].
  - now apply negb_false_iff in H2.
  - rewrite andb_true_r in H1. now apply negb_false_iff in H1.
Qed.

Lemma stamp_type_ok (ty : ColType) (t t' : Z) :
  type_ok ty (VTime t) = true -> type_ok ty (VTime t') = true.
Proof. destruct ty as [[n|]| | | | | | | |]; intro H; exact H. Qed.

(** * The entity store *)

(** ** Names *)

Lemma name_unique_classes :
  map cls_name (filter (fun c => negb (name_is_unique c)) models) =
    [ "LogModel"; "VersionModel"; "DeploymentModel"; "JobModel"; "CallModel";
      "ArgumentModel"; "EventModel"; "LoginModel" ] /\
  map cls_name (filter (fun c => negb (name_is_required c)) models) =
    [ "LogModel"; "JobModel"; "LoginModel" ].
Proof. split; vm_compute; reflexivity. Qed.





Lemma free_column_intro (k0 : string) (v : value) (cols : list (string * ColumnDecl))
  (col : ColumnDecl) :
  NoDup (map fst cols) -> lookup k0 cols = Some col ->
  type_ok (col_type col) v = true ->
  is_unique col = false -> is_primary_key col = false -> col_fk col = None ->
  free_column k0 v cols = true.
Proof.
  intros Hd Hcol Ht Hu Hp Hf. unfold free_column. apply forallb_forall.
  intros [k c] Hin. cbn [fst snd].
  destruct (String.eqb_spec k k0) as [->|_]; [|reflexivity].
  rewrite (lookup_of_In k0 c cols Hd Hin) in Hcol. injection Hcol as ->.
  now rewrite Ht, Hu, Hp, Hf.
Qed.




(** ** The privilege rights *)

(** C2, as the code has it: the list [rights] has one entry where the
    claim wants two.  Neither [EDIT_PROCESSOR_CODE] nor [LS_PROCESSORS] is
    a member; the member is their concatenation, and a privilege whose
    right is [LS_PROCESSORS] is refused. *)
Theorem rights_fused_entry :
  mem_string "EDIT_PROCESSOR_CODE" rights = false /\
  mem_string "LS_PROCESSORS" rights = false /\
  mem_string "EDIT_PROCESSOR_CODELS_PROCESSORS" rights = true /\
  insert (env_at 1) [] PrivilegeModel (privilege_kw "pr0" "LS_PROCESSORS")
    = Err (ValidationError (BadValue "right")) /\
  insert (env_at 1) [] PrivilegeModel (privilege_kw "pr0" "EDIT_PROCESSOR_CODE")
    = Err (ValidationError (BadValue "right")).
Proof. repeat split; vm_compute; reflexivity. Qed.

(** The part of C2 that holds: the enumeration is closed.  A stored
    privilege has no right or one from [rights]. *)
Lemma privilege_right_closed (env : Env) (db db' : DB) (kw : Row) :
  insert env db PrivilegeModel kw = Ok db' ->
  exists row, db' = (db ++ [("privilege", row)])%list /\
    (get row "right" = None \/
     exists s, get row "right" = Some (VStr s) /\ In s rights).
Proof.
  intro H. apply insert_ok in H. destruct H as [-> Hc].
  remember (with_defaults env (columns PrivilegeModel) kw) as row eqn:Erow.
  exists row. split; [reflexivity|].
  unfold check_row in Hc.
  destruct (check_not_null _ _); [discriminate|].
  destruct (check_types _ _) eqn:Ht; [discriminate|].
  unfold check_types in Ht.
  assert (Hin : In ("right", mkColumn (Enum rights "right") [])
                   (columns PrivilegeModel)) by (vm_compute; tauto).
  pose proof (first_name_none _ _ Ht _ Hin) as Hr.
  cbn [fst snd col_type] in Hr.
  destruct (get row "right") as [v|]; [|now left].
  right. apply negb_false_iff in Hr.
  destruct v; try discriminate. exists s. split; [reflexivity|].
  unfold type_ok, mem_string in Hr. apply existsb_exists in Hr.
  destruct Hr as [x [Hx E]]. apply String.eqb_eq in E. now subst.
Qed.

(** ** The plaintext credential *)

(** C9, refuted: the user table has a [clear] column, and the stored
    user carries the password as given next to the hash. *)
Lemma user_has_clear_column :
  ~ (bound "clear" (columns UserModel) = false) /\
  exists row, In ("users", row) topology /\
              get row "clear" = Some (VStr "secret") /\
              get row "password" = Some (VStr "$2b$12$hash").
Proof.
  split.
  - vm_compute. discriminate.
  - eexists. split; [left; reflexivity|]. split; reflexivity.
Qed.

(** C9, amended: [clear] is a required column of User and holds the
    password as it is given: every successful creation of a user supplied
    a value for it, and when that value is a text of at most 60
    characters the row holds that very text. *)
Theorem user_clear_required_and_stored (env : Env) (db db' : DB) (kw : Row) :
  insert env db UserModel kw = Ok db' ->
  exists row v, db' = (db ++ [("users", row)])%list /\
                lookup "clear" kw = Some v /\
                forall s, v = VStr s -> String.length s <= 60 ->
                          get row "clear" = Some (VStr s).
Proof.
  intro H. pose proof (insert_ok _ _ _ _ _ H) as [-> _].
  destruct (lookup "clear" kw) as [v|] eqn:E.
  - exists (with_defaults env (columns UserModel) kw), v.
    split; [reflexivity|]. split; [reflexivity|]. intros s -> _.
    apply get_with_defaults_given; [vm_compute; reflexivity|exact E].
  - exfalso.
    assert (Hw : exists w, insert env db UserModel kw = Err (ValidationError w)).
    { apply insert_requires
        with (k := "clear")
             (col := mkColumn (String_ (Some 60)) [unique false; nullable false]).
      - vm_compute. tauto.
      - reflexivity.
      - apply undefaulted_spec. vm_compute. reflexivity.
      - exact E. }
    destruct Hw as [w Hw]. rewrite Hw in H. discriminate.
Qed.

Lemma user_clear_required_and_stored_witness :
  exists row, the_db (insert (env_at 1) [] UserModel alice)
                = ([] ++ [("users", row)])%list /\
              get row "clear" = Some (VStr "secret").
Proof.
  destruct (user_clear_required_and_stored (env_at 1) []
              (the_db (insert (env_at 1) [] UserModel alice)) alice)
    as [row [v [E [Hv Hs]]]].
  - vm_compute. reflexivity.
  - exists row. split; [exact E|]. apply Hs.
    + cbn in Hv. now injection Hv as <-.
    + vm_compute. repeat constructor.
Defined.

(** ** Sockets wait for nothing by default *)

(** C10: a socket created without a [wait] value is stored with
    [wait] false, the setting under which its task fires on each
    delivery instead of waiting for all source plugs. *)
Theorem socket_wait_defaults_false (env : Env) (db db' : DB) (kw : Row) :
  lookup "wait" kw = None ->
  insert env db SocketModel kw = Ok db' ->
  exists row, db' = (db ++ [("socket", row)])%list /\
              get row "wait" = Some (VBool false).
Proof.
  intros Hk H. apply insert_ok in H. destruct H as [-> _].
  exists (with_defaults env (columns SocketModel) kw). split; [reflexivity|].
  apply get_with_defaults_default
    with (c := mkColumn Boolean [default (const (VBool false))])
         (d := const (VBool false)); try reflexivity.
  exact Hk.
Qed.

Lemma socket_wait_defaults_false_witness :
  exists row, the_db (insert (env_at 9) topology SocketModel third_socket)
                = (topology ++ [("socket", row)])%list /\
              get row "wait" = Some (VBool false).
Proof.
  apply (socket_wait_defaults_false (env_at 9) topology _ third_socket).
  - reflexivity.
  - vm_compute. reflexivity.
Defined.

(** * Identity and access control *)

(** ** Revocation *)

Lemma resulting_set_spec (db : DB) (actor p : string) :
  In p (resulting_set db actor) <->
  In p (effective_grants db actor) /\ ~ In p (revoked_set db actor).
Proof.
  unfold resulting_set. rewrite filter_In. split.
  - intros [H Hn]. split; [exact H|].
    intro Hr. apply mem_string_In in Hr. rewrite Hr in Hn. discriminate.
  - intros [H Hn]. split; [exact H|].
    destruct (mem_string p (revoked_set db actor)) eqn:E; [|reflexivity].
    apply mem_string_In in E. contradiction.
Qed.

(** C3: a privilege in the revoked set of an actor is denied to the
    actor, whether it is granted directly, through a role, or through
    [ALL]; what is left to grant is the direct privileges together with
    those of the roles held, less the revoked ones. *)
Theorem revocation_precedence (db : DB) (actor p resource : string) :
  In p (revoked_set db actor) ->
  authorize db actor p resource = deny /\
  ~ In p (resulting_set db actor) /\
  (forall q, In q (resulting_set db actor) <->
     (In q (direct_grants db actor) \/ In q (role_grants db actor)) /\
     ~ In q (revoked_set db actor)).
Proof.
  intro Hp. split; [|split].
  - unfold authorize. apply mem_string_In in Hp. now rewrite Hp.
  - intro H. apply resulting_set_spec in H. now destruct H.
  - intro q. rewrite resulting_set_spec. unfold effective_grants.
    now rewrite in_app_iff.
Qed.

Lemma revocation_precedence_witness :
  In "UPDATE" (role_grants grants "u1") /\
  authorize grants "u1" "UPDATE" "processor:p1" = deny /\
  In "ALL" (effective_grants grants "u2") /\
  authorize grants "u2" "READ" "processor:p1" = deny /\
  authorize grants "u1" "READ" "processor:p1" = allow.
Proof.
  split; [vm_compute; tauto|]. split.
  - destruct (revocation_precedence grants "u1" "UPDATE" "processor:p1") as [H _];
      [vm_compute; tauto|exact H].
  - split; [vm_compute; tauto|]. split; [|vm_compute; reflexivity].
    destruct (revocation_precedence grants "u2" "READ" "processor:p1") as [H _];
      [vm_compute; tauto|exact H].
Defined.

(** ** Audit relations *)

(** C8, refuted for Login: the [logins] lookup compares no type tag, the
    login table has no column to hold one, and its [user_id] is a foreign
    key to the user table. *)
Lemma logins_not_polymorphic :
  filters_on_type_tag ProcessorModel "logs" = true /\
  filters_on_type_tag UserModel "logins" = false /\
  lookup "discriminator" (columns LoginModel) = None /\
  table_fks "login" = [("user_id", ("users", "id"), None)].
Proof. repeat split; vm_compute; reflexivity. Qed.

(** C8, amended: the logs of a processor are the log rows whose [oid] is
    the processor's id and whose [discriminator] is the processor's class
    name, newest first; the logins of a user are the login rows whose
    [user_id] is the user's id, newest first. *)
Theorem audit_lookups (db : DB) (i : string) (x : Row) :
  (In x (load db ProcessorModel i "logs") <->
     (exists o, In ("processor", o) db /\ get o "id" = Some (VStr i)) /\
     In ("log", x) db /\
     get x "oid" = Some (VStr i) /\
     get x "discriminator" = Some (VStr "ProcessorModel")) /\
  (In x (load db UserModel i "logins") <->
     (exists o, In ("users", o) db /\ get o "id" = Some (VStr i)) /\
     In ("login", x) db /\
     get x "user_id" = Some (VStr i)) /\
  newest_first "created" (load db ProcessorModel i "logs") = true /\
  newest_first "created" (load db UserModel i "logins") = true.
Proof.
  rewrite (load_unfold db ProcessorModel i "logs"
             (mkRel "LogModel"
                [ order_by "desc(LogModel.created)";
                  primaryjoin [JoinOwner "oid" "id";
                               JoinLit "discriminator" "ProcessorModel"];
                  lazy_ "select" ])
             LogModel
             (ByCondition [JoinOwner "oid" "id";
                           JoinLit "discriminator" "ProcessorModel"]))
    by (vm_compute; reflexivity).
  rewrite (load_unfold db UserModel i "logins"
             (mkRel "LoginModel"
                [ order_by "desc(LoginModel.created)";
                  primaryjoin [JoinOwner "user_id" "id"];
                  lazy_ "select" ])
             LoginModel
             (ByCondition [JoinOwner "user_id" "id"]))
    by (vm_compute; reflexivity).
  change (cls_tablename ProcessorModel) with "processor".
  change (cls_tablename UserModel) with "users".
  change (cls_tablename LogModel) with "log".
  change (cls_tablename LoginModel) with "login".
  assert (Ho1 : forall l, ordered (mkRel "LogModel"
                [ order_by "desc(LogModel.created)";
                  primaryjoin [JoinOwner "oid" "id";
                               JoinLit "discriminator" "ProcessorModel"];
                  lazy_ "select" ]) l = sort_desc "created" l)
    by (intros; reflexivity).
  assert (Ho2 : forall l, ordered (mkRel "LoginModel"
                [ order_by "desc(LoginModel.created)";
                  primaryjoin [JoinOwner "user_id" "id"];
                  lazy_ "select" ]) l = sort_desc "created" l)
    by (intros; reflexivity).
  split; [|split; [|split]].
  - destruct (owner_found db "processor" i) as [[o [Ef Hid]]|[Ef Hno]]; rewrite Ef.
    + rewrite Ho1, sort_desc_In, filter_In, table_rows_In.
      cbn [joined forallb holds]. rewrite Hid, andb_true_r, andb_true_iff.
      rewrite !sql_eqb_some. split.
      * intros [Hx [H1 H2]]. repeat split; try assumption.
        exists o. split; [|exact Hid]. apply table_rows_In.
        now apply find_some in Ef.
      * intros [_ [Hx [H1 H2]]]. now repeat split.
    + split; [intros []|]. intros [[o [Ho Hid]] _]. now apply (Hno o).
  - destruct (owner_found db "users" i) as [[o [Ef Hid]]|[Ef Hno]]; rewrite Ef.
    + rewrite Ho2, sort_desc_In, filter_In, table_rows_In.
      cbn [joined forallb holds]. rewrite Hid, andb_true_r.
      rewrite sql_eqb_some. split.
      * intros [Hx H1]. repeat split; try assumption.
        exists o. split; [|exact Hid]. apply table_rows_In.
        now apply find_some in Ef.
      * intros [_ [Hx H1]]. now split.
    + split; [intros []|]. intros [[o [Ho Hid]] _]. now apply (Hno o).
  - destruct (find _ _); [|reflexivity].
    rewrite Ho1. apply sort_desc_sorted.
  - destruct (find _ _); [|reflexivity].
    rewrite Ho2. apply sort_desc_sorted.
Qed.

(** * Further properties of the entity store *)

(** ** Constraints at creation *)

Lemma In_bound {A : Type} (k : string) (a : A) (l : list (string * A)) :
  In (k, a) l -> bound k l = true.
Proof.
  intro H. unfold bound. destruct (lookup k l) eqn:E; [reflexivity|].
  apply lookup_none_not_in in E. exfalso. apply E.
  apply in_map_iff. now exists (k, a).
Qed.


(** The columns declared unique besides [id] and [name]. *)
Lemma unique_columns_declared :
  flat_map (fun c => map (fun kc => (cls_name c, fst kc))
                         (filter (fun kc => is_unique (snd kc) &&
                                            negb (String.eqb (fst kc) "id") &&
                                            negb (String.eqb (fst kc) "name"))
                                 (columns c)))
           models
  = [ ("UserModel", "email"); ("ContainerModel", "container_id");
      ("LoginModel", "token") ].
Proof. by_computation. Qed.



(** X2: a foreign key must point at a stored row.  A record whose
    foreign-key column holds a value that no row of the referenced table
    has in the referenced column is refused. *)
Theorem dangling_reference_refused (c : Class) (k : string) (col : ColumnDecl)
  (t rc : string) (env : Env) (db : DB) (kw : Row) (v : value) :
  In (k, col) (columns c) -> col_fk col = Some (t, rc) ->
  lookup k kw = Some v ->
  (forall r, In (t, r) db -> get r rc <> Some v) ->
  exists w, insert env db c kw = Err (ValidationError w).
Proof.
  intros Hcol Hfk Hk Hnone.
  set (row := with_defaults env (columns c) kw).
  assert (G : get row k = Some v).
  { apply get_with_defaults_given; [now apply In_bound with (a := col)|exact Hk]. }
  assert (Hf : exists k', check_foreign_keys db (columns c) row = Some k').
  { unfold check_foreign_keys. apply first_name_found with (x := (k, col)); [exact Hcol|].
    cbn [fst snd]. rewrite Hfk, G. apply negb_true_iff.
    apply not_true_is_false. intro Hex. apply existsb_exists in Hex.
    destruct Hex as [r [Hr He]]. apply table_rows_In in Hr.
    apply sql_eqb_some in He. now apply (Hnone r). }
  destruct Hf as [k' Hk'].
  assert (Hchk : exists w, check_row db (columns c)
                   (table_rows db (cls_tablename c)) row = Some w).
  { unfold check_row.
    destruct (check_not_null (columns c) row); [now eexists|].
    destruct (check_types (columns c) row); [now eexists|].
    destruct (check_unique (columns c) _ row); [now eexists|].
    destruct (negb (check_primary_key (columns c) _ row)); [now eexists|].
    rewrite Hk'. now eexists. }
  destruct Hchk as [w Hw]. exact (insert_rejects env db c kw w Hw).
Qed.

Lemma dangling_reference_refused_witness :
  exists w, insert (env_at 9) topology SocketModel
              [("id", VStr "s9"); ("name", VStr "stray"); ("processor_id", VStr "p404");
               ("user_id", VStr "u1")]
            = Err (ValidationError w).
Proof.
  apply (dangling_reference_refused SocketModel "processor_id"
           (mkColumn (String_ (Some 40)) [ForeignKey "processor.id" None; nullable false])
           "processor" "id" (env_at 9) topology _ (VStr "p404")).
  - vm_compute. tauto.
  - reflexivity.
  - reflexivity.
  - intros r Hr. vm_compute in Hr.
    repeat (destruct Hr as [Hr|Hr]; [inversion Hr; subst; vm_compute; discriminate|]).
    contradiction.
Defined.

(** ** What the base class gives every entity *)

Lemma default_eqb_eq (a b : Default) : default_eqb a b = true -> a = b.
Proof.
  destruct a, b; simpl; intro H; try discriminate.
  - apply String.eqb_eq in H. now subst.
  - reflexivity.
  - apply value_eqb_eq in H. now subst.
Qed.

Lemma get_with_defaults_declared (env : Env) (cols : list (string * ColumnDecl))
  (kw : Row) (k : string) (d : Default) (v : value) :
  default_is k d cols = true -> lookup k kw = None ->
  eval_default env k d = Some v ->
  get (with_defaults env cols kw) k = Some v.
Proof.
  unfold default_is. intros Hd Hk Hv.
  destruct (lookup k cols) as [col|] eqn:Ec; [|discriminate].
  destruct (arg_default (col_args col)) as [d'|] eqn:Ed; [|discriminate].
  apply default_eqb_eq in Hd. subst d'.
  now apply get_with_defaults_default with (c := col) (d := d).
Qed.

(** The entity classes that inherit [BaseModel] take its defaults as they
    are: none of them redeclares [id], [owner], [status], [requested_status],
    [created] or [lastupdated] with another default. *)
Lemma base_columns_inherited (c : Class) :
  In c models -> inherits_base c = true ->
  default_is "id" uuid_generate_v4 (columns c) = true /\
  default_is "owner" current_user (columns c) = true /\
  default_is "status" (const (VStr "ready")) (columns c) = true /\
  default_is "requested_status" (const (VStr "ready")) (columns c) = true /\
  default_is "created" datetime_now (columns c) = true /\
  default_is "lastupdated" datetime_now (columns c) = true /\
  undefaulted "enabled" (columns c) = true.
Proof.
  intros Hin Hb. unfold models in Hin. cbn [In] in Hin.
  repeat (destruct Hin as [<-|Hin];
          [first [ discriminate Hb | repeat split; vm_compute; reflexivity ] | ]).
  contradiction.
Qed.

(** X3: what a record gets when its creator leaves the base fields out.
    For every entity class that inherits [BaseModel]: the [id] is
    generated, the [owner] is the session's user, [status] and
    [requested_status] are "ready", [created] and [lastupdated] are the
    time of creation, and [enabled] is left unset. *)
Theorem base_defaults_applied (c : Class) (env : Env) (db db' : DB) (kw : Row) :
  In c models -> inherits_base c = true ->
  insert env db c kw = Ok db' ->
  exists row, db' = (db ++ [(cls_tablename c, row)])%list /\
    (lookup "id" kw = None -> get row "id" = Some (VStr (uuid_v4 env "id"))) /\
    (lookup "owner" kw = None -> get row "owner" = Some (VStr (acting_user env))) /\
    (lookup "status" kw = None -> get row "status" = Some (VStr "ready")) /\
    (lookup "requested_status" kw = None ->
       get row "requested_status" = Some (VStr "ready")) /\
    (lookup "created" kw = None -> get row "created" = Some (VTime (now env))) /\
    (lookup "lastupdated" kw = None ->
       get row "lastupdated" = Some (VTime (now env))) /\
    (lookup "enabled" kw = None -> get row "enabled" = None).
Proof.
  intros Hin Hb Hok.
  destruct (base_columns_inherited c Hin Hb) as [Hid [Ho [Hs [Hr [Hc [Hl He]]]]]].
  apply insert_ok in Hok. destruct Hok as [-> _].
  exists (with_defaults env (columns c) kw). split; [reflexivity|].
  repeat split; intro Hk.
  - now apply get_with_defaults_declared with (d := uuid_generate_v4).
  - now apply get_with_defaults_declared with (d := current_user).
  - now apply get_with_defaults_declared with (d := const (VStr "ready")).
  - now apply get_with_defaults_declared with (d := const (VStr "ready")).
  - now apply get_with_defaults_declared with (d := datetime_now).
  - now apply get_with_defaults_declared with (d := datetime_now).
  - apply get_with_defaults_null; [exact Hk|now apply undefaulted_spec].
Qed.

Lemma base_defaults_applied_witness :
  exists row,
    the_db (insert (env_at 5) [] SettingsModel
              [("name", VStr "theme"); ("value", VStr "dark")])
      = ([] ++ [("settings", row)])%list /\
    get row "id" = Some (VStr "generated-id") /\
    get row "owner" = Some (VStr "alice") /\
    get row "status" = Some (VStr "ready") /\
    get row "created" = Some (VTime 5) /\
    get row "lastupdated" = Some (VTime 5) /\
    get row "enabled" = None.
Proof.
  destruct (base_defaults_applied SettingsModel (env_at 5) []
              (the_db (insert (env_at 5) [] SettingsModel
                         [("name", VStr "theme"); ("value", VStr "dark")]))
              [("name", VStr "theme"); ("value", VStr "dark")])
    as [row [E [Hid [Ho [Hs [_ [Hc [Hl He]]]]]]]].
  - unfold models. cbn [In]. tauto.
  - reflexivity.
  - vm_compute. reflexivity.
  - exists row. split; [exact E|].
    split; [exact (Hid eq_refl)|]. split; [exact (Ho eq_refl)|].
    split; [exact (Hs eq_refl)|]. split; [exact (Hc eq_refl)|].
    split; [exact (Hl eq_refl)|exact (He eq_refl)].
Defined.

(** ** What an update writes *)

Lemma unchanged_spec (old : Row) (kv : string * option value) :
  unchanged old kv = true <-> get old (fst kv) = snd kv.
Proof.
  unfold unchanged. destruct (get old (fst kv)) as [a|], (snd kv) as [b|]; split;
    try discriminate; try reflexivity.
  - intro H. apply value_eqb_eq in H. now subst.
  - intros [= ->]. apply value_eqb_refl.
Qed.

Lemma base_columns_on_update (c : Class) :
  In c models -> inherits_base c = true ->
  onupdate_is "lastupdated" datetime_now (columns c) = true /\
  plain_column "created" (columns c) = true /\
  plain_column "id" (columns c) = true /\
  plain_column "owner" (columns c) = true.
Proof.
  intros Hin Hb. unfold models in Hin. cbn [In] in Hin.
  repeat (destruct Hin as [<-|Hin];
          [first [ discriminate Hb | repeat split; vm_compute; reflexivity ] | ]).
  contradiction.
Qed.

Lemma updated_row_plain (env : Env) (c : Class) (changes : list (string * option value))
  (old : Row) (k : string) :
  NoDup (map fst (columns c)) -> plain_column k (columns c) = true ->
  lookup k changes = None ->
  get (updated_row env (columns c) changes old) k = get old k.
Proof.
  intros Hd Hp Hk. rewrite updated_row_get by exact Hd. unfold plain_column in Hp.
  destruct (lookup k (columns c)) as [col|]; [|discriminate]. rewrite Hk.
  destruct (arg_onupdate (col_args col)); [discriminate|reflexivity].
Qed.

(** X4: an update of an entity that changes a value stamps [lastupdated]
    with the time of the update and writes what it assigns, a NULL or a
    value that fits its column; the fields it does not assign, [id],
    [owner] and [created] among them, stay as they were.  An update whose
    assignments all repeat the stored values writes nothing and stamps
    nothing. *)
Theorem update_stamps_lastupdated (c : Class) (env : Env) (db db' : DB) (i : string)
  (changes : list (string * option value)) :
  In c models -> inherits_base c = true ->
  NoDup (map fst changes) ->
  lookup "lastupdated" changes = None ->
  update env db c i changes = Ok db' ->
  exists old,
    find (has_id i) (table_rows db (cls_tablename c)) = Some old /\
    ((forall k ov, In (k, ov) changes -> get old k = ov) -> db' = db) /\
    ((exists k ov, In (k, ov) changes /\ get old k <> ov /\
        forall v col, ov = Some v -> lookup k (columns c) = Some col ->
                      fits (col_type col) v = true) ->
     exists row,
       In (cls_tablename c, row) db' /\
       get row "lastupdated" = Some (VTime (now env)) /\
       (forall k, lookup k changes = Some None -> get row k = None) /\
       (forall k v col, lookup k changes = Some (Some v) ->
          lookup k (columns c) = Some col -> fits (col_type col) v = true ->
          get row k = Some v) /\
       (lookup "id" changes = None -> get row "id" = Some (VStr i)) /\
       (lookup "owner" changes = None -> get row "owner" = get old "owner") /\
       (lookup "created" changes = None -> get row "created" = get old "created")).
Proof.
  intros Hin Hb Hnd Hl Hok.
  pose proof (models_columns_distinct c Hin) as Hd.
  destruct (base_columns_on_update c Hin Hb) as [Hlu [Hcr [Hid Hown]]].
  destruct (update_cases env db db' c i changes Hok) as [old [Ef [Hbound Hcase]]].
  exists old. split; [exact Ef|].
  destruct Hcase as [[Hsame ->]|[Hdiff [_ [_ ->]]]].
  - split; [reflexivity|]. intros [k [ov [Hk [Hne _]]]]. exfalso. apply Hne.
    rewrite forallb_forall in Hsame.
    exact (proj1 (unchanged_spec old (k, ov)) (Hsame (k, ov) Hk)).
  - split.
    + intro Hall. exfalso.
      assert (Ht : forallb (unchanged old) changes = true).
      { apply forallb_forall. intros [k ov] Hk. apply unchanged_spec.
        exact (Hall k ov Hk). }
      rewrite Ht in Hdiff. discriminate.
    + intros _. exists (updated_row env (columns c) changes old).
      split; [|split; [|split; [|split; [|split; [|split]]]]].
      * apply in_or_app. right. now left.
      * rewrite updated_row_get by exact Hd. unfold onupdate_is in Hlu.
        destruct (lookup "lastupdated" (columns c)) as [col|]; [|discriminate].
        rewrite Hl. destruct (arg_onupdate (col_args col)) as [d|]; [|discriminate].
        apply default_eqb_eq in Hlu. now subst d.
      * intros k Hk. rewrite updated_row_get by exact Hd.
        destruct (lookup k (columns c)); [now rewrite Hk|reflexivity].
      * intros k v col Hk Hcol _. rewrite updated_row_get by exact Hd.
        now rewrite Hcol, Hk.
      * intro Hk. rewrite (updated_row_plain env c changes old "id" Hd Hid Hk).
        apply find_some in Ef. now apply has_id_get.
      * intro Hk. exact (updated_row_plain env c changes old "owner" Hd Hown Hk).
      * intro Hk. exact (updated_row_plain env c changes old "created" Hd Hcr Hk).
Qed.

Lemma update_stamps_lastupdated_witness :
  exists old row,
    find (has_id "p1") (table_rows topology "processor") = Some old /\
    In ("processor", row)
       (the_db (update (env_at 50) topology ProcessorModel "p1"
                  [("branch", Some (VStr "dev")); ("gittag", None)])) /\
    get row "lastupdated" = Some (VTime 50) /\
    get row "branch" = Some (VStr "dev") /\
    get row "created" = Some (VTime 2) /\
    update (env_at 50) topology ProcessorModel "p1" [("name", Some (VStr "proc"))]
      = Ok topology.
Proof.
  destruct (update_stamps_lastupdated ProcessorModel (env_at 50) topology
              (the_db (update (env_at 50) topology ProcessorModel "p1"
                         [("branch", Some (VStr "dev")); ("gittag", None)]))
              "p1" [("branch", Some (VStr "dev")); ("gittag", None)])
    as [old [Ef [_ Hch]]].
  - unfold models. cbn [In]. tauto.
  - reflexivity.
  - repeat constructor; cbn; intuition discriminate.
  - reflexivity.
  - vm_compute. reflexivity.
  - destruct Hch as [row [Hin [Hl [_ [Hw [_ [_ Hc]]]]]]].
    + exists "branch", (Some (VStr "dev")). split; [now left|]. split.
      * vm_compute in Ef. injection Ef as <-. vm_compute. discriminate.
      * intros v col [= <-] Hcol. vm_compute in Hcol. injection Hcol as <-. reflexivity.
    + exists old, row. split; [exact Ef|]. split; [exact Hin|]. split; [exact Hl|].
      split.
      * apply (Hw "branch" (VStr "dev")
                 (mkColumn (String_ (Some 30)) [default (const (VStr "main"))]));
          vm_compute; reflexivity.
      * split; [|vm_compute; reflexivity].
        rewrite (Hc eq_refl). vm_compute in Ef. injection Ef as <-. reflexivity.
Defined.

(** ** Invariants of the store *)

Lemma class_of_own_table (c : Class) :
  In c models -> class_of_table (cls_tablename c) = Some c.
Proof.
  intro Hin. unfold models in Hin. cbn [In] in Hin.
  repeat (destruct Hin as [<-|Hin]; [vm_compute; reflexivity|]).
  contradiction.
Qed.

Lemma class_of_table_sound (t : string) (c : Class) :
  class_of_table t = Some c -> In c models /\ cls_tablename c = t.
Proof.
  unfold class_of_table. intro H. apply find_some in H. destruct H as [Hin E].
  split; [exact Hin|now apply String.eqb_eq].
Qed.

Lemma models_id_plain (c : Class) :
  In c models -> plain_column "id" (columns c) = true.
Proof.
  intro Hin. unfold models in Hin. cbn [In] in Hin.
  repeat (destruct Hin as [<-|Hin]; [vm_compute; reflexivity|]).
  contradiction.
Qed.

(** Every class keeps its [id] apart: the column is unique, or it is the
    whole primary key. *)
Lemma models_id_is_key (c : Class) :
  In c models ->
  (exists col, lookup "id" (columns c) = Some col /\ is_unique col = true) \/
  primary_key_of (columns c) = ["id"].
Proof.
  intro Hin. unfold models in Hin. cbn [In] in Hin.
  repeat (destruct Hin as [<-|Hin];
          [first [ left; eexists; split; vm_compute; reflexivity
                 | right; vm_compute; reflexivity ] | ]).
  contradiction.
Qed.

Lemma keys_app (db db' : DB) : keys (db ++ db')%list = (keys db ++ keys db')%list.
Proof. unfold keys. apply flat_map_app. Qed.

Lemma keys_In (db : DB) (t : string) (v : value) :
  In (t, v) (keys db) <-> exists r, In (t, r) db /\ get r "id" = Some v.
Proof.
  unfold keys. rewrite in_flat_map. split.
  - intros [[t' r] [Hin H]]. cbn [fst snd] in H.
    destruct (get r "id") as [w|] eqn:E; [|destruct H].
    destruct H as [[= <- <-]|[]]. now exists r.
  - intros [r [Hin E]]. exists (t, r). split; [exact Hin|].
    cbn [fst snd]. rewrite E. now left.
Qed.

Lemma insert_fresh_id (env : Env) (db : DB) (c : Class) (row r : Row) (v : value) :
  In c models ->
  check_row db (columns c) (table_rows db (cls_tablename c)) row = None ->
  get row "id" = Some v ->
  In (cls_tablename c, r) db -> get r "id" = Some v -> False.
Proof.
  intros Hin Hchk Hv Hr Hrv. apply table_rows_In in Hr.
  unfold check_row in Hchk.
  destruct (check_not_null _ _); [discriminate|].
  destruct (check_types _ _); [discriminate|].
  destruct (check_unique _ _ _) eqn:Eu; [discriminate|].
  destruct (negb (check_primary_key _ _ _)) eqn:Ep; [discriminate|].
  destruct (models_id_is_key c Hin) as [[col [Hc Hu]]|Hpk].
  - destruct (check_unique_clash (columns c) (table_rows db (cls_tablename c))
                row r "id" col v (lookup_In _ _ _ Hc) Hu Hr Hrv Hv) as [k' Hk'].
    rewrite Hk' in Eu. discriminate.
  - unfold check_primary_key in Ep. rewrite Hpk in Ep.
    apply negb_false_iff, negb_true_iff in Ep.
    assert (Ht : existsb (same_key ["id"] row) (table_rows db (cls_tablename c)) = true).
    { apply existsb_exists. exists r. split; [exact Hr|].
      unfold same_key. cbn [forallb]. rewrite Hv, Hrv. simpl.
      now rewrite value_eqb_refl. }
    rewrite Ht in Ep. discriminate.
Qed.

Lemma keys_filter_NoDup (p : string * Row -> bool) (db : DB) :
  NoDup (keys db) -> NoDup (keys (filter p db)).
Proof.
  induction db as [|e l IH]; intro H; [exact H|].
  assert (Hsub : forall x, In x (keys (filter p l)) -> In x (keys l)).
  { intros [t v] Hx. apply keys_In in Hx. destruct Hx as [r [Hr Hv]].
    apply filter_In in Hr. apply keys_In. exists r. split; [apply Hr|exact Hv]. }
  change (keys (e :: l)) with
    ((match get (snd e) "id" with Some v => [(fst e, v)] | None => [] end)
       ++ keys l)%list in H.
  cbn [filter]. destruct (p e).
  - change (keys (e :: filter p l)) with
      ((match get (snd e) "id" with Some v => [(fst e, v)] | None => [] end)
         ++ keys (filter p l))%list.
    destruct (get (snd e) "id") as [v|]; cbn [app] in *.
    + apply NoDup_cons_iff in H. destruct H as [Hn Hl]. constructor.
      * intro Hx. apply Hn. now apply Hsub.
      * now apply IH.
    + now apply IH.
  - apply IH. destruct (get (snd e) "id"); cbn [app] in H; [|exact H].
    now apply NoDup_cons_iff in H.
Qed.

Lemma foreign_cols_spare_id : mem_string "id" all_foreign_cols = false.
Proof. by_computation. Qed.

(** A detachment names a column that some relationship declares
    foreign, on the table of a mapped class. *)
Lemma detachments_shape (db : DB) (s : list obj) (t i k : string) :
  In (t, i, k) (detachments db s) -> In k all_foreign_cols.
Proof.
  unfold detachments. intro H. apply in_flat_map in H. destruct H as [o [_ H]].
  destruct (find_class (fst o)) as [c|] eqn:Ec; [|destruct H].
  apply in_flat_map in H. destruct H as [row [_ H]].
  apply in_flat_map in H. destruct H as [[a r] [Hr H]]. cbn [snd] in H.
  destruct (participates r); [|destruct H].
  destruct (find_class (rel_target r)) as [tc|] eqn:Etc; [|destruct H].
  apply in_flat_map in H. destruct H as [j [_ H]].
  destruct (mem_obj (cls_name tc, j) s); [destruct H|].
  apply in_map_iff in H. destruct H as [k' [[= _ _ <-] Hk]].
  unfold all_foreign_cols. apply in_flat_map. exists c.
  split; [apply (find_class_sound _ _ Ec)|].
  apply in_flat_map. exists (a, r). split; [exact Hr|]. cbn [snd]. now rewrite Etc.
Qed.

Lemma detached_cols_shape (db : DB) (s : list obj) (t i k : string) :
  In k (detached_cols (detachments db s) t i) -> In k all_foreign_cols.
Proof.
  unfold detached_cols. intro H. apply in_flat_map in H.
  destruct H as [[[t' i'] k'] [Hd H]].
  destruct (String.eqb t t' && String.eqb i i'); [|destruct H].
  destruct H as [<-|[]]. exact (detachments_shape db s t' i' k' Hd).
Qed.

Lemma lookup_nulls_absent (k : string) (ks : list string) :
  ~ In k ks -> lookup k (map (fun k0 => (k0, @None value)) ks) = None.
Proof.
  induction ks as [|k0 ks IH]; intro H; [reflexivity|]. simpl.
  destruct (String.eqb_spec k k0) as [->|_]; [exfalso; apply H; now left|].
  apply IH. intro Hin. apply H. now right.
Qed.

(** Detaching a row leaves its [id] alone. *)
Lemma detach_get_id (env : Env) (db : DB) (s : list obj) (e : string * Row) :
  get (snd (detach env (detachments db s) e)) "id" = get (snd e) "id".
Proof.
  unfold detach. destruct (class_of_table (fst e)) as [c|] eqn:Ec; [|reflexivity].
  destruct (get (snd e) "id") as [[i| | | |]|] eqn:E; try (now rewrite E).
  destruct (detached_cols (detachments db s) (fst e) i) as [|k ks] eqn:Ek;
    [now rewrite E|].
  cbn [snd]. destruct (class_of_table_sound _ _ Ec) as [Hin _].
  rewrite (updated_row_plain env c _ (snd e) "id"
             (models_columns_distinct c Hin) (models_id_plain c Hin)); [exact E|].
  apply lookup_nulls_absent. intro Hid.
  assert (Hf : In "id" all_foreign_cols).
  { apply (detached_cols_shape db s (fst e) i). now rewrite Ek. }
  apply mem_string_In in Hf. rewrite foreign_cols_spare_id in Hf. discriminate.
Qed.

Lemma keys_detach (env : Env) (db : DB) (s : list obj) (l : DB) :
  keys (map (detach env (detachments db s)) l) = keys l.
Proof.
  induction l as [|e l IH]; [reflexivity|].
  cbn [map]. unfold keys in *. cbn [flat_map]. rewrite IH.
  now rewrite detach_get_id, detach_table.
Qed.

(** The store a successful delete returns. *)
Lemma delete_shape (env : Env) (db db' : DB) (c : Class) (i : string) :
  delete env db c i = Ok db' ->
  db' = filter (fun e => negb (db_cascaded (delete_gone db (delete_set db (cls_name c, i))) e))
               (delete_kept env db (delete_set db (cls_name c, i))) /\
  forall e, In e db' ->
    dangling (delete_gone db (delete_set db (cls_name c, i)) ++
              filter (db_cascaded (delete_gone db (delete_set db (cls_name c, i))))
                     (delete_kept env db (delete_set db (cls_name c, i))))%list e
    = false.
Proof.
  unfold delete, delete_gone, delete_kept.
  destruct (find blocked _) as [[[t ?] ?]|]; [discriminate|].
  destruct (find _ _) as [e1|] eqn:Ef; [discriminate|].
  intros [= <-]. split; [reflexivity|].
  intros e He. exact (find_none _ _ Ef e He).
Qed.

(** X5: the ids of a table stay distinct.  Creating a record of any
    mapped class in a store whose rows have distinct ids gives a store
    whose rows have distinct ids, and so does deleting a record. *)
Theorem ids_stay_unique :
  (forall c env db db' kw,
     In c models -> ids_unique db -> insert env db c kw = Ok db' -> ids_unique db') /\
  (forall c env db db' i,
     ids_unique db -> delete env db c i = Ok db' -> ids_unique db').
Proof.
  split.
  - intros c env db db' kw Hin Hu Hok. apply insert_ok in Hok.
    destruct Hok as [-> Hchk]. unfold ids_unique in *. rewrite keys_app.
    apply NoDup_app; [exact Hu| |].
    + unfold keys. cbn [flat_map fst snd].
      destruct (get (with_defaults env (columns c) kw) "id");
        repeat constructor; intros [].
    + intros [t v] Hold Hnew. apply keys_In in Hold. destruct Hold as [r [Hr Hv]].
      apply keys_In in Hnew. destruct Hnew as [r' [[[= <- <-]|[]] Hv']].
      exact (insert_fresh_id env db c _ r v Hin Hchk Hv' Hr Hv).
  - intros c env db db' i Hu Hok.
    destruct (delete_shape env db db' c i Hok) as [-> _].
    unfold ids_unique, delete_kept in *.
    apply keys_filter_NoDup. rewrite keys_detach.
    now apply keys_filter_NoDup, keys_filter_NoDup.
Qed.

Lemma ids_stay_unique_witness :
  ids_unique [] /\
  ids_unique (the_db (insert (env_at 1) [] UserModel alice)) /\
  ids_unique (the_db (delete (env_at 40) topology SocketModel "s1")).
Proof.
  assert (H0 : ids_unique []) by constructor.
  assert (H1 : ids_unique (the_db (insert (env_at 1) [] UserModel alice))).
  { apply (proj1 ids_stay_unique UserModel (env_at 1) [] _ alice).
    - unfold models. cbn [In]. tauto.
    - exact H0.
    - vm_compute. reflexivity. }
  split; [exact H0|]. split; [exact H1|].
  apply (proj2 ids_stay_unique SocketModel (env_at 40) topology _ "s1").
  - unfold ids_unique. vm_compute.
    repeat (constructor; [cbn [In]; intuition discriminate|]). constructor.
  - vm_compute. reflexivity.
Defined.

(** *** Referential integrity *)

Lemma fks_in_In (l : list (string * list ColArg)) (k : string) (tc : string * string)
  (od : option string) :
  In (k, tc, od) (fks_in l) <->
  exists args tg, In (k, args) l /\ arg_fk args = Some (tg, od) /\ fk_target tg = tc.
Proof.
  unfold fks_in. rewrite in_flat_map. split.
  - intros [[k' args] [Hin H]]. cbn [fst snd] in H.
    destruct (arg_fk args) as [[tg od']|] eqn:E; [|destruct H].
    destruct H as [[= <- <- <-]|[]]. now exists args, tg.
  - intros [args [tg [Hin [E <-]]]]. exists (k, args). split; [exact Hin|].
    cbn [fst snd]. rewrite E. now left.
Qed.

Lemma association_table_fks (td : TableDecl) :
  In td association_tables ->
  table_fks (tbl_name td) = fks_in (tbl_columns td).
Proof.
  intro Hin. unfold association_tables in Hin. cbn [In] in Hin.
  repeat (destruct Hin as [<-|Hin]; [vm_compute; reflexivity|]).
  contradiction.
Qed.

Lemma find_table_sound (st : string) (td : TableDecl) :
  find_table st = Some td -> In td association_tables /\ tbl_name td = st.
Proof.
  unfold find_table. intro H. apply find_some in H. destruct H as [Hin E].
  split; [exact Hin|now apply String.eqb_eq].
Qed.

Lemma association_not_mapped (td : TableDecl) :
  In td association_tables -> class_of_table (tbl_name td) = None.
Proof.
  intro Hin. unfold association_tables in Hin. cbn [In] in Hin.
  repeat (destruct Hin as [<-|Hin]; [vm_compute; reflexivity|]).
  contradiction.
Qed.

Lemma models_fks_steady (c : Class) :
  In c models -> steady_fks (cls_tablename c) = true.
Proof.
  intro Hin. unfold models in Hin. cbn [In] in Hin.
  repeat (destruct Hin as [<-|Hin]; [vm_compute; reflexivity|]).
  contradiction.
Qed.

Lemma associations_fks_steady (td : TableDecl) :
  In td association_tables -> steady_fks (tbl_name td) = true.
Proof.
  intro Hin. unfold association_tables in Hin. cbn [In] in Hin.
  repeat (destruct Hin as [<-|Hin]; [vm_compute; reflexivity|]).
  contradiction.
Qed.

(** Every foreign key of the module points at the [id] of a mapped
    table, from a column without [onupdate]. *)
Lemma fk_steady (t k t' c' : string) (od : option string) :
  In (k, (t', c'), od) (table_fks t) ->
  c' = "id" /\
  (exists tc, class_of_table t' = Some tc) /\
  (forall c, class_of_table t = Some c -> no_onupdate k (columns c) = true).
Proof.
  intro Hfk.
  assert (Hs : steady_fks t = true).
  { unfold table_fks in Hfk.
    destruct (class_of_table t) as [c|] eqn:Ec.
    - destruct (class_of_table_sound _ _ Ec) as [Hin <-]. now apply models_fks_steady.
    - destruct (find_table t) as [td|] eqn:Et; [|destruct Hfk].
      destruct (find_table_sound _ _ Et) as [Hin <-]. now apply associations_fks_steady. }
  unfold steady_fks in Hs. rewrite forallb_forall in Hs. specialize (Hs _ Hfk).
  unfold steady_fk in Hs. apply andb_true_iff in Hs. destruct Hs as [Hs H3].
  apply andb_true_iff in Hs. destruct Hs as [H1 H2].
  split; [now apply String.eqb_eq|]. split.
  - destruct (class_of_table t') as [tc|]; [now exists tc|discriminate].
  - intros c Hc. now rewrite Hc in H3.
Qed.

(** X6: creation keeps every reference valid.  In a store where each
    foreign key points at a stored row, creating a record of a mapped
    class, or adding a row to an association table, gives a store with
    the same property. *)
Theorem creation_keeps_references_valid :
  (forall c env db db' kw,
     In c models -> references_valid db -> insert env db c kw = Ok db' ->
     references_valid db') /\
  (forall td db db' row,
     In td association_tables -> references_valid db -> associate db td row = Ok db' ->
     references_valid db').
Proof.
  assert (Hold : forall (db : DB) (e : string * Row),
            references_valid db ->
            (forall k t' c' od v,
               In (k, (t', c'), od) (table_fks (fst e)) -> get (snd e) k = Some v ->
               exists r', In (t', r') db /\ get r' c' = Some v) ->
            references_valid (db ++ [e])%list).
  { intros db e Hv Hnew t r k t' c' od v Hin Hfk Hg.
    apply in_app_or in Hin. destruct Hin as [Hin|[->|[]]].
    - destruct (Hv t r k t' c' od v Hin Hfk Hg) as [r' [Hr' Hc']].
      exists r'. split; [apply in_or_app; now left|exact Hc'].
    - cbn [fst snd] in Hnew.
      destruct (Hnew k t' c' od v Hfk Hg) as [r' [Hr' Hc']].
      exists r'. split; [apply in_or_app; now left|exact Hc']. }
  assert (Hchk : forall (db : DB) cols row k t' c' od v,
            check_foreign_keys db
              (map (fun ka => (fst ka, mkColumn (String_ None) (snd ka))) cols) row = None ->
            In (k, (t', c'), od) (fks_in cols) -> get row k = Some v ->
            exists r', In (t', r') db /\ get r' c' = Some v).
  { intros db cols row k t' c' od v Hc Hfk Hg.
    apply fks_in_In in Hfk. destruct Hfk as [args [tg [Hin [Ea Et]]]].
    unfold check_foreign_keys in Hc.
    assert (Hin' : In (k, mkColumn (String_ None) args)
                      (map (fun ka => (fst ka, mkColumn (String_ None) (snd ka))) cols)).
    { apply in_map_iff. now exists (k, args). }
    pose proof (first_name_none _ _ Hc _ Hin') as H. cbn [fst snd] in H.
    unfold col_fk in H. cbn [col_args] in H. rewrite Ea, Et, Hg in H.
    apply negb_false_iff, existsb_exists in H. destruct H as [r' [Hr' He]].
    exists r'. split; [now apply table_rows_In|now apply sql_eqb_some]. }
  split.
  - intros c env db db' kw Hin Hv Hok. apply insert_ok in Hok.
    destruct Hok as [-> Hc]. apply Hold; [exact Hv|]. cbn [fst snd].
    intros k t' c' od v Hfk Hg.
    unfold table_fks in Hfk. rewrite (class_of_own_table c Hin) in Hfk.
    unfold check_row in Hc.
    destruct (check_not_null _ _); [discriminate|].
    destruct (check_types _ _); [discriminate|].
    destruct (check_unique _ _ _); [discriminate|].
    destruct (negb (check_primary_key _ _ _)); [discriminate|].
    destruct (check_foreign_keys db (columns c) _) eqn:Ef; [discriminate|].
    apply fks_in_In in Hfk. destruct Hfk as [args [tg [Hin' [Ea Et]]]].
    apply in_map_iff in Hin'. destruct Hin' as [[k' col] [[= <- <-] Hcol]].
    unfold check_foreign_keys in Ef.
    pose proof (first_name_none _ _ Ef _ Hcol) as H. cbn [fst snd] in H.
    unfold col_fk in H. rewrite Ea, Et, Hg in H.
    apply negb_false_iff, existsb_exists in H. destruct H as [r' [Hr' He]].
    exists r'. split; [now apply table_rows_In|now apply sql_eqb_some].
  - intros td db db' row Hin Hv Hok. unfold associate, check_row in Hok.
    destruct (check_not_null _ _); [discriminate|].
    destruct (check_types _ _); [discriminate|].
    destruct (check_unique _ _ _); [discriminate|].
    destruct (negb (check_primary_key _ _ _)); [discriminate|].
    destruct (check_foreign_keys db _ row) eqn:Ef; [discriminate|].
    injection Hok as <-. apply Hold; [exact Hv|]. cbn [fst snd].
    intros k t' c' od v Hfk Hg. rewrite (association_table_fks td Hin) in Hfk.
    exact (Hchk db (tbl_columns td) row k t' c' od v Ef Hfk Hg).
Qed.

Lemma creation_keeps_references_valid_witness :
  references_valid
    (the_db (db <- insert (env_at 1) [] UserModel alice ;;
             db <- insert (env_at 2) db PrivilegeModel (privilege_kw "pr1" "READ") ;;
             associate db user_privileges
               [("user_id", VStr "u1"); ("privilege_id", VStr "pr1")])).
Proof.
  assert (H0 : references_valid []) by (intros t r k t' c' od v []).
  assert (H1 : references_valid (the_db (insert (env_at 1) [] UserModel alice))).
  { apply (proj1 creation_keeps_references_valid UserModel (env_at 1) [] _ alice).
    - unfold models. cbn [In]. tauto.
    - exact H0.
    - vm_compute. reflexivity. }
  assert (H2 : references_valid
                 (the_db (insert (env_at 2) (the_db (insert (env_at 1) [] UserModel alice))
                            PrivilegeModel (privilege_kw "pr1" "READ")))).
  { apply (proj1 creation_keeps_references_valid PrivilegeModel (env_at 2)
             (the_db (insert (env_at 1) [] UserModel alice)) _
             (privilege_kw "pr1" "READ")).
    - unfold models. cbn [In]. tauto.
    - exact H1.
    - vm_compute. reflexivity. }
  apply (proj2 creation_keeps_references_valid user_privileges
           (the_db (insert (env_at 2) (the_db (insert (env_at 1) [] UserModel alice))
                      PrivilegeModel (privilege_kw "pr1" "READ"))) _
           [("user_id", VStr "u1"); ("privilege_id", VStr "pr1")]).
  - unfold association_tables. cbn [In]. tauto.
  - exact H2.
  - vm_compute. reflexivity.
Defined.

Lemma detach_fk_value (env : Env) (db : DB) (s : list obj) (e : string * Row)
  (k t' c' : string) (od : option string) (v : value) :
  In (k, (t', c'), od) (table_fks (fst e)) ->
  get (snd (detach env (detachments db s) e)) k = Some v -> get (snd e) k = Some v.
Proof.
  intro Hfk. destruct (fk_steady _ _ _ _ _ Hfk) as [_ [_ Hn]].
  unfold detach. destruct (class_of_table (fst e)) as [c|] eqn:Ec; [|auto].
  destruct (get (snd e) "id") as [[i| | | |]|]; auto.
  destruct (detached_cols (detachments db s) (fst e) i) as [|k0 ks]; [auto|].
  cbn [snd]. intro H.
  exact (updated_row_keeps env (columns c) _ (snd e) k v (Hn c eq_refl)
           (lookup_nulls k (k0 :: ks)) H).
Qed.

Lemma join_of_many (c tc : Class) (r : RelDecl) (st oc ok tcol tk : string) :
  join_of c r tc = ManyToMany st oc ok tcol tk -> exists td, find_table st = Some td.
Proof.
  unfold join_of. destruct (arg_primaryjoin (rel_args r)); [discriminate|].
  destruct (arg_secondary (rel_args r)) as [st'|].
  - destruct (find_table st') as [td|] eqn:E; [|discriminate].
    destruct (table_fk_to td (cls_tablename c)) as [[? ?]|]; [|discriminate].
    destruct (table_fk_to td (cls_tablename tc)) as [[? ?]|]; [|discriminate].
    intros [= <- _ _ _ _]. now exists td.
  - destruct (fk_column_to (columns c) (cls_tablename tc)) as [[? ?]|]; [discriminate|].
    destruct (fk_column_to (columns tc) (cls_tablename c)) as [[? ?]|]; discriminate.
Qed.

(** Only rows of association tables are unlinked. *)
Lemma unlinked_association (db : DB) (s : list obj) (e : string * Row) :
  unlinked (unlinks db s) e = true -> class_of_table (fst e) = None.
Proof.
  unfold unlinked. intro H. apply existsb_exists in H.
  destruct H as [[[st [oc v]] [tcol w]] [Hu H]].
  apply andb_true_iff in H. destruct H as [H _].
  apply andb_true_iff in H. destruct H as [Est _].
  apply String.eqb_eq in Est. rewrite Est. clear Est.
  unfold unlinks in Hu. apply in_flat_map in Hu. destruct Hu as [o [_ Hu]].
  destruct (find_class (fst o)) as [c|]; [|destruct Hu].
  apply in_flat_map in Hu. destruct Hu as [row [_ Hu]].
  apply in_flat_map in Hu. destruct Hu as [[a r] [_ Hu]]. cbn [snd] in Hu.
  destruct (participates r); [|destruct Hu].
  destruct (find_class (rel_target r)) as [tc|]; [|destruct Hu].
  destruct (join_of c r tc) eqn:Ej; try destruct Hu.
  destruct (get row owner_key); [|destruct Hu].
  apply in_flat_map in Hu. destruct Hu as [x [_ Hu]].
  destruct (get x target_key); [|destruct Hu].
  destruct Hu as [[= <- _ _ _ _]|[]].
  destruct (join_of_many _ _ _ _ _ _ _ _ Ej) as [td Htd].
  destruct (find_table_sound _ _ Htd) as [Hin <-].
  now apply association_not_mapped.
Qed.

(** X7: deletion keeps every reference valid.  In a store where each
    foreign key points at a stored row, a delete that goes through
    leaves a store with the same property: the rows that pointed at a
    removed record were removed with it, were detached, or made the
    delete fail. *)
Theorem delete_keeps_references_valid (c : Class) (env : Env) (db db' : DB) (i : string) :
  references_valid db -> delete env db c i = Ok db' -> references_valid db'.
Proof.
  intros Hv Hok. destruct (delete_shape env db db' c i Hok) as [Edb Hdang].
  set (s := delete_set db (cls_name c, i)) in *.
  intros t r k t' c' od v Hin Hfk Hg.
  pose proof (Hdang (t, r) Hin) as Hnd.
  assert (Hkept : In (t, r) (delete_kept env db s)).
  { rewrite Edb in Hin. now apply filter_In in Hin. }
  unfold delete_kept in Hkept. apply in_map_iff in Hkept.
  destruct Hkept as [[t0 r0] [Ed He0]].
  assert (Et : t0 = t).
  { pose proof (detach_table env (detachments db s) (t0, r0)) as H.
    rewrite Ed in H. now symmetry. }
  subst t0.
  apply filter_In in He0. destruct He0 as [He0 _].
  apply filter_In in He0. destruct He0 as [He0 _].
  assert (Hg0 : get r0 k = Some v).
  { apply (detach_fk_value env db s (t, r0) k t' c' od v Hfk).
    now rewrite Ed. }
  destruct (Hv t r0 k t' c' od v He0 Hfk Hg0) as [r1 [Hr1 Hc1]].
  destruct (fk_steady _ _ _ _ _ Hfk) as [-> [[tc Htc] _]].
  assert (Hpoint : forall g gone, In g gone -> fst g = t' ->
            get (snd g) "id" = Some v -> dangling gone (t, r) = true).
  { intros g gone Hgin Hgt Hgid. unfold dangling. apply existsb_exists.
    exists (k, (t', "id"), od). split; [exact Hfk|].
    unfold points_into. apply existsb_exists. exists g. split; [exact Hgin|].
    cbn [fst snd]. rewrite Hgt, String.eqb_refl, Hgid, Hg. simpl.
    apply value_eqb_refl. }
  destruct (marked s (t', r1)) eqn:Em.
  { exfalso. rewrite (Hpoint (t', r1) _) in Hnd; [discriminate| |reflexivity|exact Hc1].
    apply in_or_app. left. unfold delete_gone. apply filter_In. now split. }
  assert (Hul : unlinked (unlinks db s) (t', r1) = false).
  { destruct (unlinked (unlinks db s) (t', r1)) eqn:Eu; [|reflexivity].
    apply unlinked_association in Eu. cbn [fst] in Eu. rewrite Htc in Eu. discriminate. }
  set (g1 := detach env (detachments db s) (t', r1)).
  assert (Hg1 : In g1 (delete_kept env db s)).
  { unfold delete_kept. apply in_map. apply filter_In. split.
    - apply filter_In. split; [exact Hr1|now rewrite Em].
    - now rewrite Hul. }
  assert (Hg1t : fst g1 = t') by apply detach_table.
  assert (Hg1id : get (snd g1) "id" = Some v).
  { unfold g1. rewrite detach_get_id. exact Hc1. }
  destruct (db_cascaded (delete_gone db s) g1) eqn:Ec.
  { exfalso. rewrite (Hpoint g1 _) in Hnd; [discriminate| |exact Hg1t|exact Hg1id].
    apply in_or_app. right. apply filter_In. now split. }
  exists (snd g1). split; [|exact Hg1id].
  rewrite Edb, <- Hg1t, <- surjective_pairing. apply filter_In.
  split; [exact Hg1|now rewrite Ec].
Qed.

Lemma references_ok_sound (db : DB) : references_ok db = true -> references_valid db.
Proof.
  unfold references_ok. rewrite forallb_forall. intros H t r k t' c' od v Hin Hfk Hg.
  specialize (H (t, r) Hin). cbn [fst snd] in H. rewrite forallb_forall in H.
  specialize (H _ Hfk). cbn beta iota in H. rewrite Hg in H.
  apply existsb_exists in H. destruct H as [r' [Hr' He]].
  exists r'. split; [now apply table_rows_In|now apply sql_eqb_some].
Qed.

Lemma delete_keeps_references_valid_witness :
  references_valid (the_db (delete (env_at 40) topology SocketModel "s1")).
Proof.
  apply (delete_keeps_references_valid SocketModel (env_at 40) topology _ "s1").
  - apply references_ok_sound. vm_compute. reflexivity.
  - vm_compute. reflexivity.
Defined.

(** * Cascades *)

(** ** Steps of the cascade *)

Lemma flat_map_nil {A B : Type} (f : A -> list B) (l : list A) :
  (forall x, In x l -> f x = []) -> flat_map f l = [].
Proof.
  induction l as [|x l IH]; intro H; [reflexivity|]. cbn [flat_map].
  rewrite (H x (or_introl eq_refl)), IH; [reflexivity|].
  intros y Hy. apply H. now right.
Qed.

(** A class none of whose relationships cascade deletes is deleted
    alone. *)
Lemma delete_set_alone (db : DB) (c : Class) (i : string) :
  find_class (cls_name c) = Some c ->
  forallb (fun nr => negb (cascades_delete (snd nr) && participates (snd nr)))
          (all_relationships c) = true ->
  delete_set db (cls_name c, i) = [(cls_name c, i)].
Proof.
  intros Hc Hall. rewrite forallb_forall in Hall.
  assert (Ht : delete_targets db (cls_name c, i) = []).
  { unfold delete_targets. cbn [fst snd]. rewrite Hc.
    apply flat_map_nil. intros row _. apply flat_map_nil. intros nr Hnr.
    specialize (Hall nr Hnr). apply negb_true_iff in Hall. now rewrite Hall. }
  unfold delete_set. cbn [cascade_visit mem_obj existsb]. now rewrite Ht.
Qed.

Lemma delete_unblocked (env : Env) (db db' : DB) (c : Class) (i : string) :
  delete env db c i = Ok db' ->
  forall d, In d (detachments db (delete_set db (cls_name c, i))) -> blocked d = false.
Proof.
  unfold delete. destruct (find blocked _) as [[[t ?] ?]|] eqn:E; [discriminate|].
  intros _ d Hd. exact (find_none _ _ E d Hd).
Qed.

(** A marked record of any mapped class leaves no row behind. *)
Lemma marked_rows_removed (env : Env) (db db' : DB) (c tc : Class) (i j : string) :
  delete env db c i = Ok db' ->
  In tc models ->
  In (cls_name tc, j) (delete_set db (cls_name c, i)) ->
  forall y, In (cls_tablename tc, y) db' -> get y "id" <> Some (VStr j).
Proof.
  intros Hok Htc Hin y Hy Hid.
  destruct (delete_shape env db db' c i Hok) as [Edb _].
  rewrite Edb in Hy. apply filter_In in Hy. destruct Hy as [Hy _].
  unfold delete_kept in Hy. apply in_map_iff in Hy. destruct Hy as [e0 [Ed He0]].
  apply filter_In in He0. destruct He0 as [He0 _].
  apply filter_In in He0. destruct He0 as [_ Hm].
  pose proof (detach_table env (detachments db (delete_set db (cls_name c, i))) e0) as Ht.
  pose proof (detach_get_id env db (delete_set db (cls_name c, i)) e0) as Hi.
  rewrite Ed in Ht, Hi. cbn [fst snd] in Ht, Hi. rewrite Hid in Hi.
  destruct e0 as [t0 x0]. cbn [fst snd] in Ht, Hi. subst t0.
  rewrite (marked_intro _ (cls_tablename tc) x0 tc j (class_of_own_table tc Htc)
             (eq_sym Hi) Hin) in Hm.
  discriminate.
Qed.

Lemma find_own_class (c : Class) : In c models -> find_class (cls_name c) = Some c.
Proof.
  intro Hin. unfold models in Hin. cbn [In] in Hin.
  repeat (destruct Hin as [<-|Hin]; [vm_compute; reflexivity|]).
  contradiction.
Qed.

Lemma in_models (c : Class) : find_class (cls_name c) = Some c -> In c models.
Proof. intro H. exact (proj1 (find_class_sound _ _ H)). Qed.

(** After a delete no row points at a marked record. *)
Lemma no_reference_to_marked (env : Env) (db db' : DB) (c tc : Class)
  (i j t k : string) (od : option string) (g : Row) :
  delete env db c i = Ok db' ->
  In tc models ->
  In (cls_name tc, j) (delete_set db (cls_name c, i)) ->
  In (cls_tablename tc, g) db -> get g "id" = Some (VStr j) ->
  In (k, (cls_tablename tc, "id"), od) (table_fks t) ->
  forall y, In (t, y) db' -> get y k <> Some (VStr j).
Proof.
  intros Hok Htc Hin Hg Hid Hfk y Hy Hk.
  destruct (delete_shape env db db' c i Hok) as [_ Hd].
  specialize (Hd (t, y) Hy). unfold dangling in Hd. cbn [fst] in Hd.
  assert (Ht : existsb (points_into
                 (delete_gone db (delete_set db (cls_name c, i)) ++
                  filter (db_cascaded (delete_gone db (delete_set db (cls_name c, i))))
                    (delete_kept env db (delete_set db (cls_name c, i))))%list (t, y))
                 (table_fks t) = true).
  { apply existsb_exists. exists (k, (cls_tablename tc, "id"), od). split; [exact Hfk|].
    unfold points_into. apply existsb_exists. exists (cls_tablename tc, g). split.
    - apply in_or_app. left. unfold delete_gone. apply filter_In. split; [exact Hg|].
      exact (marked_intro _ _ g tc j (class_of_own_table tc Htc) Hid Hin).
    - cbn [fst snd]. rewrite String.eqb_refl, Hid, Hk. simpl. apply String.eqb_refl. }
  rewrite Ht in Hd. discriminate.
Qed.

Lemma fk_column_to_fks (cols : list (string * ColumnDecl)) (t k rc : string) :
  fk_column_to cols t = Some (k, rc) ->
  exists od, In (k, (t, rc), od)
               (fks_in (map (fun kc => (fst kc, col_args (snd kc))) cols)).
Proof.
  unfold fk_column_to.
  destruct (find _ cols) as [[k' col]|] eqn:E; [|discriminate].
  apply find_some in E. destruct E as [Hin Hp]. cbn [snd] in Hp.
  unfold col_fk in *. destruct (arg_fk (col_args col)) as [[tg od]|] eqn:Ea; [|discriminate].
  destruct (fk_target tg) as [t0 rc0] eqn:Et. apply String.eqb_eq in Hp. subst t0.
  intros [= <- <-]. exists od. apply fks_in_In. exists (col_args col), tg.
  split; [|now split]. apply in_map_iff. now exists (k', col).
Qed.

Lemma join_one_to_many_fk (c tc : Class) (r : RelDecl) (k lk : string) :
  In tc models -> join_of c r tc = OneToMany k lk ->
  exists od, In (k, (cls_tablename c, lk), od) (table_fks (cls_tablename tc)).
Proof.
  intros Htc. unfold join_of. destruct (arg_primaryjoin (rel_args r)); [discriminate|].
  destruct (arg_secondary (rel_args r)) as [st|].
  - destruct (find_table st); [|discriminate].
    destruct (table_fk_to _ (cls_tablename c)) as [[? ?]|]; [|discriminate].
    destruct (table_fk_to _ (cls_tablename tc)) as [[? ?]|]; discriminate.
  - destruct (fk_column_to (columns c) (cls_tablename tc)) as [[? ?]|]; [discriminate|].
    destruct (fk_column_to (columns tc) (cls_tablename c)) as [[k' lk']|] eqn:E;
      [|discriminate].
    intros [= <- <-]. unfold table_fks. rewrite (class_of_own_table tc Htc).
    exact (fk_column_to_fks _ _ _ _ E).
Qed.

Lemma detached_cols_In (ds : list (string * string * string)) (t i k : string) :
  In k (detached_cols ds t i) -> In (t, i, k) ds.
Proof.
  unfold detached_cols. intro H. apply in_flat_map in H.
  destruct H as [[[t' i'] k'] [Hd Hk]].
  destruct (String.eqb_spec t t') as [<-|_]; [|destruct Hk].
  destruct (String.eqb_spec i i') as [<-|_]; [|destruct Hk].
  destruct Hk as [->|[]]. exact Hd.
Qed.

Lemma detached_cols_intro (ds : list (string * string * string)) (t i k : string) :
  In (t, i, k) ds -> In k (detached_cols ds t i).
Proof.
  intro H. unfold detached_cols. apply in_flat_map. exists (t, i, k).
  split; [exact H|]. rewrite !String.eqb_refl. now left.
Qed.

Lemma no_db_cascade_spared (gone : DB) (e : string * Row) :
  no_db_cascade (fst e) = true -> db_cascaded gone e = false.
Proof.
  intro Hnc. unfold db_cascaded. unfold no_db_cascade in Hnc.
  rewrite forallb_forall in Hnc. apply not_true_is_false. intro H.
  apply existsb_exists in H. destruct H as [fk [Hfkin H]].
  specialize (Hnc fk Hfkin). destruct (snd fk); discriminate.
Qed.

Lemma detachments_elim (db : DB) (s : list obj) (t i k : string) :
  In (t, i, k) (detachments db s) ->
  exists o c0 row a r tc,
    In o s /\ find_class (fst o) = Some c0 /\
    In row (filter (has_id (snd o)) (table_rows db (cls_tablename c0))) /\
    In (a, r) (all_relationships c0) /\ participates r = true /\
    find_class (rel_target r) = Some tc /\ t = cls_tablename tc /\
    In i (row_ids (related db c0 r row)) /\
    mem_obj (cls_name tc, i) s = false /\
    In k (foreign_cols (join_of c0 r tc)).
Proof.
  unfold detachments. intro H. apply in_flat_map in H. destruct H as [o [Ho H]].
  destruct (find_class (fst o)) as [c0|] eqn:Ec; [|destruct H].
  apply in_flat_map in H. destruct H as [row [Hrow H]].
  apply in_flat_map in H. destruct H as [[a r] [Hr H]]. cbn [snd] in H.
  destruct (participates r) eqn:Ep; [|destruct H].
  destruct (find_class (rel_target r)) as [tc|] eqn:Etc; [|destruct H].
  apply in_flat_map in H. destruct H as [j [Hj H]].
  destruct (mem_obj (cls_name tc, j) s) eqn:Em; [destruct H|].
  apply in_map_iff in H. destruct H as [k' [[= <- <- <-] Hk]].
  exists o, c0, row, a, r, tc. repeat split; assumption.
Qed.

Lemma lookup_nulls_present (k : string) (ks : list string) :
  In k ks -> lookup k (map (fun k0 => (k0, @None value)) ks) = Some None.
Proof.
  induction ks as [|k0 ks IH]; intro H; [destruct H|]. simpl.
  destruct (String.eqb_spec k k0) as [->|Hne]; [reflexivity|].
  destruct H as [->|H]; [contradiction|now apply IH].
Qed.

(** A foreign key is a column of its table, and takes no [onupdate]. *)
Lemma fk_column (tx : Class) (k : string) (tg : string * string) (od : option string) :
  In tx models -> In (k, tg, od) (table_fks (cls_tablename tx)) ->
  exists col, lookup k (columns tx) = Some col /\ arg_onupdate (col_args col) = None.
Proof.
  intros Htx Hfk. destruct tg as [t' c'].
  destruct (fk_steady _ _ _ _ _ Hfk) as [_ [_ Hnu]].
  specialize (Hnu tx (class_of_own_table tx Htx)).
  unfold table_fks in Hfk. rewrite (class_of_own_table tx Htx) in Hfk.
  apply fks_in_In in Hfk. destruct Hfk as [args [tg [Hin _]]].
  apply in_map_iff in Hin. destruct Hin as [[k' col] [[= <- <-] Hcol]].
  exists col. split; [exact (lookup_of_In k' col _ (models_columns_distinct tx Htx) Hcol)|].
  unfold no_onupdate in Hnu. rewrite forallb_forall in Hnu.
  specialize (Hnu (k', col) Hcol). cbn [fst snd] in Hnu.
  rewrite String.eqb_refl in Hnu. cbn [negb orb] in Hnu.
  destruct (arg_onupdate (col_args col)); [discriminate|reflexivity].
Qed.

(** Detaching a row leaves alone the columns it does not clear, those
    with an [onupdate] apart. *)
Lemma detach_spares (env : Env) (ds : list (string * string * string)) (tx : Class)
  (x : Row) (j k : string) (col : ColumnDecl) :
  In tx models -> get x "id" = Some (VStr j) ->
  lookup k (columns tx) = Some col -> arg_onupdate (col_args col) = None ->
  ~ In k (detached_cols ds (cls_tablename tx) j) ->
  get (snd (detach env ds (cls_tablename tx, x))) k = get x k.
Proof.
  intros Htx Hid Hcol Hnu Hnot. unfold detach. cbn [fst snd].
  rewrite (class_of_own_table tx Htx), Hid.
  destruct (detached_cols ds (cls_tablename tx) j) as [|k0 ks]; [reflexivity|].
  cbn [snd]. rewrite updated_row_get by (now apply models_columns_distinct).
  now rewrite Hcol, (lookup_nulls_absent k (k0 :: ks) Hnot), Hnu.
Qed.

(** Detaching clears the columns it is told to. *)
Lemma detach_clears (env : Env) (ds : list (string * string * string)) (tx : Class)
  (x : Row) (j k : string) :
  In tx models -> get x "id" = Some (VStr j) ->
  In (cls_tablename tx, j, k) ds ->
  get (snd (detach env ds (cls_tablename tx, x))) k = None.
Proof.
  intros Htx Hid Hd. apply detached_cols_intro in Hd. unfold detach. cbn [fst snd].
  rewrite (class_of_own_table tx Htx), Hid.
  destruct (detached_cols ds (cls_tablename tx) j) as [|k0 ks]; [destruct Hd|].
  cbn [snd]. rewrite updated_row_get by (now apply models_columns_distinct).
  destruct (lookup k (columns tx)); [|reflexivity].
  now rewrite (lookup_nulls_present k (k0 :: ks) Hd).
Qed.

(** A row of a table without [ondelete] keys that the cascade does not
    mark is still stored after the delete, detached where a relationship
    let it go. *)
Lemma unmarked_row_stays (env : Env) (db db' : DB) (c tx : Class) (i : string)
  (x : Row) :
  delete env db c i = Ok db' ->
  In tx models -> no_db_cascade (cls_tablename tx) = true ->
  In (cls_tablename tx, x) db ->
  marked (delete_set db (cls_name c, i)) (cls_tablename tx, x) = false ->
  In (cls_tablename tx,
      snd (detach env (detachments db (delete_set db (cls_name c, i)))
             (cls_tablename tx, x))) db'.
Proof.
  intros Hok Htx Hnc Hx Hm.
  set (s := delete_set db (cls_name c, i)) in *.
  set (x' := detach env (detachments db s) (cls_tablename tx, x)).
  assert (Hu : unlinked (unlinks db s) (cls_tablename tx, x) = false).
  { destruct (unlinked (unlinks db s) (cls_tablename tx, x)) eqn:E; [|reflexivity].
    apply unlinked_association in E. cbn [fst] in E.
    rewrite (class_of_own_table tx Htx) in E. discriminate. }
  assert (Hk' : In x' (delete_kept env db s)).
  { unfold delete_kept. apply in_map. apply filter_In. split.
    - apply filter_In. split; [exact Hx|now rewrite Hm].
    - now rewrite Hu. }
  assert (Ht' : fst x' = cls_tablename tx) by apply detach_table.
  destruct (delete_shape env db db' c i Hok) as [Edb _]. fold s in Edb.
  rewrite Edb, <- Ht', <- surjective_pairing. apply filter_In.
  split; [exact Hk'|]. cbv beta.
  rewrite no_db_cascade_spared; [reflexivity|now rewrite Ht'].
Qed.

(** When a delete goes through, a row that points at a marked record
    from a table without [ondelete] keys was marked itself, or a
    relationship cleared the column that points. *)
Lemma child_marked_or_detached (env : Env) (db db' : DB) (c0 c tc : Class)
  (i0 i j k : string) (od : option string) (o x : Row) :
  delete env db c0 i0 = Ok db' ->
  In c models -> In tc models ->
  In (k, (cls_tablename c, "id"), od) (table_fks (cls_tablename tc)) ->
  no_db_cascade (cls_tablename tc) = true ->
  In (cls_name c, i) (delete_set db (cls_name c0, i0)) ->
  In (cls_tablename c, o) db -> get o "id" = Some (VStr i) ->
  In (cls_tablename tc, x) db -> get x k = Some (VStr i) -> get x "id" = Some (VStr j) ->
  In (cls_name tc, j) (delete_set db (cls_name c0, i0)) \/
  In (cls_tablename tc, j, k) (detachments db (delete_set db (cls_name c0, i0))).
Proof.
  intros Hok Hc Htc Hfk Hnc Hm Ho Hoid Hx Hxk Hxid.
  set (s := delete_set db (cls_name c0, i0)) in *.
  destruct (mem_obj (cls_name tc, j) s) eqn:Em; [left; now apply mem_obj_In|].
  destruct (in_dec string_dec k (detached_cols (detachments db s) (cls_tablename tc) j))
    as [Hd|Hnd]; [right; now apply detached_cols_In|].
  exfalso.
  assert (Hmk : marked s (cls_tablename tc, x) = false).
  { unfold marked. cbn [fst snd]. now rewrite (class_of_own_table tc Htc), Hxid. }
  pose proof (unmarked_row_stays env db db' c0 tc i0 x Hok Htc Hnc Hx Hmk) as Hin.
  destruct (fk_column tc k _ od Htc Hfk) as [col [Hcol Hnu]].
  apply (no_reference_to_marked env db db' c0 c i0 i (cls_tablename tc) k od o
           Hok Hc Hm Ho Hoid Hfk _ Hin).
  fold s. rewrite (detach_spares env _ tc x j k col Htc Hxid Hcol Hnu Hnd).
  exact Hxk.
Qed.

(** The cascade follows a one-to-many relationship with the [delete]
    option that holds a list from a marked parent to each child that holds
    its id. *)
Lemma cascade_one_to_many_list (db : DB) (root : obj) (c tc : Class) (a k : string)
  (r : RelDecl) (i j : string) (o x : Row) :
  lookup a (all_relationships c) = Some r ->
  cascades_delete r && participates r = true ->
  find_class (cls_name c) = Some c ->
  find_class (rel_target r) = Some tc ->
  join_of c r tc = OneToMany k "id" ->
  scalar r (OneToMany k "id") = false ->
  In (cls_name c, i) (delete_set db root) ->
  In (cls_tablename c, o) db -> get o "id" = Some (VStr i) ->
  In (cls_tablename tc, x) db -> get x k = Some (VStr i) -> get x "id" = Some (VStr j) ->
  In (rel_target r, j) (delete_set db root).
Proof.
  intros Hr Hcp Hc Htc Hj Hsc Hm Ho Hoid Hx Hxk Hxid.
  apply andb_true_iff in Hcp. destruct Hcp as [Hcd Hp].
  apply (delete_set_closed db root (cls_name c, i)); [exact Hm|].
  apply (delete_targets_intro db c i a j r o x); try assumption.
  - now apply lookup_In.
  - apply related_intro with (tc := tc); [exact Htc|now rewrite Hj|exact Hx|].
    rewrite Hj. cbn [joined]. rewrite Hxk, Hoid. apply value_eqb_refl.
Qed.

Lemma scalar_cascades : scalar_cascades_hold = true.
Proof. by_computation. Qed.

Lemma held_by_cascade_spec (db : DB) (s : list obj) (tc : Class) (j k : string) :
  In tc models -> held_by_cascade tc k = true ->
  (forall x t, In x s -> In t (delete_targets db x) -> In t s) ->
  ~ In (cls_tablename tc, j, k) (detachments db s).
Proof.
  intros Htc Hh Hcl Hd.
  destruct (detachments_elim db s _ _ _ Hd)
    as [o0 [c1 [row [a0 [r0 [tc0 [Ho0 [Hc1 [Hrow [Hr0 [Hp0 [Htc0 [Et [Hj0 [Hm0 Hk0]]]]]]]]]]]]]]].
  destruct (find_class_sound _ _ Htc0) as [Htc0m Hn0].
  destruct (find_class_sound _ _ Hc1) as [Hc1m _].
  unfold held_by_cascade in Hh. rewrite forallb_forall in Hh.
  specialize (Hh c1 Hc1m). rewrite forallb_forall in Hh.
  specialize (Hh (a0, r0) Hr0). cbn [snd] in Hh.
  rewrite Hp0, Htc0, <- Et, String.eqb_refl in Hh. cbn [negb orb] in Hh.
  assert (Hmem : mem_string k (foreign_cols (join_of c1 r0 tc0)) = true)
    by now apply mem_string_In.
  rewrite Hmem in Hh. cbn [negb orb] in Hh.
  assert (Hin : In (rel_target r0, j) (delete_targets db o0)).
  { unfold delete_targets. rewrite Hc1. apply in_flat_map. exists row.
    split; [exact Hrow|]. apply in_flat_map. exists (a0, r0). split; [exact Hr0|].
    cbn [snd]. rewrite Hh, Hp0. cbn [andb]. apply in_map_iff. now exists j. }
  specialize (Hcl o0 _ Ho0 Hin). rewrite <- Hn0 in Hcl.
  apply mem_obj_In in Hcl. rewrite Hcl in Hm0. discriminate.
Qed.

(** The cascade follows every one-to-many relationship with the
    [delete] option from a marked parent to each child that holds its id,
    when the delete goes through: a relationship that holds a list loads
    all the children, and a child that a relationship holding one record
    did not load still points at its parent and stops the delete. *)
Lemma cascade_one_to_many (env : Env) (db db' : DB) (c0 c tc : Class) (i0 a k : string)
  (r : RelDecl) (i j : string) (o x : Row) :
  delete env db c0 i0 = Ok db' ->
  In c models ->
  lookup a (all_relationships c) = Some r ->
  cascades_delete r && participates r = true ->
  find_class (rel_target r) = Some tc ->
  join_of c r tc = OneToMany k "id" ->
  In (cls_name c, i) (delete_set db (cls_name c0, i0)) ->
  In (cls_tablename c, o) db -> get o "id" = Some (VStr i) ->
  In (cls_tablename tc, x) db -> get x k = Some (VStr i) -> get x "id" = Some (VStr j) ->
  In (rel_target r, j) (delete_set db (cls_name c0, i0)).
Proof.
  intros Hok Hc Hr Hcp Htc Hj Hm Ho Hoid Hx Hxk Hxid.
  destruct (scalar r (OneToMany k "id")) eqn:Es.
  - destruct (find_class_sound _ _ Htc) as [Htcm Hn].
    pose proof scalar_cascades as Hall. unfold scalar_cascades_hold in Hall.
    rewrite forallb_forall in Hall. specialize (Hall c Hc).
    rewrite forallb_forall in Hall. specialize (Hall (a, r) (lookup_In _ _ _ Hr)).
    cbn [snd] in Hall. rewrite Htc, Hj, Hcp, Es in Hall. cbn [andb negb orb] in Hall.
    apply andb_true_iff in Hall. destruct Hall as [Hnc Hh].
    destruct (join_one_to_many_fk c tc r k "id" Htcm Hj) as [od Hfk].
    destruct (child_marked_or_detached env db db' c0 c tc i0 i j k od o x
                Hok Hc Htcm Hfk Hnc Hm Ho Hoid Hx Hxk Hxid) as [Hin|Hd].
    + now rewrite <- Hn.
    + exfalso. revert Hd. apply held_by_cascade_spec; [exact Htcm|exact Hh|].
      intros y t. apply delete_set_closed.
  - exact (cascade_one_to_many_list db (cls_name c0, i0) c tc a k r i j o x
             Hr Hcp (find_own_class c Hc) Htc Hj Es Hm Ho Hoid Hx Hxk Hxid).
Qed.

(** Likewise along a many-to-one relationship, from a marked record to
    the record its foreign key names. *)
Lemma cascade_many_to_one (db : DB) (root : obj) (c tc : Class) (a k : string)
  (r : RelDecl) (i j : string) (o x : Row) :
  lookup a (all_relationships c) = Some r ->
  cascades_delete r && participates r = true ->
  find_class (cls_name c) = Some c ->
  find_class (rel_target r) = Some tc ->
  join_of c r tc = ManyToOne k "id" ->
  In (cls_name c, i) (delete_set db root) ->
  In (cls_tablename c, o) db -> get o "id" = Some (VStr i) ->
  In (cls_tablename tc, x) db -> get o k = Some (VStr j) -> get x "id" = Some (VStr j) ->
  In (rel_target r, j) (delete_set db root).
Proof.
  intros Hr Hcp Hc Htc Hj Hm Ho Hoid Hx Hok Hxid.
  apply andb_true_iff in Hcp. destruct Hcp as [Hcd Hp].
  apply (delete_set_closed db root (cls_name c, i)); [exact Hm|].
  destruct (related_some db c tc r o x Htc Hx) as [y [Hy Hym]].
  { rewrite Hj. cbn [joined]. rewrite Hxid, Hok. apply value_eqb_refl. }
  apply matching_In in Hym. destruct Hym as [_ Hyj].
  rewrite Hj in Hyj. cbn [joined] in Hyj. rewrite Hok in Hyj.
  apply sql_eqb_some in Hyj.
  apply (delete_targets_intro db c i a j r o y); try assumption.
  now apply lookup_In.
Qed.

(** And along a many-to-many relationship that holds a list, through a
    row of the association table. *)
Lemma cascade_many_to_many (db : DB) (root : obj) (c tc : Class)
  (a st oc tcol : string) (r : RelDecl) (i j : string) (o x link : Row) :
  lookup a (all_relationships c) = Some r ->
  cascades_delete r && participates r = true ->
  find_class (cls_name c) = Some c ->
  find_class (rel_target r) = Some tc ->
  join_of c r tc = ManyToMany st oc "id" tcol "id" ->
  scalar r (ManyToMany st oc "id" tcol "id") = false ->
  In (cls_name c, i) (delete_set db root) ->
  In (cls_tablename c, o) db -> get o "id" = Some (VStr i) ->
  In (cls_tablename tc, x) db -> get x "id" = Some (VStr j) ->
  In (st, link) db -> get link oc = Some (VStr i) -> get link tcol = Some (VStr j) ->
  In (rel_target r, j) (delete_set db root).
Proof.
  intros Hr Hcp Hc Htc Hj Hsc Hm Ho Hoid Hx Hxid Hl Hlo Hlt.
  apply andb_true_iff in Hcp. destruct Hcp as [Hcd Hp].
  apply (delete_set_closed db root (cls_name c, i)); [exact Hm|].
  apply (delete_targets_intro db c i a j r o x); try assumption.
  - now apply lookup_In.
  - apply related_intro with (tc := tc); [exact Htc|now rewrite Hj|exact Hx|].
    rewrite Hj. cbn [joined]. apply existsb_exists. exists link.
    split; [now apply table_rows_In|].
    rewrite Hlo, Hoid, Hlt, Hxid. simpl. now rewrite !String.eqb_refl.
Qed.

(** The one-to-many relationships that carry the [delete] option. *)
Lemma parents_that_cascade :
  flat_map (fun c =>
    flat_map (fun nr =>
      match find_class (rel_target (snd nr)) with
      | Some tc =>
          match join_of c (snd nr) tc with
          | OneToMany k _ =>
              if cascades_delete (snd nr) && participates (snd nr)
              then [(cls_name c, fst nr, cls_tablename tc, k)] else []
          | _ => []
          end
      | None => []
      end) (all_relationships c)) models
  = [ ("FileModel", "versions", "versions", "file_id");
      ("AgentModel", "workers", "worker", "agent_id");
      ("ProcessorModel", "plugs", "plug", "processor_id");
      ("ProcessorModel", "deployments", "deployment", "processor_id");
      ("ProcessorModel", "sockets", "socket", "processor_id");
      ("NetworkModel", "schedulers", "scheduler", "network_id");
      ("NetworkModel", "queues", "queue", "network_id");
      ("NetworkModel", "nodes", "node", "network_id");
      ("NodeModel", "agent", "agent", "node_id");
      ("SocketModel", "call", "call", "socket_id") ].
Proof. by_computation. Qed.

(** X8: a parent takes its children along.  For every one-to-many
    relationship declared with the [delete] cascade (the workers of an
    agent, the agent of a node, the schedulers, queues and nodes of a
    network, the versions of a file, the calls of a socket, and the
    plugs, sockets and deployments of a processor), a delete of the
    parent that goes through marks every child that holds the parent's
    id, removes it, and leaves no row of the child table pointing at the
    parent. *)
Theorem delete_cascades_to_children (c tc : Class) (a k : string) (r : RelDecl)
  (env : Env) (db db' : DB) (i : string) (o : Row) :
  In c models ->
  lookup a (all_relationships c) = Some r ->
  cascades_delete r && participates r = true ->
  find_class (rel_target r) = Some tc ->
  join_of c r tc = OneToMany k "id" ->
  In (cls_tablename c, o) db -> get o "id" = Some (VStr i) ->
  delete env db c i = Ok db' ->
  (forall y, In (cls_tablename tc, y) db' -> get y k <> Some (VStr i)) /\
  (forall x j, In (cls_tablename tc, x) db -> get x k = Some (VStr i) ->
     get x "id" = Some (VStr j) ->
     In (cls_name tc, j) (delete_set db (cls_name c, i)) /\
     forall y, In (cls_tablename tc, y) db' -> get y "id" <> Some (VStr j)).
Proof.
  intros Hc Hr Hcp Htc Hj Ho Hoid Hok.
  destruct (find_class_sound _ _ Htc) as [Htcm Hn].
  split.
  - destruct (join_one_to_many_fk c tc r k "id" Htcm Hj) as [od Hfk].
    exact (no_reference_to_marked env db db' c c i i (cls_tablename tc) k od o
             Hok Hc (delete_set_root db _) Ho Hoid Hfk).
  - intros x j Hx Hxk Hxid.
    assert (Hin : In (cls_name tc, j) (delete_set db (cls_name c, i))).
    { rewrite Hn.
      exact (cascade_one_to_many env db db' c c tc i a k r i j o x
               Hok Hc Hr Hcp Htc Hj (delete_set_root db _)
               Ho Hoid Hx Hxk Hxid). }
    split; [exact Hin|].
    exact (marked_rows_removed env db db' c tc i j Hok Htcm Hin).
Qed.

Lemma delete_cascades_to_children_witness :
  (forall y, In ("worker", y) (the_db (delete (env_at 40) cluster AgentModel "ag1")) ->
             get y "agent_id" <> Some (VStr "ag1")) /\
  (forall x j, In ("worker", x) cluster -> get x "agent_id" = Some (VStr "ag1") ->
     get x "id" = Some (VStr j) ->
     In ("WorkerModel", j) (delete_set cluster ("AgentModel", "ag1")) /\
     forall y, In ("worker", y) (the_db (delete (env_at 40) cluster AgentModel "ag1")) ->
               get y "id" <> Some (VStr j)).
Proof.
  apply (delete_cascades_to_children AgentModel WorkerModel "workers" "agent_id"
           (mkRel "WorkerModel"
              [backref "agent"; lazy_ "True"; cascade "all, delete-orphan"])
           (env_at 40) cluster _ "ag1"
           (with_defaults (env_at 24) (columns AgentModel)
              [("id", VStr "ag1"); ("name", VStr "agent"); ("node_id", VStr "nd1")])).
  - unfold models. cbn [In]. tauto.
  - vm_compute. reflexivity.
  - vm_compute. reflexivity.
  - vm_compute. reflexivity.
  - vm_compute. reflexivity.
  - vm_compute. tauto.
  - reflexivity.
  - vm_compute. reflexivity.
Defined.

(** The many-to-one relationships that carry the [delete] option. *)
Lemma children_that_cascade :
  flat_map (fun c =>
    flat_map (fun nr =>
      match find_class (rel_target (snd nr)) with
      | Some tc =>
          match join_of c (snd nr) tc with
          | ManyToOne k _ =>
              if cascades_delete (snd nr) && participates (snd nr)
              then [(cls_name c, fst nr, cls_tablename tc, k)] else []
          | _ => []
          end
      | None => []
      end) (all_relationships c)) models
  = [ ("FlowModel", "file", "file", "file_id");
      ("VersionModel", "file", "file", "file_id");
      ("EventModel", "call", "call", "call_id");
      ("SocketModel", "task", "task", "task_id") ].
Proof. by_computation. Qed.

(** X9: a child that owns its parent takes it along.  For every
    many-to-one relationship declared with the [delete] cascade (the file
    of a flow, the file of a version, the call of an event, the task of a
    socket), a delete of the record that goes through marks the record
    its foreign key names and removes it. *)
Theorem delete_cascades_to_parent (c tc : Class) (a k : string) (r : RelDecl)
  (env : Env) (db db' : DB) (i j : string) (o x : Row) :
  In c models ->
  lookup a (all_relationships c) = Some r ->
  cascades_delete r && participates r = true ->
  find_class (rel_target r) = Some tc ->
  join_of c r tc = ManyToOne k "id" ->
  In (cls_tablename c, o) db -> get o "id" = Some (VStr i) ->
  get o k = Some (VStr j) ->
  In (cls_tablename tc, x) db -> get x "id" = Some (VStr j) ->
  delete env db c i = Ok db' ->
  In (cls_name tc, j) (delete_set db (cls_name c, i)) /\
  forall y, In (cls_tablename tc, y) db' -> get y "id" <> Some (VStr j).
Proof.
  intros Hc Hr Hcp Htc Hj Ho Hoid Hok Hx Hxid Hdel.
  destruct (find_class_sound _ _ Htc) as [Htcm Hn].
  assert (Hin : In (cls_name tc, j) (delete_set db (cls_name c, i))).
  { rewrite Hn.
    exact (cascade_many_to_one db (cls_name c, i) c tc a k r i j o x
             Hr Hcp (find_own_class c Hc) Htc Hj (delete_set_root db _)
             Ho Hoid Hx Hok Hxid). }
  split; [exact Hin|].
  exact (marked_rows_removed env db db' c tc i j Hdel Htcm Hin).
Qed.

Lemma delete_cascades_to_parent_witness :
  In ("FileModel", "f1") (delete_set library ("FlowModel", "fl1")) /\
  forall y, In ("file", y) (the_db (delete (env_at 40) library FlowModel "fl1")) ->
            get y "id" <> Some (VStr "f1").
Proof.
  apply (delete_cascades_to_parent FlowModel FileModel "file" "file_id"
           (mkRel "FileModel"
              [lazy_ "True"; cascade "all, delete-orphan"; single_parent true])
           (env_at 40) library _ "fl1" "f1"
           (with_defaults (env_at 33) (columns FlowModel)
              [("id", VStr "fl1"); ("name", VStr "pipeline"); ("file_id", VStr "f1")])
           (with_defaults (env_at 30) (columns FileModel)
              [("id", VStr "f1"); ("name", VStr "flow.json"); ("user_id", VStr "u1")])).
  - unfold models. cbn [In]. tauto.
  - vm_compute. reflexivity.
  - vm_compute. reflexivity.
  - vm_compute. reflexivity.
  - vm_compute. reflexivity.
  - vm_compute. tauto.
  - reflexivity.
  - reflexivity.
  - vm_compute. tauto.
  - reflexivity.
  - vm_compute. reflexivity.
Defined.

(** *** Where the cascade stays *)

Lemma delete_targets_classes (db : DB) (names : list string) (o t : obj) :
  cascade_closed names = true -> In (fst o) names ->
  In t (delete_targets db o) -> In (fst t) names.
Proof.
  unfold cascade_closed. rewrite forallb_forall. intros Hcl Ho Ht.
  specialize (Hcl _ Ho). unfold delete_targets in Ht.
  destruct (find_class (fst o)) as [c|]; [|destruct Ht].
  rewrite forallb_forall in Hcl.
  apply in_flat_map in Ht. destruct Ht as [row [_ Ht]].
  apply in_flat_map in Ht. destruct Ht as [nr [Hnr Ht]].
  specialize (Hcl nr Hnr).
  destruct (cascades_delete (snd nr) && participates (snd nr)); [|destruct Ht].
  apply in_map_iff in Ht. destruct Ht as [j [<- _]]. cbn [fst].
  simpl in Hcl. now apply mem_string_In.
Qed.

Lemma cascade_visit_classes (db : DB) (names : list string) (fuel : nat) :
  cascade_closed names = true ->
  forall seen o,
    (forall x, In x seen -> In (fst x) names) -> In (fst o) names ->
    forall x, In x (cascade_visit fuel db seen o) -> In (fst x) names.
Proof.
  intro Hcl. induction fuel as [|f IH]; intros seen o Hs Ho x Hx.
  - cbn [cascade_visit] in Hx. destruct (mem_obj o seen); [now apply Hs|].
    destruct Hx as [<-|Hx]; [exact Ho|now apply Hs].
  - cbn [cascade_visit] in Hx. destruct (mem_obj o seen); [now apply Hs|].
    assert (Hfold : forall l acc,
              (forall t, In t l -> In (fst t) names) ->
              (forall y, In y acc -> In (fst y) names) ->
              forall y, In y (fold_left (cascade_visit f db) l acc) -> In (fst y) names).
    { induction l as [|t l IHl]; intros acc Hl Hacc y Hy; [now apply Hacc|].
      cbn [fold_left] in Hy. apply (IHl (cascade_visit f db acc t)).
      - intros t' Ht'. apply Hl. now right.
      - intros z Hz. apply (IH acc t Hacc (Hl t (or_introl eq_refl)) z Hz).
      - exact Hy. }
    apply (Hfold (delete_targets db o) (o :: seen)).
    + intros t Ht. exact (delete_targets_classes db names o t Hcl Ho Ht).
    + intros y [<-|Hy]; [exact Ho|now apply Hs].
    + exact Hx.
Qed.

(** The cascade from a record marks only records of the classes its
    relationships lead to. *)
Lemma delete_set_classes (db : DB) (names : list string) (o x : obj) :
  cascade_closed names = true -> In (fst o) names ->
  In x (delete_set db o) -> In (fst x) names.
Proof.
  intros Hcl Ho Hx. unfold delete_set in Hx.
  exact (cascade_visit_classes db names (S (length db)) Hcl [] o
           (fun y H => match H with end) Ho x Hx).
Qed.

(** *** References that stop a delete *)

Lemma mem_pair_In (p : string * string) (l : list (string * string)) :
  mem_pair p l = true <-> In p l.
Proof.
  unfold mem_pair. rewrite existsb_exists. split.
  - intros [q [Hq E]]. apply andb_true_iff in E. destruct E as [E1 E2].
    apply String.eqb_eq in E1, E2. destruct p, q. cbn [fst snd] in *. now subst.
  - intro H. exists p. split; [exact H|]. now rewrite !String.eqb_refl.
Qed.

Lemma detachments_detachable (db : DB) (s : list obj) (t i k : string) :
  In (t, i, k) (detachments db s) -> In (t, k) detachable.
Proof.
  unfold detachments. intro H. apply in_flat_map in H. destruct H as [o [_ H]].
  destruct (find_class (fst o)) as [c|] eqn:Ec; [|destruct H].
  apply in_flat_map in H. destruct H as [row [_ H]].
  apply in_flat_map in H. destruct H as [[a r] [Hr H]]. cbn [snd] in H.
  destruct (participates r) eqn:Ep; [|destruct H].
  destruct (find_class (rel_target r)) as [tc|] eqn:Etc; [|destruct H].
  apply in_flat_map in H. destruct H as [j [_ H]].
  destruct (mem_obj (cls_name tc, j) s); [destruct H|].
  apply in_map_iff in H. destruct H as [k' [[= <- _ <-] Hk]].
  unfold detachable. apply in_flat_map. exists c.
  split; [apply (find_class_sound _ _ Ec)|].
  apply in_flat_map. exists (a, r). split; [exact Hr|]. cbn [snd].
  rewrite Ep, Etc. apply in_map_iff. now exists k'.
Qed.

(** A column that is required, or that no relationship detaches, keeps
    its value in a row that survives a delete. *)
Lemma detach_keeps_column (env : Env) (db db' : DB) (c tx : Class) (i k : string)
  (col : ColumnDecl) (x : Row) :
  delete env db c i = Ok db' ->
  In tx models -> lookup k (columns tx) = Some col ->
  arg_onupdate (col_args col) = None ->
  (is_nullable col = false \/ mem_pair (cls_tablename tx, k) detachable = false) ->
  get (snd (detach env (detachments db (delete_set db (cls_name c, i)))
              (cls_tablename tx, x))) k = get x k.
Proof.
  intros Hok Htx Hcol Hnu Hreq. unfold detach. cbn [fst snd].
  rewrite (class_of_own_table tx Htx).
  destruct (get x "id") as [[j| | | |]|]; try reflexivity.
  destruct (detached_cols _ (cls_tablename tx) j) as [|k0 ks] eqn:Ek; [reflexivity|].
  cbn [snd].
  assert (Hnot : ~ In k (k0 :: ks)).
  { intro Hk. rewrite <- Ek in Hk. unfold detached_cols in Hk.
    apply in_flat_map in Hk. destruct Hk as [[[t' i'] k'] [Hd Hk]].
    destruct (String.eqb_spec (cls_tablename tx) t') as [<-|_]; [|destruct Hk].
    destruct (String.eqb_spec j i') as [<-|_]; [|destruct Hk].
    destruct Hk as [->|[]].
    destruct Hreq as [Hnn|Hnd].
    - pose proof (delete_unblocked env db db' c i Hok _ Hd) as Hb.
      unfold blocked in Hb. rewrite (class_of_own_table tx Htx), Hcol, Hnn in Hb.
      discriminate.
    - apply detachments_detachable, mem_pair_In in Hd. rewrite Hd in Hnd. discriminate. }
  rewrite updated_row_get by (now apply models_columns_distinct).
  now rewrite Hcol, (lookup_nulls_absent k (k0 :: ks) Hnot), Hnu.
Qed.

(** A row that references a marked record, is not marked itself and is
    not let go by a relationship or by the database makes the delete
    fail. *)
Lemma reference_blocks_delete (env : Env) (db : DB) (c tc tx : Class)
  (names : list string) (i j k : string) (col : ColumnDecl) (g x : Row) :
  In c models -> In tc models -> In tx models ->
  cascade_closed names = true -> In (cls_name c) names -> ~ In (cls_name tx) names ->
  In (cls_name tc, j) (delete_set db (cls_name c, i)) ->
  In (cls_tablename tc, g) db -> get g "id" = Some (VStr j) ->
  lookup k (columns tx) = Some col ->
  col_fk col = Some (cls_tablename tc, "id") ->
  arg_onupdate (col_args col) = None ->
  (is_nullable col = false \/ mem_pair (cls_tablename tx, k) detachable = false) ->
  no_db_cascade (cls_tablename tx) = true ->
  In (cls_tablename tx, x) db -> get x k = Some (VStr j) ->
  exists e, delete env db c i = Err e.
Proof.
  intros Hc Htc Htx Hcl Hcn Hxn Hin Hg Hgid Hcol Hfk Hnu Hreq Hnc Hx Hxk.
  destruct (delete env db c i) as [db'|e] eqn:Hok; [exfalso|now exists e].
  set (s := delete_set db (cls_name c, i)) in *.
  set (x' := detach env (detachments db s) (cls_tablename tx, x)).
  assert (Hm : marked s (cls_tablename tx, x) = false).
  { unfold marked. cbn [fst snd]. rewrite (class_of_own_table tx Htx).
    destruct (get x "id") as [[jx| | | |]|]; try reflexivity.
    destruct (mem_obj (cls_name tx, jx) s) eqn:E; [|reflexivity].
    apply mem_obj_In in E. exfalso. apply Hxn.
    exact (delete_set_classes db names (cls_name c, i) (cls_name tx, jx) Hcl Hcn E). }
  assert (Hu : unlinked (unlinks db s) (cls_tablename tx, x) = false).
  { destruct (unlinked (unlinks db s) (cls_tablename tx, x)) eqn:E; [|reflexivity].
    apply unlinked_association in E. cbn [fst] in E.
    rewrite (class_of_own_table tx Htx) in E. discriminate. }
  assert (Hk' : In x' (delete_kept env db s)).
  { unfold delete_kept. apply in_map. apply filter_In. split.
    - apply filter_In. split; [exact Hx|now rewrite Hm].
    - now rewrite Hu. }
  assert (Ht' : fst x' = cls_tablename tx) by apply detach_table.
  assert (Hnd : db_cascaded (delete_gone db s) x' = false).
  { unfold db_cascaded. rewrite Ht'. unfold no_db_cascade in Hnc.
    rewrite forallb_forall in Hnc. apply not_true_is_false. intro H.
    apply existsb_exists in H. destruct H as [fk [Hfkin H]].
    specialize (Hnc fk Hfkin). destruct (snd fk); discriminate. }
  destruct (delete_shape env db db' c i Hok) as [Edb _]. fold s in Edb.
  assert (Hin' : In (cls_tablename tx, snd x') db').
  { rewrite Edb, <- Ht', <- surjective_pairing. apply filter_In.
    split; [exact Hk'|cbv beta; now rewrite Hnd]. }
  assert (Hfk' : exists od, In (k, (cls_tablename tc, "id"), od)
                              (table_fks (cls_tablename tx))).
  { unfold table_fks. rewrite (class_of_own_table tx Htx).
    unfold col_fk in Hfk. destruct (arg_fk (col_args col)) as [[tg od]|] eqn:Ea;
      [|discriminate].
    exists od. apply fks_in_In. exists (col_args col), tg. split.
    - apply in_map_iff. exists (k, col). split; [reflexivity|now apply lookup_In].
    - split; [exact Ea|now injection Hfk]. }
  destruct Hfk' as [od Hfk'].
  apply (no_reference_to_marked env db db' c tc i j (cls_tablename tx) k od g
           Hok Htc Hin Hg Hgid Hfk' (snd x') Hin').
  unfold x', s.
  rewrite (detach_keeps_column env db db' c tx i k col x Hok Htx Hcol Hnu Hreq).
  exact Hxk.
Qed.

Lemma delete_errors (env : Env) (db : DB) (c : Class) (i : string) (e : error) :
  delete env db c i = Err e -> exists t, e = CascadeConflict t.
Proof.
  unfold delete. destruct (find blocked _) as [[[t ?] ?]|].
  - intros [= <-]. now exists t.
  - destruct (find _ _) as [e1|]; [|discriminate]. intros [= <-]. now exists (fst e1).
Qed.

Lemma blocking_reference_stops_delete (env : Env) (db : DB) (c tx : Class)
  (i k : string) (g x : Row) :
  In c models -> In tx models ->
  cascade_closed [cls_name c] = true -> cls_name tx <> cls_name c ->
  blocking_reference tx k c = true ->
  In (cls_tablename c, g) db -> get g "id" = Some (VStr i) ->
  In (cls_tablename tx, x) db -> get x k = Some (VStr i) ->
  exists t, delete env db c i = Err (CascadeConflict t).
Proof.
  intros Hc Htx Hcl Hne Hb Hg Hgid Hx Hxk.
  unfold blocking_reference in Hb.
  destruct (lookup k (columns tx)) as [col|] eqn:Hcol; [|discriminate].
  apply andb_true_iff in Hb. destruct Hb as [Hb Hnc].
  apply andb_true_iff in Hb. destruct Hb as [Hb Hreq].
  apply andb_true_iff in Hb. destruct Hb as [Hfk Hnu].
  destruct (col_fk col) as [[t rc]|] eqn:Efk; [|discriminate].
  apply andb_true_iff in Hfk. destruct Hfk as [Et Erc].
  apply String.eqb_eq in Et, Erc. subst t rc.
  destruct (arg_onupdate (col_args col)) eqn:Eou; [discriminate|].
  assert (Hreq' : is_nullable col = false \/
                  mem_pair (cls_tablename tx, k) detachable = false).
  { apply orb_true_iff in Hreq. destruct Hreq as [H|H]; [left|right];
      now apply negb_true_iff in H. }
  destruct (reference_blocks_delete env db c c tx [cls_name c] i i k col g x
              Hc Hc Htx Hcl (or_introl eq_refl)
              (fun H => match H with or_introl E => Hne (eq_sym E) | or_intror F => F end)
              (delete_set_root db _) Hg Hgid Hcol Efk Eou Hreq' Hnc Hx Hxk) as [e He].
  destruct (delete_errors env db c i e He) as [t ->]. now exists t.
Qed.

Lemma user_references_block :
  forallb (fun tx => blocking_reference tx "user_id" UserModel
                     && negb (String.eqb (cls_name tx) "UserModel"))
          (classes_with "user_id") = true.
Proof. by_computation. Qed.

Lemma classes_with_user_id :
  map cls_name (classes_with "user_id") =
  ["LogModel"; "FileModel"; "ProcessorModel"; "NetworkModel"; "ArgumentModel";
   "SocketModel"; "PlugModel"; "LoginModel"].
Proof. by_computation. Qed.

(** X10: a user that anything belongs to cannot be deleted.  Every
    [user_id] column of the schema (log, file, processor, network,
    argument, socket, plug, login) is a required foreign key to
    [users.id], and no relationship of [UserModel] carries the delete
    cascade: while one row of these tables names the user, the delete
    ends in an integrity error and the store is left as it was. *)
Theorem referenced_user_not_deletable (tx : Class) (env : Env) (db : DB)
  (u : string) (g x : Row) :
  In tx models -> bound "user_id" (columns tx) = true ->
  In ("users", g) db -> get g "id" = Some (VStr u) ->
  In (cls_tablename tx, x) db -> get x "user_id" = Some (VStr u) ->
  exists t, delete env db UserModel u = Err (CascadeConflict t).
Proof.
  intros Htx Hb Hg Hgid Hx Hxk.
  assert (Hw : In tx (classes_with "user_id")).
  { unfold classes_with. apply filter_In. now split. }
  pose proof user_references_block as Hall. rewrite forallb_forall in Hall.
  specialize (Hall tx Hw). apply andb_true_iff in Hall. destruct Hall as [Hbr Hne].
  apply negb_true_iff in Hne. apply String.eqb_neq in Hne.
  assert (Hu : In UserModel models)
    by (apply (find_class_sound "UserModel" UserModel); by_computation).
  assert (Hcl : cascade_closed [cls_name UserModel] = true) by by_computation.
  exact (blocking_reference_stops_delete env db UserModel tx u "user_id" g x
           Hu Htx Hcl Hne Hbr Hg Hgid Hx Hxk).
Qed.

Lemma referenced_user_not_deletable_witness :
  exists t, delete (env_at 50) topology UserModel "u1" = Err (CascadeConflict t).
Proof.
  assert (Hs : exists x, In ("socket", x) topology /\ get x "user_id" = Some (VStr "u1")).
  { vm_compute. eexists.
    split; [repeat (first [left; reflexivity | right])|reflexivity]. }
  destruct Hs as [x [Hx Hxk]].
  assert (Hg : exists g, In ("users", g) topology /\ get g "id" = Some (VStr "u1")).
  { vm_compute. eexists.
    split; [repeat (first [left; reflexivity | right])|reflexivity]. }
  destruct Hg as [g [Hg Hgid]].
  apply (referenced_user_not_deletable SocketModel (env_at 50) topology "u1" g x).
  - unfold models. cbn [In]. do 25 right. left. reflexivity.
  - vm_compute. reflexivity.
  - exact Hg.
  - exact Hgid.
  - exact Hx.
  - exact Hxk.
Defined.

Lemma task_references_block :
  forallb (fun tx => blocking_reference tx "task_id" TaskModel)
          [CallModel; WorkModel; GateModel] = true.
Proof. by_computation. Qed.

(** X11: a task that a call, a work record or a gate names cannot be
    deleted.  [TaskModel] has relationships to its sockets and arguments
    only; [call.task_id] is required and nothing clears [work.task_id] or
    [gate.task_id], so the database refuses the delete. *)
Theorem referenced_task_not_deletable (tx : Class) (env : Env) (db : DB)
  (t : string) (g x : Row) :
  In tx [CallModel; WorkModel; GateModel] ->
  In ("task", g) db -> get g "id" = Some (VStr t) ->
  In (cls_tablename tx, x) db -> get x "task_id" = Some (VStr t) ->
  exists tb, delete env db TaskModel t = Err (CascadeConflict tb).
Proof.
  intros Htx Hg Hgid Hx Hxk.
  pose proof task_references_block as Hall. rewrite forallb_forall in Hall.
  specialize (Hall tx Htx).
  assert (Ht : In TaskModel models) by (apply in_models; by_computation).
  assert (Hcl : cascade_closed [cls_name TaskModel] = true) by by_computation.
  assert (Hm : In tx models /\ cls_name tx <> cls_name TaskModel).
  { cbn [In] in Htx. destruct Htx as [<-|[<-|[<-|[]]]];
      (split; [apply in_models; by_computation|discriminate]). }
  destruct Hm as [Hm Hne].
  exact (blocking_reference_stops_delete env db TaskModel tx t "task_id" g x
           Ht Hm Hcl Hne Hall Hg Hgid Hx Hxk).
Qed.

Lemma referenced_task_not_deletable_witness :
  exists tb, delete (env_at 50) ledger TaskModel "t1" = Err (CascadeConflict tb).
Proof.
  assert (Hs : exists x, In ("call", x) ledger /\ get x "task_id" = Some (VStr "t1")).
  { vm_compute. eexists.
    split; [repeat (first [left; reflexivity | right])|reflexivity]. }
  destruct Hs as [x [Hx Hxk]].
  assert (Hg : exists g, In ("task", g) ledger /\ get g "id" = Some (VStr "t1")).
  { vm_compute. eexists.
    split; [repeat (first [left; reflexivity | right])|reflexivity]. }
  destruct Hg as [g [Hg Hgid]].
  apply (referenced_task_not_deletable CallModel (env_at 50) ledger "t1" g x).
  - left. reflexivity.
  - exact Hg.
  - exact Hgid.
  - exact Hx.
  - exact Hxk.
Defined.

Lemma detachments_intro (db : DB) (s : list obj) (c tc : Class) (a k : string)
  (r : RelDecl) (i j : string) (o x : Row) :
  find_class (cls_name c) = Some c ->
  In (cls_name c, i) s ->
  In (cls_tablename c, o) db -> get o "id" = Some (VStr i) ->
  In (a, r) (all_relationships c) -> participates r = true ->
  find_class (rel_target r) = Some tc ->
  In x (related db c r o) -> get x "id" = Some (VStr j) ->
  mem_obj (cls_name tc, j) s = false ->
  In k (foreign_cols (join_of c r tc)) ->
  In (cls_tablename tc, j, k) (detachments db s).
Proof.
  intros Hc Hs Ho Hid Hr Hp Htc Hx Hj Hm Hk. unfold detachments.
  apply in_flat_map. exists (cls_name c, i). split; [exact Hs|]. cbn [fst snd].
  rewrite Hc. apply in_flat_map. exists o. split.
  - apply filter_In. split; [now apply table_rows_In|now apply has_id_get].
  - apply in_flat_map. exists (a, r). split; [exact Hr|]. cbn [snd].
    rewrite Hp, Htc. apply in_flat_map. exists j.
    split; [now apply row_ids_In with (x := x)|].
    rewrite Hm. apply in_map_iff. now exists k.
Qed.

Lemma stamp_spares_foreign_cols : mem_string "lastupdated" all_foreign_cols = false.
Proof. by_computation. Qed.

(** X12: a parent that does not cascade lets its children go.  For a
    one-to-many relationship without the [delete] cascade (the sockets and
    arguments of a task, the plugs of an argument, the nodes of a
    scheduler, the processors of a flow or a password), a delete of the
    parent that goes through keeps every child: the child's row is
    updated, its foreign key is NULL, [lastupdated] takes the time of the
    delete, and the columns that are plain and no relationship clears stay
    as they were. *)
Theorem delete_detaches_children (c tc : Class) (a k : string) (r : RelDecl)
  (names : list string) (env : Env) (db db' : DB) (i j : string) (o x : Row) :
  In c models ->
  lookup a (all_relationships c) = Some r -> participates r = true ->
  find_class (rel_target r) = Some tc ->
  join_of c r tc = OneToMany k "id" ->
  cascade_closed names = true -> In (cls_name c) names -> ~ In (cls_name tc) names ->
  no_db_cascade (cls_tablename tc) = true -> inherits_base tc = true ->
  In (cls_tablename c, o) db -> get o "id" = Some (VStr i) ->
  In (cls_tablename tc, x) db -> get x k = Some (VStr i) -> get x "id" = Some (VStr j) ->
  delete env db c i = Ok db' ->
  exists x',
    In (cls_tablename tc, x') db' /\
    get x' "id" = Some (VStr j) /\
    get x' k = None /\
    get x' "lastupdated" = Some (VTime (now env)) /\
    forall f col, lookup f (columns tc) = Some col ->
      arg_onupdate (col_args col) = None ->
      mem_pair (cls_tablename tc, f) detachable = false ->
      get x' f = get x f.
Proof.
  intros Hc Hr Hp Htc Hj Hcl Hcn Hxn Hnc Hb Ho Hoid Hx Hxk Hxid Hok.
  destruct (find_class_sound _ _ Htc) as [Htcm Hn].
  set (s := delete_set db (cls_name c, i)) in *.
  set (e' := detach env (detachments db s) (cls_tablename tc, x)).
  assert (Hnm : mem_obj (cls_name tc, j) s = false).
  { destruct (mem_obj (cls_name tc, j) s) eqn:E; [|reflexivity].
    apply mem_obj_In in E. exfalso. apply Hxn.
    exact (delete_set_classes db names (cls_name c, i) (cls_name tc, j) Hcl Hcn E). }
  assert (Hm : marked s (cls_tablename tc, x) = false).
  { unfold marked. cbn [fst snd]. now rewrite (class_of_own_table tc Htcm), Hxid. }
  assert (Hu : unlinked (unlinks db s) (cls_tablename tc, x) = false).
  { destruct (unlinked (unlinks db s) (cls_tablename tc, x)) eqn:E; [|reflexivity].
    apply unlinked_association in E. cbn [fst] in E.
    rewrite (class_of_own_table tc Htcm) in E. discriminate. }
  assert (Hk' : In e' (delete_kept env db s)).
  { unfold delete_kept. apply in_map. apply filter_In. split.
    - apply filter_In. split; [exact Hx|now rewrite Hm].
    - now rewrite Hu. }
  assert (Ht' : fst e' = cls_tablename tc) by apply detach_table.
  assert (Hnd : db_cascaded (delete_gone db s) e' = false).
  { unfold db_cascaded. rewrite Ht'. unfold no_db_cascade in Hnc.
    rewrite forallb_forall in Hnc. apply not_true_is_false. intro H.
    apply existsb_exists in H. destruct H as [fk [Hfkin H]].
    specialize (Hnc fk Hfkin). destruct (snd fk); discriminate. }
  destruct (delete_shape env db db' c i Hok) as [Edb _]. fold s in Edb.
  assert (Hd : In (cls_tablename tc, j, k) (detachments db s)).
  { destruct (join_one_to_many_fk c tc r k "id" Htcm Hj) as [od Hfk].
    destruct (child_marked_or_detached env db db' c c tc i i j k od o x
                Hok Hc Htcm Hfk Hnc (delete_set_root db _) Ho Hoid Hx Hxk Hxid)
      as [Hin|Hd]; [|exact Hd].
    apply mem_obj_In in Hin. fold s in Hin. rewrite Hin in Hnm. discriminate. }
  apply detached_cols_intro in Hd.
  pose proof (models_columns_distinct tc Htcm) as Hdis.
  assert (Ee : exists k0 ks, In k (k0 :: ks) /\
                 (forall f, In f (k0 :: ks) -> In f all_foreign_cols) /\
                 snd e' = updated_row env (columns tc)
                            (map (fun f => (f, None)) (k0 :: ks)) x).
  { unfold e', detach. cbn [fst snd]. rewrite (class_of_own_table tc Htcm), Hxid.
    destruct (detached_cols (detachments db s) (cls_tablename tc) j) as [|k0 ks] eqn:Ek;
      [destruct Hd|].
    exists k0, ks. split; [exact Hd|]. split; [|reflexivity].
    intros f Hf. apply (detached_cols_shape db s (cls_tablename tc) j). now rewrite Ek. }
  destruct Ee as [k0 [ks [Hkin [Hsh Ee]]]].
  exists (snd e'). split; [|split; [|split; [|split]]].
  - rewrite Edb, <- Ht', <- surjective_pairing. apply filter_In.
    split; [exact Hk'|cbv beta; now rewrite Hnd].
  - unfold e'. now rewrite detach_get_id.
  - rewrite Ee, updated_row_get by exact Hdis.
    destruct (lookup k (columns tc)); [|reflexivity].
    now rewrite (lookup_nulls_present k (k0 :: ks) Hkin).
  - rewrite Ee, updated_row_get by exact Hdis.
    destruct (base_columns_on_update tc Htcm Hb) as [Hlu _]. unfold onupdate_is in Hlu.
    destruct (lookup "lastupdated" (columns tc)) as [col|]; [|discriminate].
    rewrite lookup_nulls_absent.
    + destruct (arg_onupdate (col_args col)) as [d|]; [|discriminate].
      apply default_eqb_eq in Hlu. now subst d.
    + intro Hf. apply Hsh, mem_string_In in Hf.
      rewrite stamp_spares_foreign_cols in Hf. discriminate.
  - intros f col Hcol Hnu Hnd'. unfold e', s.
    exact (detach_keeps_column env db db' c tc i f col x Hok Htcm Hcol Hnu
             (or_intror Hnd')).
Qed.

Lemma delete_detaches_children_witness :
  exists x',
    In ("socket", x') (the_db (delete (env_at 50) topology TaskModel "t1")) /\
    get x' "id" = Some (VStr "s1") /\
    get x' "task_id" = None /\
    get x' "lastupdated" = Some (VTime 50) /\
    get x' "user_id" = Some (VStr "u1").
Proof.
  assert (Hs : exists x, In ("socket", x) topology /\ get x "task_id" = Some (VStr "t1")
                         /\ get x "id" = Some (VStr "s1")
                         /\ get x "user_id" = Some (VStr "u1")).
  { vm_compute. eexists.
    split; [repeat (first [left; reflexivity | right])|repeat split]. }
  destruct Hs as [x [Hx [Hxk [Hxid Hxp]]]].
  assert (Hg : exists g, In ("task", g) topology /\ get g "id" = Some (VStr "t1")).
  { vm_compute. eexists.
    split; [repeat (first [left; reflexivity | right])|reflexivity]. }
  destruct Hg as [g [Hg Hgid]].
  assert (Hr : exists r, lookup "sockets" (all_relationships TaskModel) = Some r /\
                 participates r = true /\ find_class (rel_target r) = Some SocketModel /\
                 join_of TaskModel r SocketModel = OneToMany "task_id" "id").
  { vm_compute. eexists. repeat split. }
  destruct Hr as [r [Hr [Hp [Htc Hj]]]].
  assert (Hcol : exists col, lookup "user_id" (columns SocketModel) = Some col /\
                   arg_onupdate (col_args col) = None).
  { vm_compute. eexists. split; reflexivity. }
  destruct Hcol as [col [Hcol Hnu]].
  destruct (delete_detaches_children TaskModel SocketModel "sockets" "task_id" r
              ["TaskModel"] (env_at 50) topology
              (the_db (delete (env_at 50) topology TaskModel "t1")) "t1" "s1" g x)
    as [x' [H1 [H2 [H3 [H4 H5]]]]].
  - apply in_models. vm_compute. reflexivity.
  - exact Hr.
  - exact Hp.
  - exact Htc.
  - exact Hj.
  - vm_compute. reflexivity.
  - left. reflexivity.
  - intros [H|[]]. discriminate H.
  - vm_compute. reflexivity.
  - vm_compute. reflexivity.
  - exact Hg.
  - exact Hgid.
  - exact Hx.
  - exact Hxk.
  - exact Hxid.
  - vm_compute. reflexivity.
  - exists x'. split; [exact H1|]. split; [exact H2|]. split; [exact H3|].
    split; [exact H4|]. rewrite (H5 "user_id" col Hcol Hnu); [exact Hxp|].
    vm_compute. reflexivity.
Defined.

Ltac in_row := (left; reflexivity) + (right; in_row).

Ltac find_row := vm_compute; eexists; (split; [in_row|idtac]); solve [repeat split].

Ltac in_list := vm_compute; repeat (first [left; reflexivity | right]).

(** ** Deleting a socket *)

(** The walk from a record stays, past the record itself, within a list
    of classes closed under the cascade that holds the classes of its
    targets. *)
Lemma cascade_visit_beyond (db : DB) (names : list string) (root : obj) (fuel : nat) :
  cascade_closed names = true ->
  forall seen o,
    (forall x, In x seen -> x = root \/ In (fst x) names) -> In (fst o) names ->
    forall x, In x (cascade_visit fuel db seen o) -> x = root \/ In (fst x) names.
Proof.
  intro Hcl. induction fuel as [|f IH]; intros seen o Hs Ho x Hx.
  - cbn [cascade_visit] in Hx. destruct (mem_obj o seen); [now apply Hs|].
    destruct Hx as [<-|Hx]; [now right|now apply Hs].
  - cbn [cascade_visit] in Hx. destruct (mem_obj o seen); [now apply Hs|].
    assert (Hfold : forall l acc,
              (forall t, In t l -> In (fst t) names) ->
              (forall y, In y acc -> y = root \/ In (fst y) names) ->
              forall y, In y (fold_left (cascade_visit f db) l acc) ->
                        y = root \/ In (fst y) names).
    { induction l as [|t l IHl]; intros acc Hl Hacc y Hy; [now apply Hacc|].
      cbn [fold_left] in Hy. apply (IHl (cascade_visit f db acc t)).
      - intros t' Ht'. apply Hl. now right.
      - intros z Hz. apply (IH acc t Hacc (Hl t (or_introl eq_refl)) z Hz).
      - exact Hy. }
    apply (Hfold (delete_targets db o) (o :: seen)).
    + intros t Ht. exact (delete_targets_classes db names o t Hcl Ho Ht).
    + intros y [<-|Hy]; [now right|now apply Hs].
    + exact Hx.
Qed.

Lemma delete_set_beyond_root (db : DB) (names : list string) (c : Class) (i : string)
  (x : obj) :
  cascade_closed names = true ->
  find_class (cls_name c) = Some c ->
  forallb (fun nr => negb (cascades_delete (snd nr) && participates (snd nr)) ||
                     mem_string (rel_target (snd nr)) names)
          (all_relationships c) = true ->
  In x (delete_set db (cls_name c, i)) -> x = (cls_name c, i) \/ In (fst x) names.
Proof.
  intros Hcl Hc Hall Hx. unfold delete_set in Hx.
  cbn [cascade_visit mem_obj existsb] in Hx.
  assert (Ht : forall t, In t (delete_targets db (cls_name c, i)) -> In (fst t) names).
  { intros t Ht. unfold delete_targets in Ht. cbn [fst snd] in Ht. rewrite Hc in Ht.
    rewrite forallb_forall in Hall.
    apply in_flat_map in Ht. destruct Ht as [row [_ Ht]].
    apply in_flat_map in Ht. destruct Ht as [nr [Hnr Ht]].
    specialize (Hall nr Hnr).
    destruct (cascades_delete (snd nr) && participates (snd nr)); [|destruct Ht].
    apply in_map_iff in Ht. destruct Ht as [j [<- _]]. cbn [fst].
    cbn [negb orb] in Hall. now apply mem_string_In. }
  assert (Hfold : forall l acc,
            (forall t, In t l -> In (fst t) names) ->
            (forall y, In y acc -> y = (cls_name c, i) \/ In (fst y) names) ->
            forall y, In y (fold_left (cascade_visit (length db) db) l acc) ->
                      y = (cls_name c, i) \/ In (fst y) names).
  { induction l as [|t l IHl]; intros acc Hl Hacc y Hy; [now apply Hacc|].
    cbn [fold_left] in Hy. apply (IHl (cascade_visit (length db) db acc t)).
    - intros t' Ht'. apply Hl. now right.
    - intros z Hz.
      exact (cascade_visit_beyond db names (cls_name c, i) (length db) Hcl acc t Hacc
               (Hl t (or_introl eq_refl)) z Hz).
    - exact Hy. }
  apply (Hfold (delete_targets db (cls_name c, i)) [(cls_name c, i)] Ht); [|exact Hx].
  intros y [<-|[]]. now left.
Qed.

Lemma socket_task_relationship :
  exists r, lookup "task" (all_relationships SocketModel) = Some r /\
            cascades_delete r && participates r = true /\
            find_class (rel_target r) = Some TaskModel /\
            join_of SocketModel r TaskModel = ManyToOne "task_id" "id".
Proof.
  eexists. split; [vm_compute; reflexivity|]. repeat split; vm_compute; reflexivity.
Qed.

(** C4, refuted: sockets [s1] and [s2] both reference task [t1];
    deleting [s1] deletes [t1] all the same, and [s2] stays, its
    reference set to NULL. *)
Lemma shared_task_deleted :
  exists db',
    delete (env_at 40) topology SocketModel "s1" = Ok db' /\
    (exists other, In ("socket", other) topology /\
                   get other "id" = Some (VStr "s2") /\
                   get other "task_id" = Some (VStr "t1")) /\
    (exists t, In ("task", t) topology /\ get t "id" = Some (VStr "t1")) /\
    table_rows db' "task" = [] /\
    (exists other, In ("socket", other) db' /\
                   get other "id" = Some (VStr "s2") /\
                   get other "task_id" = None).
Proof.
  eexists. split; [vm_compute; reflexivity|].
  split; [eexists; split; [do 4 right; left; reflexivity|split; reflexivity]|].
  split; [eexists; split; [do 2 right; left; reflexivity|reflexivity]|].
  split; [reflexivity|].
  eexists. split; [do 2 right; left; reflexivity|split; reflexivity].
Qed.

(** C4, amended: deleting a socket deletes the task it references,
    whether or not other sockets reference that task; the socket itself
    goes too, and every other socket that referenced the task stays, its
    task reference set to NULL. *)
Theorem socket_delete_removes_task (env : Env) (db db' : DB) (s t : string)
  (srow trow : Row) :
  In ("socket", srow) db -> get srow "id" = Some (VStr s) ->
  get srow "task_id" = Some (VStr t) ->
  In ("task", trow) db -> get trow "id" = Some (VStr t) ->
  delete env db SocketModel s = Ok db' ->
  (forall x, In ("task", x) db' -> get x "id" <> Some (VStr t)) /\
  (forall x, In ("socket", x) db' -> get x "id" <> Some (VStr s)) /\
  (forall x j, In ("socket", x) db -> get x "id" = Some (VStr j) -> j <> s ->
     get x "task_id" = Some (VStr t) ->
     exists x', In ("socket", x') db' /\ get x' "id" = Some (VStr j) /\
                get x' "task_id" = None).
Proof.
  intros Hs Hsid Hst Ht Htid Hok.
  assert (Ms : In SocketModel models) by (apply in_models; by_computation).
  assert (Mt : In TaskModel models) by (apply in_models; by_computation).
  destruct socket_task_relationship as [r [Hr [Hcp [Htc Hj]]]].
  assert (Hin : In ("TaskModel", t) (delete_set db ("SocketModel", s))).
  { pose proof (cascade_many_to_one db ("SocketModel", s) SocketModel TaskModel
                  "task" "task_id" r s t srow trow Hr Hcp (find_own_class _ Ms) Htc Hj
                  (delete_set_root db _) Hs Hsid Ht Hst Htid) as H.
    rewrite <- (proj2 (find_class_sound _ _ Htc)) in H. exact H. }
  split; [|split].
  - exact (marked_rows_removed env db db' SocketModel TaskModel s t Hok Mt Hin).
  - exact (marked_rows_removed env db db' SocketModel SocketModel s s Hok Ms
             (delete_set_root db _)).
  - intros x j Hx Hxid Hjs Hxt.
    assert (Hnm : ~ In ("SocketModel", j) (delete_set db ("SocketModel", s))).
    { intro H.
      assert (Hcl : cascade_closed ["TaskModel"; "CallModel"; "EventModel"] = true)
        by by_computation.
      assert (Hall : forallb (fun nr =>
                         negb (cascades_delete (snd nr) && participates (snd nr)) ||
                         mem_string (rel_target (snd nr))
                                    ["TaskModel"; "CallModel"; "EventModel"])
                       (all_relationships SocketModel) = true) by by_computation.
      destruct (delete_set_beyond_root db _ SocketModel s ("SocketModel", j)
                  Hcl (find_own_class _ Ms) Hall H) as [E|E].
      - injection E as E. now apply Hjs.
      - cbn [fst In] in E. intuition discriminate. }
    assert (Hmk : marked (delete_set db (cls_name SocketModel, s))
                         (cls_tablename SocketModel, x) = false).
    { unfold marked. cbn [fst snd]. rewrite (class_of_own_table SocketModel Ms), Hxid.
      apply not_true_is_false. intro H. apply Hnm. now apply mem_obj_In in H. }
    assert (Hfk : In ("task_id", (cls_tablename TaskModel, "id"), @None string)
                     (table_fks (cls_tablename SocketModel))) by in_list.
    assert (Hnc : no_db_cascade (cls_tablename SocketModel) = true) by by_computation.
    destruct (child_marked_or_detached env db db' SocketModel TaskModel SocketModel
                s t j "task_id" None trow x Hok Mt Ms Hfk Hnc Hin Ht Htid Hx Hxt Hxid)
      as [Hm|Hd]; [contradiction|].
    exists (snd (detach env (detachments db (delete_set db (cls_name SocketModel, s)))
                     (cls_tablename SocketModel, x))).
    split; [|split].
    + exact (unmarked_row_stays env db db' SocketModel SocketModel s x Hok Ms
               Hnc Hx Hmk).
    + rewrite detach_get_id. exact Hxid.
    + exact (detach_clears env _ SocketModel x j "task_id" Ms Hxid Hd).
Qed.

Lemma socket_delete_removes_task_witness :
  (forall x, In ("task", x) (the_db (delete (env_at 40) topology SocketModel "s1")) ->
             get x "id" <> Some (VStr "t1")) /\
  (forall x, In ("socket", x) (the_db (delete (env_at 40) topology SocketModel "s1")) ->
             get x "id" <> Some (VStr "s1")) /\
  (exists x', In ("socket", x') (the_db (delete (env_at 40) topology SocketModel "s1")) /\
              get x' "id" = Some (VStr "s2") /\ get x' "task_id" = None).
Proof.
  assert (Hs : exists g, In ("socket", g) topology /\ get g "id" = Some (VStr "s1") /\
                         get g "task_id" = Some (VStr "t1")).
  { find_row. }
  destruct Hs as [srow [Hs [Hsid Hst]]].
  assert (Ht : exists g, In ("task", g) topology /\ get g "id" = Some (VStr "t1")).
  { find_row. }
  destruct Ht as [trow [Ht Htid]].
  assert (Hx : exists g, In ("socket", g) topology /\ get g "id" = Some (VStr "s2") /\
                         get g "task_id" = Some (VStr "t1")).
  { find_row. }
  destruct Hx as [x [Hx [Hxid Hxt]]].
  destruct (socket_delete_removes_task (env_at 40) topology
              (the_db (delete (env_at 40) topology SocketModel "s1")) "s1" "t1"
              srow trow Hs Hsid Hst Ht Htid) as [H1 [H2 H3]].
  - vm_compute. reflexivity.
  - split; [exact H1|]. split; [exact H2|].
    apply (H3 x "s2" Hx Hxid); [discriminate|exact Hxt].
Defined.

(** ** Deleting a processor *)

Lemma children_In (db : DB) (p t : string) (x : Row) :
  In (t, x) (children db p) <->
  In (t, x) db /\ In t ["plug"; "socket"; "deployment"] /\
  get x "processor_id" = Some (VStr p).
Proof.
  unfold children. rewrite filter_In. cbn [fst snd].
  rewrite andb_true_iff, mem_string_In, sql_eqb_some. tauto.
Qed.

(** C5: when the delete of a processor goes through, every plug, socket
    and deployment that referenced it was marked by the cascade and is
    gone, no row referencing the processor remains, and the processor is
    gone. *)
Theorem processor_delete_cascades (env : Env) (db db' : DB) (p : string) (prow : Row) :
  In ("processor", prow) db -> get prow "id" = Some (VStr p) ->
  delete env db ProcessorModel p = Ok db' ->
  children db' p = [] /\
  (forall x, In ("processor", x) db' -> get x "id" <> Some (VStr p)) /\
  (forall t x i, In (t, x) (children db p) -> get x "id" = Some (VStr i) ->
     In (child_class t, i) (delete_set db ("ProcessorModel", p)) /\
     forall y, In (t, y) db' -> get y "id" <> Some (VStr i)).
Proof.
  intros Hp Hpid Hok.
  assert (Hroot : In (cls_name ProcessorModel, p)
                     (delete_set db (cls_name ProcessorModel, p)))
    by apply delete_set_root.
  split; [|split].
  - destruct (children db' p) as [|[t x] l] eqn:E; [reflexivity|exfalso].
    assert (Hx : In (t, x) (children db' p)) by (rewrite E; now left).
    apply children_In in Hx. destruct Hx as [Hx [Ht Hr]].
    assert (Hfk : In ("processor_id", ("processor", "id"), @None string) (table_fks t)).
    { cbn [In] in Ht. destruct Ht as [<-|[<-|[<-|[]]]]; vm_compute; tauto. }
    exact (delete_leaves_no_reference env db db' ProcessorModel ProcessorModel
             p t "processor_id" "processor" None prow Hok Hroot eq_refl Hp Hpid Hfk
             x Hx Hr).
  - apply (delete_removes_marked env db db' ProcessorModel ProcessorModel p p
             "processor" Hok Hroot); vm_compute; reflexivity.
  - intros t x i Hx Hid. apply children_In in Hx. destruct Hx as [Hx [Ht Hr]].
    assert (Hj : forall a r tc,
               In (a, r) (all_relationships ProcessorModel) ->
               cascades_delete r = true -> participates r = true ->
               find_class (rel_target r) = Some tc -> cls_tablename tc = t ->
               join_of ProcessorModel r tc = OneToMany "processor_id" "id" ->
               scalar r (OneToMany "processor_id" "id") = false ->
               In (rel_target r, i) (delete_set db ("ProcessorModel", p))).
    { intros a r tc Ha Hcd Hpa Htc Etab Ej Hsc. apply delete_set_targets.
      apply (delete_targets_intro db ProcessorModel p a i r prow x);
        try assumption; try reflexivity.
      apply related_intro with (tc := tc);
        [exact Htc|now rewrite Ej|now rewrite Etab|].
      rewrite Ej. cbn [joined]. rewrite Hr, Hpid. apply value_eqb_refl. }
    cbn [In] in Ht. destruct Ht as [<-|[<-|[<-|[]]]].
    + assert (Hin : In ("PlugModel", i) (delete_set db ("ProcessorModel", p))).
      { apply (Hj "plugs"
                 (mkRel "PlugModel"
                    [backref "processor"; lazy_ "True"; cascade "all, delete-orphan"])
                 PlugModel); try (vm_compute; reflexivity). vm_compute. tauto. }
      split; [exact Hin|].
      apply (delete_removes_marked env db db' ProcessorModel PlugModel p i "plug"
               Hok Hin); vm_compute; reflexivity.
    + assert (Hin : In ("SocketModel", i) (delete_set db ("ProcessorModel", p))).
      { apply (Hj "sockets"
                 (mkRel "SocketModel"
                    [backref "processor"; lazy_ "True"; cascade "all, delete-orphan"])
                 SocketModel); try (vm_compute; reflexivity). vm_compute. tauto. }
      split; [exact Hin|].
      apply (delete_removes_marked env db db' ProcessorModel SocketModel p i "socket"
               Hok Hin); vm_compute; reflexivity.
    + assert (Hin : In ("DeploymentModel", i) (delete_set db ("ProcessorModel", p))).
      { apply (Hj "deployments"
                 (mkRel "DeploymentModel"
                    [backref "processor"; lazy_ "True"; cascade "all, delete-orphan"])
                 DeploymentModel); try (vm_compute; reflexivity). vm_compute. tauto. }
      split; [exact Hin|].
      apply (delete_removes_marked env db db' ProcessorModel DeploymentModel p i
               "deployment" Hok Hin); vm_compute; reflexivity.
Qed.

Lemma processor_delete_cascades_witness :
  length (children topology "p1") = 5%nat /\
  children (the_db (delete (env_at 40) topology ProcessorModel "p1")) "p1" = [] /\
  (forall x, In ("processor", x) (the_db (delete (env_at 40) topology ProcessorModel "p1")) ->
             get x "id" <> Some (VStr "p1")) /\
  (forall t x i, In (t, x) (children topology "p1") -> get x "id" = Some (VStr i) ->
     In (child_class t, i) (delete_set topology ("ProcessorModel", "p1")) /\
     forall y, In (t, y) (the_db (delete (env_at 40) topology ProcessorModel "p1")) ->
               get y "id" <> Some (VStr i)).
Proof.
  split; [reflexivity|].
  apply (processor_delete_cascades (env_at 40) topology _ "p1"
           (with_defaults (env_at 2) (columns ProcessorModel)
              [("id", VStr "p1"); ("name", VStr "proc"); ("module", VStr "mod");
               ("user_id", VStr "u1")])).
  - vm_compute. tauto.
  - reflexivity.
  - vm_compute. reflexivity.
Defined.

(** *** Cascades through more than one relationship *)

Lemma version_file_relationship :
  exists r, lookup "file" (all_relationships VersionModel) = Some r /\
            cascades_delete r && participates r = true /\
            find_class (rel_target r) = Some FileModel /\
            join_of VersionModel r FileModel = ManyToOne "file_id" "id".
Proof. vm_compute. eexists. repeat split. Qed.

Lemma file_versions_relationship :
  exists r, lookup "versions" (all_relationships FileModel) = Some r /\
            cascades_delete r && participates r = true /\
            find_class (rel_target r) = Some VersionModel /\
            join_of FileModel r VersionModel = OneToMany "file_id" "id".
Proof. vm_compute. eexists. repeat split. Qed.

(** X13: deleting one version of a file deletes the file and every other
    version of it.  [VersionModel.file] carries [cascade="all,
    delete-orphan"] on the many-to-one side, and [FileModel.versions]
    carries it back; a delete of a version that goes through leaves
    neither the file nor any version of the file, and it only goes
    through when no flow uses the file. *)
Theorem version_delete_takes_file (env : Env) (db db' : DB) (v f : string)
  (o g : Row) :
  In ("versions", o) db -> get o "id" = Some (VStr v) ->
  get o "file_id" = Some (VStr f) ->
  In ("file", g) db -> get g "id" = Some (VStr f) ->
  delete env db VersionModel v = Ok db' ->
  (forall y, In ("file", y) db' -> get y "id" <> Some (VStr f)) /\
  (forall y, In ("versions", y) db' -> get y "file_id" <> Some (VStr f)) /\
  (forall x w, In ("versions", x) db -> get x "file_id" = Some (VStr f) ->
     get x "id" = Some (VStr w) ->
     forall y, In ("versions", y) db' -> get y "id" <> Some (VStr w)) /\
  (forall x, In ("flow", x) db -> get x "file_id" <> Some (VStr f)).
Proof.
  intros Ho Hoid Hof Hg Hgid Hok.
  assert (Hv : In VersionModel models) by (apply in_models; by_computation).
  assert (Hf : In FileModel models) by (apply in_models; by_computation).
  assert (Hfl : In FlowModel models) by (apply in_models; by_computation).
  destruct version_file_relationship as [r [Hr [Hcp [Htc Hj]]]].
  destruct file_versions_relationship as [r' [Hr' [Hcp' [Htc' Hj']]]].
  assert (Hin : In ("FileModel", f) (delete_set db ("VersionModel", v))).
  { pose proof (cascade_many_to_one db ("VersionModel", v) VersionModel FileModel
             "file" "file_id" r v f o g Hr Hcp (find_own_class _ Hv) Htc Hj
             (delete_set_root db _) Ho Hoid Hg Hof Hgid) as H.
    rewrite <- (proj2 (find_class_sound _ _ Htc)) in H. exact H. }
  split; [|split; [|split]].
  - exact (marked_rows_removed env db db' VersionModel FileModel v f Hok Hf Hin).
  - apply (no_reference_to_marked env db db' VersionModel FileModel v f
             "versions" "file_id" None g Hok Hf Hin Hg Hgid).
    in_list.
  - intros x w Hx Hxf Hxid.
    assert (Hin' : In ("VersionModel", w) (delete_set db ("VersionModel", v))).
    { pose proof (cascade_one_to_many env db db' VersionModel FileModel VersionModel
               v "versions" "file_id" r' f w g x Hok Hf Hr' Hcp' Htc' Hj'
               Hin Hg Hgid Hx Hxf Hxid) as H.
      rewrite <- (proj2 (find_class_sound _ _ Htc')) in H. exact H. }
    exact (marked_rows_removed env db db' VersionModel VersionModel v w Hok Hv Hin').
  - intros x Hx Hxf.
    assert (Hcol : exists col, lookup "file_id" (columns FlowModel) = Some col /\
                     col_fk col = Some ("file", "id") /\
                     arg_onupdate (col_args col) = None /\
                     is_nullable col = false).
    { vm_compute. eexists. repeat split. }
    destruct Hcol as [col [Hcol [Hfk [Hnu Hnn]]]].
    destruct (reference_blocks_delete env db VersionModel FileModel FlowModel
                ["VersionModel"; "FileModel"] v f "file_id" col g x
                Hv Hf Hfl) as [e He]; try assumption.
    + by_computation.
    + left. reflexivity.
    + intros [H|[H|[]]]; discriminate H.
    + now left.
    + by_computation.
    + rewrite Hok in He. discriminate He.
Qed.

Lemma version_delete_takes_file_witness :
  (forall y, In ("file", y) (the_db (delete (env_at 50) versions VersionModel "v1")) ->
             get y "id" <> Some (VStr "f1")) /\
  (forall y, In ("versions", y) (the_db (delete (env_at 50) versions VersionModel "v1")) ->
             get y "file_id" <> Some (VStr "f1")).
Proof.
  assert (Ho : exists o, In ("versions", o) versions /\ get o "id" = Some (VStr "v1")
                         /\ get o "file_id" = Some (VStr "f1")).
  { find_row. }
  destruct Ho as [o [Ho [Hoid Hof]]].
  assert (Hg : exists g, In ("file", g) versions /\ get g "id" = Some (VStr "f1")).
  { find_row. }
  destruct Hg as [g [Hg Hgid]].
  destruct (version_delete_takes_file (env_at 50) versions
              (the_db (delete (env_at 50) versions VersionModel "v1")) "v1" "f1" o g
              Ho Hoid Hof Hg Hgid) as [H1 [H2 _]].
  - vm_compute. reflexivity.
  - split; [exact H1|exact H2].
Defined.

Lemma network_chain_relationships :
  (exists r, lookup "nodes" (all_relationships NetworkModel) = Some r /\
             cascades_delete r && participates r = true /\
             find_class (rel_target r) = Some NodeModel /\
             join_of NetworkModel r NodeModel = OneToMany "network_id" "id") /\
  (exists r, lookup "agent" (all_relationships NodeModel) = Some r /\
             cascades_delete r && participates r = true /\
             find_class (rel_target r) = Some AgentModel /\
             join_of NodeModel r AgentModel = OneToMany "node_id" "id") /\
  (exists r, lookup "workers" (all_relationships AgentModel) = Some r /\
             cascades_delete r && participates r = true /\
             find_class (rel_target r) = Some WorkerModel /\
             join_of AgentModel r WorkerModel = OneToMany "agent_id" "id").
Proof. vm_compute. repeat split; eexists; repeat split. Qed.

(** X14: a network takes its whole cluster along.  The [delete] cascade
    runs from [NetworkModel.nodes] through [NodeModel.agent] to
    [AgentModel.workers]: a delete of a network that goes through leaves
    none of its nodes, none of their agents and none of those agents'
    workers. *)
Theorem network_delete_reaches_workers (env : Env) (db db' : DB)
  (n nd ag w : string) (gn gnd ga gw : Row) :
  In ("network", gn) db -> get gn "id" = Some (VStr n) ->
  In ("node", gnd) db -> get gnd "id" = Some (VStr nd) ->
  get gnd "network_id" = Some (VStr n) ->
  In ("agent", ga) db -> get ga "id" = Some (VStr ag) ->
  get ga "node_id" = Some (VStr nd) ->
  In ("worker", gw) db -> get gw "id" = Some (VStr w) ->
  get gw "agent_id" = Some (VStr ag) ->
  delete env db NetworkModel n = Ok db' ->
  (forall y, In ("node", y) db' -> get y "id" <> Some (VStr nd)) /\
  (forall y, In ("agent", y) db' -> get y "id" <> Some (VStr ag)) /\
  (forall y, In ("worker", y) db' -> get y "id" <> Some (VStr w)).
Proof.
  intros Hn Hnid Hnd Hndid Hndn Ha Haid Han Hw Hwid Hwa Hok.
  assert (Mn : In NetworkModel models) by (apply in_models; by_computation).
  assert (Mnd : In NodeModel models) by (apply in_models; by_computation).
  assert (Ma : In AgentModel models) by (apply in_models; by_computation).
  assert (Mw : In WorkerModel models) by (apply in_models; by_computation).
  destruct network_chain_relationships
    as [[r1 [Hr1 [Hc1 [Ht1 Hj1]]]] [[r2 [Hr2 [Hc2 [Ht2 Hj2]]]] [r3 [Hr3 [Hc3 [Ht3 Hj3]]]]]].
  assert (I1 : In ("NodeModel", nd) (delete_set db ("NetworkModel", n))).
  { pose proof (cascade_one_to_many env db db' NetworkModel NetworkModel NodeModel
                  n "nodes" "network_id" r1 n nd gn gnd Hok Mn Hr1 Hc1
                  Ht1 Hj1 (delete_set_root db _) Hn Hnid Hnd Hndn Hndid) as H.
    rewrite <- (proj2 (find_class_sound _ _ Ht1)) in H. exact H. }
  assert (I2 : In ("AgentModel", ag) (delete_set db ("NetworkModel", n))).
  { pose proof (cascade_one_to_many env db db' NetworkModel NodeModel AgentModel
                  n "agent" "node_id" r2 nd ag gnd ga Hok Mnd Hr2 Hc2
                  Ht2 Hj2 I1 Hnd Hndid Ha Han Haid) as H.
    rewrite <- (proj2 (find_class_sound _ _ Ht2)) in H. exact H. }
  assert (I3 : In ("WorkerModel", w) (delete_set db ("NetworkModel", n))).
  { pose proof (cascade_one_to_many env db db' NetworkModel AgentModel WorkerModel
                  n "workers" "agent_id" r3 ag w ga gw Hok Ma Hr3 Hc3
                  Ht3 Hj3 I2 Ha Haid Hw Hwa Hwid) as H.
    rewrite <- (proj2 (find_class_sound _ _ Ht3)) in H. exact H. }
  split; [|split].
  - exact (marked_rows_removed env db db' NetworkModel NodeModel n nd Hok Mnd I1).
  - exact (marked_rows_removed env db db' NetworkModel AgentModel n ag Hok Ma I2).
  - exact (marked_rows_removed env db db' NetworkModel WorkerModel n w Hok Mw I3).
Qed.

Lemma network_delete_reaches_workers_witness :
  (forall y, In ("node", y) (the_db (delete (env_at 50) cluster NetworkModel "n1")) ->
             get y "id" <> Some (VStr "nd1")) /\
  (forall y, In ("agent", y) (the_db (delete (env_at 50) cluster NetworkModel "n1")) ->
             get y "id" <> Some (VStr "ag1")) /\
  (forall y, In ("worker", y) (the_db (delete (env_at 50) cluster NetworkModel "n1")) ->
             get y "id" <> Some (VStr "w1")).
Proof.
  assert (Hn : exists g, In ("network", g) cluster /\ get g "id" = Some (VStr "n1")).
  { find_row. }
  destruct Hn as [gn [Hn Hnid]].
  assert (Hnd : exists g, In ("node", g) cluster /\ get g "id" = Some (VStr "nd1")
                          /\ get g "network_id" = Some (VStr "n1")).
  { find_row. }
  destruct Hnd as [gnd [Hnd [Hndid Hndn]]].
  assert (Ha : exists g, In ("agent", g) cluster /\ get g "id" = Some (VStr "ag1")
                         /\ get g "node_id" = Some (VStr "nd1")).
  { find_row. }
  destruct Ha as [ga [Ha [Haid Han]]].
  assert (Hw : exists g, In ("worker", g) cluster /\ get g "id" = Some (VStr "w1")
                         /\ get g "agent_id" = Some (VStr "ag1")).
  { find_row. }
  destruct Hw as [gw [Hw [Hwid Hwa]]].
  apply (network_delete_reaches_workers (env_at 50) cluster
           (the_db (delete (env_at 50) cluster NetworkModel "n1"))
           "n1" "nd1" "ag1" "w1" gn gnd ga gw); try assumption.
  vm_compute. reflexivity.
Defined.

Lemma call_chain_relationships :
  (exists r, lookup "call" (all_relationships SocketModel) = Some r /\
             cascades_delete r && participates r = true /\
             find_class (rel_target r) = Some CallModel /\
             join_of SocketModel r CallModel = OneToMany "socket_id" "id") /\
  (exists r, lookup "events" (all_relationships CallModel) = Some r /\
             cascades_delete r && participates r = true /\
             find_class (rel_target r) = Some EventModel /\
             join_of CallModel r EventModel =
               ManyToMany "calls_events" "call_id" "id" "event_id" "id" /\
             scalar r (ManyToMany "calls_events" "call_id" "id" "event_id" "id")
               = false) /\
  (exists r, lookup "call" (all_relationships EventModel) = Some r /\
             cascades_delete r && participates r = true /\
             find_class (rel_target r) = Some CallModel /\
             join_of EventModel r CallModel = ManyToOne "call_id" "id").
Proof. vm_compute. repeat split; eexists; repeat split. Qed.

(** X15: a socket takes its calls and their events along.  The cascade of
    [SocketModel.call] continues through [CallModel.events]: a delete of
    a socket that goes through leaves no call of the socket, no event
    listed for such a call, and no row of [calls_events] that names the
    call or the event. *)
Theorem socket_delete_reaches_events (env : Env) (db db' : DB)
  (s c e : string) (gs gc ge link : Row) :
  In ("socket", gs) db -> get gs "id" = Some (VStr s) ->
  In ("call", gc) db -> get gc "id" = Some (VStr c) ->
  get gc "socket_id" = Some (VStr s) ->
  In ("event", ge) db -> get ge "id" = Some (VStr e) ->
  In ("calls_events", link) db ->
  get link "call_id" = Some (VStr c) -> get link "event_id" = Some (VStr e) ->
  delete env db SocketModel s = Ok db' ->
  (forall y, In ("call", y) db' -> get y "id" <> Some (VStr c)) /\
  (forall y, In ("event", y) db' -> get y "id" <> Some (VStr e)) /\
  (forall y, In ("calls_events", y) db' ->
     get y "call_id" <> Some (VStr c) /\ get y "event_id" <> Some (VStr e)).
Proof.
  intros Hs Hsid Hc Hcid Hcs He Heid Hl Hlc Hle Hok.
  assert (Ms : In SocketModel models) by (apply in_models; by_computation).
  assert (Mc : In CallModel models) by (apply in_models; by_computation).
  assert (Me : In EventModel models) by (apply in_models; by_computation).
  destruct call_chain_relationships
    as [[r1 [Hr1 [Hc1 [Ht1 Hj1]]]] [[r2 [Hr2 [Hc2 [Ht2 [Hj2 Hs2]]]]] _]].
  assert (I1 : In ("CallModel", c) (delete_set db ("SocketModel", s))).
  { pose proof (cascade_one_to_many env db db' SocketModel SocketModel CallModel
                  s "call" "socket_id" r1 s c gs gc Hok Ms Hr1 Hc1
                  Ht1 Hj1 (delete_set_root db _) Hs Hsid Hc Hcs Hcid) as H.
    rewrite <- (proj2 (find_class_sound _ _ Ht1)) in H. exact H. }
  assert (I2 : In ("EventModel", e) (delete_set db ("SocketModel", s))).
  { pose proof (cascade_many_to_many db ("SocketModel", s) CallModel EventModel
                  "events" "calls_events" "call_id" "event_id" r2 c e gc ge link
                  Hr2 Hc2 (find_own_class _ Mc) Ht2 Hj2 Hs2 I1 Hc Hcid He Heid
                  Hl Hlc Hle) as H.
    rewrite <- (proj2 (find_class_sound _ _ Ht2)) in H. exact H. }
  split; [|split].
  - exact (marked_rows_removed env db db' SocketModel CallModel s c Hok Mc I1).
  - exact (marked_rows_removed env db db' SocketModel EventModel s e Hok Me I2).
  - intros y Hy. split.
    + apply (no_reference_to_marked env db db' SocketModel CallModel s c
               "calls_events" "call_id" None gc Hok Mc I1 Hc Hcid); [in_list|exact Hy].
    + apply (no_reference_to_marked env db db' SocketModel EventModel s e
               "calls_events" "event_id" None ge Hok Me I2 He Heid); [in_list|exact Hy].
Qed.

Lemma socket_delete_reaches_events_witness :
  (forall y, In ("call", y) (the_db (delete (env_at 50) ledger SocketModel "s1")) ->
             get y "id" <> Some (VStr "c1")) /\
  (forall y, In ("event", y) (the_db (delete (env_at 50) ledger SocketModel "s1")) ->
             get y "id" <> Some (VStr "e1")) /\
  (forall y, In ("calls_events", y) (the_db (delete (env_at 50) ledger SocketModel "s1")) ->
     get y "call_id" <> Some (VStr "c1") /\ get y "event_id" <> Some (VStr "e1")).
Proof.
  assert (Hs : exists g, In ("socket", g) ledger /\ get g "id" = Some (VStr "s1")).
  { find_row. }
  destruct Hs as [gs [Hs Hsid]].
  assert (Hc : exists g, In ("call", g) ledger /\ get g "id" = Some (VStr "c1")
                         /\ get g "socket_id" = Some (VStr "s1")).
  { find_row. }
  destruct Hc as [gc [Hc [Hcid Hcs]]].
  assert (He : exists g, In ("event", g) ledger /\ get g "id" = Some (VStr "e1")).
  { find_row. }
  destruct He as [ge [He Heid]].
  assert (Hl : exists g, In ("calls_events", g) ledger /\
                         get g "call_id" = Some (VStr "c1") /\
                         get g "event_id" = Some (VStr "e1")).
  { find_row. }
  destruct Hl as [link [Hl [Hlc Hle]]].
  apply (socket_delete_reaches_events (env_at 50) ledger
           (the_db (delete (env_at 50) ledger SocketModel "s1"))
           "s1" "c1" "e1" gs gc ge link); try assumption.
  vm_compute. reflexivity.
Defined.

(** X16: deleting one event deletes the call it belongs to and the other
    events of that call.  [EventModel.call] carries [cascade="all,
    delete-orphan"] on the many-to-one side and [CallModel.events]
    cascades back through [calls_events]. *)
Theorem event_delete_takes_call (env : Env) (db db' : DB)
  (e c e2 : string) (ge gc ge2 link : Row) :
  In ("event", ge) db -> get ge "id" = Some (VStr e) ->
  get ge "call_id" = Some (VStr c) ->
  In ("call", gc) db -> get gc "id" = Some (VStr c) ->
  In ("event", ge2) db -> get ge2 "id" = Some (VStr e2) ->
  In ("calls_events", link) db ->
  get link "call_id" = Some (VStr c) -> get link "event_id" = Some (VStr e2) ->
  delete env db EventModel e = Ok db' ->
  (forall y, In ("call", y) db' -> get y "id" <> Some (VStr c)) /\
  (forall y, In ("event", y) db' -> get y "id" <> Some (VStr e2)) /\
  (forall y, In ("event", y) db' -> get y "call_id" <> Some (VStr c)).
Proof.
  intros He Heid Hec Hc Hcid He2 He2id Hl Hlc Hle Hok.
  assert (Mc : In CallModel models) by (apply in_models; by_computation).
  assert (Me : In EventModel models) by (apply in_models; by_computation).
  destruct call_chain_relationships
    as [_ [[r2 [Hr2 [Hc2 [Ht2 [Hj2 Hs2]]]]] [r3 [Hr3 [Hc3 [Ht3 Hj3]]]]]].
  assert (I1 : In ("CallModel", c) (delete_set db ("EventModel", e))).
  { pose proof (cascade_many_to_one db ("EventModel", e) EventModel CallModel
                  "call" "call_id" r3 e c ge gc Hr3 Hc3 (find_own_class _ Me)
                  Ht3 Hj3 (delete_set_root db _) He Heid Hc Hec Hcid) as H.
    rewrite <- (proj2 (find_class_sound _ _ Ht3)) in H. exact H. }
  assert (I2 : In ("EventModel", e2) (delete_set db ("EventModel", e))).
  { pose proof (cascade_many_to_many db ("EventModel", e) CallModel EventModel
                  "events" "calls_events" "call_id" "event_id" r2 c e2 gc ge2 link
                  Hr2 Hc2 (find_own_class _ Mc) Ht2 Hj2 Hs2 I1 Hc Hcid He2 He2id
                  Hl Hlc Hle) as H.
    rewrite <- (proj2 (find_class_sound _ _ Ht2)) in H. exact H. }
  split; [|split].
  - exact (marked_rows_removed env db db' EventModel CallModel e c Hok Mc I1).
  - exact (marked_rows_removed env db db' EventModel EventModel e e2 Hok Me I2).
  - apply (no_reference_to_marked env db db' EventModel CallModel e c
             "event" "call_id" None gc Hok Mc I1 Hc Hcid). in_list.
Qed.

Lemma event_delete_takes_call_witness :
  (forall y, In ("call", y) (the_db (delete (env_at 50) ledger EventModel "e1")) ->
             get y "id" <> Some (VStr "c1")) /\
  (forall y, In ("event", y) (the_db (delete (env_at 50) ledger EventModel "e1")) ->
             get y "id" <> Some (VStr "e2")) /\
  (forall y, In ("event", y) (the_db (delete (env_at 50) ledger EventModel "e1")) ->
             get y "call_id" <> Some (VStr "c1")).
Proof.
  assert (He : exists g, In ("event", g) ledger /\ get g "id" = Some (VStr "e1")
                         /\ get g "call_id" = Some (VStr "c1")).
  { find_row. }
  destruct He as [ge [He [Heid Hec]]].
  assert (Hc : exists g, In ("call", g) ledger /\ get g "id" = Some (VStr "c1")).
  { find_row. }
  destruct Hc as [gc [Hc Hcid]].
  assert (He2 : exists g, In ("event", g) ledger /\ get g "id" = Some (VStr "e2")).
  { find_row. }
  destruct He2 as [ge2 [He2 He2id]].
  assert (Hl : exists g, In ("calls_events", g) ledger /\
                         get g "call_id" = Some (VStr "c1") /\
                         get g "event_id" = Some (VStr "e2")).
  { find_row. }
  destruct Hl as [link [Hl [Hlc Hle]]].
  apply (event_delete_takes_call (env_at 50) ledger
           (the_db (delete (env_at 50) ledger EventModel "e1"))
           "e1" "c1" "e2" ge gc ge2 link); try assumption.
  vm_compute. reflexivity.
Defined.

(** *** What a delete leaves alone *)

Lemma detach_untouched (env : Env) (db : DB) (s : list obj) (t : string) (x : Row) :
  existsb (fun p => String.eqb (fst p) t) detachable = false ->
  detach env (detachments db s) (t, x) = (t, x).
Proof.
  intro Hu. unfold detach. cbn [fst snd].
  destruct (class_of_table t); [|reflexivity].
  destruct (get x "id") as [[j| | | |]|]; try reflexivity.
  destruct (detached_cols (detachments db s) t j) as [|k ks] eqn:Ek; [reflexivity|].
  exfalso. assert (Hk : In k (detached_cols (detachments db s) t j))
    by (rewrite Ek; now left).
  apply detached_cols_In, detachments_detachable in Hk.
  assert (Ht : existsb (fun p => String.eqb (fst p) t) detachable = true).
  { apply existsb_exists. exists (t, k). split; [exact Hk|apply String.eqb_refl]. }
  rewrite Hu in Ht. discriminate.
Qed.

(** X17: a delete leaves the other classes alone.  When the classes the
    cascade of [c] can reach are [names], a class outside [names] whose
    table no relationship detaches and no [ondelete] rule empties has
    exactly the same rows after the delete as before: deleting a socket,
    a processor or a network never removes or changes a user, a role or
    a privilege. *)
Theorem delete_spares_other_classes (c tx : Class) (names : list string)
  (env : Env) (db db' : DB) (i : string) (x : Row) :
  In c models -> In tx models ->
  cascade_closed names = true -> In (cls_name c) names -> ~ In (cls_name tx) names ->
  untouched_table (cls_tablename tx) = true ->
  delete env db c i = Ok db' ->
  (In (cls_tablename tx, x) db' <-> In (cls_tablename tx, x) db).
Proof.
  intros Hc Htx Hcl Hcn Hxn Hun Hok.
  apply andb_true_iff in Hun. destruct Hun as [Hnd Hnc].
  apply negb_true_iff in Hnd.
  set (s := delete_set db (cls_name c, i)).
  destruct (delete_shape env db db' c i Hok) as [Edb _]. fold s in Edb.
  assert (Hm : forall y, marked s (cls_tablename tx, y) = false).
  { intro y. unfold marked. cbn [fst snd]. rewrite (class_of_own_table tx Htx).
    destruct (get y "id") as [[jx| | | |]|]; try reflexivity.
    destruct (mem_obj (cls_name tx, jx) s) eqn:E; [|reflexivity].
    apply mem_obj_In in E. exfalso. apply Hxn.
    exact (delete_set_classes db names (cls_name c, i) (cls_name tx, jx) Hcl Hcn E). }
  assert (Hu : forall y, unlinked (unlinks db s) (cls_tablename tx, y) = false).
  { intro y. destruct (unlinked (unlinks db s) (cls_tablename tx, y)) eqn:E; [|reflexivity].
    apply unlinked_association in E. cbn [fst] in E.
    rewrite (class_of_own_table tx Htx) in E. discriminate. }
  split.
  - intro H. rewrite Edb in H. apply filter_In in H. destruct H as [H _].
    unfold delete_kept in H. apply in_map_iff in H. destruct H as [[t0 x0] [E H]].
    apply filter_In in H. destruct H as [H _]. apply filter_In in H. destruct H as [H _].
    assert (Et : t0 = cls_tablename tx).
    { pose proof (detach_table env (detachments db s) (t0, x0)) as Ht.
      rewrite E in Ht. cbn [fst] in Ht. now symmetry. }
    subst t0. rewrite (detach_untouched env db s _ x0 Hnd) in E.
    now rewrite <- E.
  - intro H. rewrite Edb. apply filter_In. split.
    + unfold delete_kept. apply in_map_iff. exists (cls_tablename tx, x). split.
      * exact (detach_untouched env db s _ x Hnd).
      * apply filter_In. split; [|now rewrite Hu].
        apply filter_In. split; [exact H|now rewrite Hm].
    + now rewrite (no_db_cascade_spared _ (cls_tablename tx, x) Hnc).
Qed.

Lemma delete_spares_other_classes_witness :
  exists x, get x "id" = Some (VStr "u1") /\ In ("users", x) ledger /\
            In ("users", x) (the_db (delete (env_at 50) ledger SocketModel "s1")).
Proof.
  assert (Hx : exists x, In ("users", x) ledger /\ get x "id" = Some (VStr "u1")).
  { find_row. }
  destruct Hx as [x [Hx Hid]].
  exists x. split; [exact Hid|]. split; [exact Hx|].
  apply (delete_spares_other_classes SocketModel UserModel
           ["SocketModel"; "TaskModel"; "CallModel"; "EventModel"]
           (env_at 50) ledger (the_db (delete (env_at 50) ledger SocketModel "s1"))
           "s1" x).
  - apply in_models. vm_compute. reflexivity.
  - apply in_models. vm_compute. reflexivity.
  - vm_compute. reflexivity.
  - left. reflexivity.
  - intros [H|[H|[H|[H|[]]]]]; discriminate H.
  - vm_compute. reflexivity.
  - vm_compute. reflexivity.
  - exact Hx.
Defined.

(** *** Create, then delete *)

Lemma filter_all {A : Type} (p : A -> bool) (l : list A) :
  (forall x, In x l -> p x = true) -> filter p l = l.
Proof.
  induction l as [|a l IH]; intro H; [reflexivity|]. simpl.
  rewrite (H a (or_introl eq_refl)). f_equal. apply IH. intros x Hx. apply H. now right.
Qed.

Lemma filter_none {A : Type} (p : A -> bool) (l : list A) :
  (forall x, In x l -> p x = false) -> filter p l = [].
Proof.
  induction l as [|a l IH]; intro H; [reflexivity|]. simpl.
  rewrite (H a (or_introl eq_refl)). apply IH. intros x Hx. apply H. now right.
Qed.

Lemma map_fixed {A : Type} (f : A -> A) (l : list A) :
  (forall x, f x = x) -> map f l = l.
Proof.
  intro H. induction l as [|a l IH]; [reflexivity|]. simpl. now rewrite H, IH.
Qed.

Lemma standalone_detaches_nothing (db : DB) (c : Class) (i : string) :
  find_class (cls_name c) = Some c -> standalone c = true ->
  delete_set db (cls_name c, i) = [(cls_name c, i)] /\
  detachments db [(cls_name c, i)] = [] /\
  unlinks db [(cls_name c, i)] = [].
Proof.
  intros Hc Hs. unfold standalone in Hs. rewrite forallb_forall in Hs.
  split; [|split].
  - apply delete_set_alone; [exact Hc|]. apply forallb_forall. intros nr Hnr.
    specialize (Hs nr Hnr). apply negb_true_iff.
    destruct (participates (snd nr)); [|apply andb_false_r].
    cbn [negb orb] in Hs. apply andb_true_iff in Hs. destruct Hs as [Hs _].
    apply negb_true_iff in Hs. now rewrite Hs.
  - unfold detachments. cbn [flat_map fst snd]. rewrite Hc, app_nil_r.
    apply flat_map_nil. intros row _. apply flat_map_nil. intros nr Hnr.
    specialize (Hs nr Hnr). destruct (participates (snd nr)); [|reflexivity].
    cbn [negb orb] in Hs. apply andb_true_iff in Hs. destruct Hs as [_ Hs].
    destruct (find_class (rel_target (snd nr))) as [tc|]; [|reflexivity].
    destruct (join_of c (snd nr) tc); try discriminate.
    apply flat_map_nil. intros j _. cbn [foreign_cols map].
    now destruct (mem_obj _ _).
  - unfold unlinks. cbn [flat_map fst snd]. rewrite Hc, app_nil_r.
    apply flat_map_nil. intros row _. apply flat_map_nil. intros nr Hnr.
    specialize (Hs nr Hnr). destruct (participates (snd nr)); [|reflexivity].
    cbn [negb orb] in Hs. apply andb_true_iff in Hs. destruct Hs as [_ Hs].
    destruct (find_class (rel_target (snd nr))) as [tc|]; [|reflexivity].
    destruct (join_of c (snd nr) tc); try discriminate. reflexivity.
Qed.

Lemma detach_nothing (env : Env) (e : string * Row) : detach env [] e = e.
Proof.
  unfold detach. destruct (class_of_table (fst e)); [|reflexivity].
  destruct (get (snd e) "id") as [[j| | | |]|]; reflexivity.
Qed.

(** In a store whose references are valid, no row points at a record
    that [check_row] accepts as new. *)
Lemma nothing_points_at_new (db : DB) (c : Class) (row : Row) (i : string)
  (e : string * Row) (fk : string * (string * string) * option string) :
  In c models -> references_valid db ->
  check_row db (columns c) (table_rows db (cls_tablename c)) row = None ->
  get row "id" = Some (VStr i) ->
  In e db -> In fk (table_fks (fst e)) ->
  points_into [(cls_tablename c, row)] e fk = false.
Proof.
  intros Hc Hrv Hchk Hid He Hfk. destruct fk as [[k [t' c']] od].
  destruct e as [t r]. cbn [fst] in Hfk.
  unfold points_into. cbn [existsb fst snd]. rewrite orb_false_r.
  apply not_true_is_false. intro H. apply andb_true_iff in H. destruct H as [Ht Hv].
  apply String.eqb_eq in Ht. subst t'.
  destruct (fk_steady t k _ c' od Hfk) as [-> _]. rewrite Hid in Hv.
  destruct (get r k) as [v|] eqn:Ek; [|discriminate Hv].
  cbn [sql_eqb] in Hv. apply value_eqb_eq in Hv. subst v.
  destruct (Hrv t r k _ "id" od (VStr i) He Hfk Ek) as [r' [Hr' Hr'id]].
  exact (insert_fresh_id (env_at 0) db c row r' (VStr i) Hc Hchk Hid Hr' Hr'id).
Qed.

(** X18: create, then delete, gives the store back.  For a class whose
    relationships only follow its own foreign keys without the [delete]
    cascade (settings, actions, containers, jobs, gates, work records,
    workers, queues, logs, logins, privileges), deleting a record right
    after it was created succeeds and leaves the store exactly as it was
    before the create, provided the references of the store were valid. *)
Theorem create_then_delete (c : Class) (env env' : Env) (db db1 : DB) (kw row : Row)
  (i : string) :
  In c models -> standalone c = true -> references_valid db ->
  insert env db c kw = Ok db1 ->
  In (cls_tablename c, row) db1 -> ~ In (cls_tablename c, row) db ->
  get row "id" = Some (VStr i) ->
  delete env' db1 c i = Ok db.
Proof.
  intros Hc Hs Hrv Hins Hrow Hnew Hid.
  destruct (insert_ok env db db1 c kw Hins) as [-> Hchk].
  apply in_app_or in Hrow. destruct Hrow as [Hrow|[E|[]]]; [contradiction|].
  injection E as E. rewrite E in Hchk |- *. clear E kw Hins Hnew.
  pose proof (find_own_class c Hc) as Hfc.
  set (new := (cls_tablename c, row)).
  set (db1 := (db ++ [new])%list).
  destruct (standalone_detaches_nothing db1 c i Hfc Hs) as [Eset [Edet Eunl]].
  assert (Hmdb : forall e, In e db -> marked [(cls_name c, i)] e = false).
  { intros [t r] He. unfold marked. cbn [fst snd].
    destruct (class_of_table t) as [c'|] eqn:Ec; [|reflexivity].
    destruct (get r "id") as [[j| | | |]|] eqn:Er; try reflexivity.
    apply not_true_is_false. intro H. apply mem_obj_In in H.
    destruct H as [H|[]]. injection H as Hn Hj. subst j.
    destruct (class_of_table_sound _ _ Ec) as [Hc' Ht].
    assert (c' = c).
    { pose proof (find_own_class c' Hc') as H'. rewrite <- Hn, Hfc in H'.
      now injection H'. }
    subst c' t.
    exact (insert_fresh_id env db c row r (VStr i) Hc Hchk Hid He Er). }
  assert (Hmnew : marked [(cls_name c, i)] new = true).
  { unfold marked, new. cbn [fst snd]. rewrite (class_of_own_table c Hc), Hid.
    apply mem_obj_In. now left. }
  assert (Egone : filter (marked [(cls_name c, i)]) db1 = [new]).
  { unfold db1. rewrite filter_app, (filter_none _ db Hmdb). cbn [filter app].
    now rewrite Hmnew. }
  assert (Ekept : filter (fun e => negb (marked [(cls_name c, i)] e)) db1 = db).
  { unfold db1. rewrite filter_app. cbn [filter]. rewrite Hmnew. cbn [negb].
    rewrite app_nil_r. apply filter_all. intros e He. now rewrite (Hmdb e He). }
  assert (Hpt : forall e, In e db -> forall fk, In fk (table_fks (fst e)) ->
                 points_into [new] e fk = false).
  { intros e He fk Hfk.
    exact (nothing_points_at_new db c row i e fk Hc Hrv Hchk Hid He Hfk). }
  assert (Hcas : forall e, In e db -> db_cascaded [new] e = false).
  { intros e He. unfold db_cascaded. apply not_true_is_false. intro H.
    apply existsb_exists in H. destruct H as [fk [Hfk H]].
    destruct (snd fk); [|discriminate]. apply andb_true_iff in H.
    rewrite (Hpt e He fk Hfk) in H. destruct H; discriminate. }
  assert (Hdan : forall e, In e db -> dangling [new] e = false).
  { intros e He. unfold dangling. apply not_true_is_false. intro H.
    apply existsb_exists in H. destruct H as [fk [Hfk H]].
    rewrite (Hpt e He fk Hfk) in H. discriminate. }
  unfold delete. fold db1. rewrite Eset, Edet, Eunl. cbn [find].
  rewrite Egone, Ekept.
  rewrite (filter_all (fun e => negb (unlinked [] e)) db) by reflexivity.
  rewrite (map_fixed (detach env' []) db (detach_nothing env')).
  rewrite (filter_none (db_cascaded [new]) db Hcas). cbn [app].
  rewrite (filter_all (fun e => negb (db_cascaded [new] e)) db)
    by (intros e He; now rewrite (Hcas e He)).
  destruct (find (dangling [new]) db) as [e|] eqn:Ef; [|reflexivity].
  apply find_some in Ef. destruct Ef as [He Hd]. rewrite (Hdan e He) in Hd.
  discriminate.
Qed.

Lemma standalone_classes :
  map cls_name (filter standalone models) =
  ["LogModel"; "PrivilegeModel"; "ActionModel"; "WorkerModel"; "ContainerModel";
   "JobModel"; "WorkModel"; "SettingsModel"; "GateModel"; "QueueModel"; "LoginModel"].
Proof. by_computation. Qed.

Lemma create_then_delete_witness :
  delete (env_at 61)
         (the_db (insert (env_at 60) topology GateModel
                    [("id", VStr "gt1"); ("name", VStr "gate"); ("task_id", VStr "t1")]))
         GateModel "gt1" = Ok topology.
Proof.
  assert (Hrow : exists row,
            In ("gate", row)
               (the_db (insert (env_at 60) topology GateModel
                  [("id", VStr "gt1"); ("name", VStr "gate"); ("task_id", VStr "t1")])) /\
            get row "id" = Some (VStr "gt1") /\ get row "task_id" = Some (VStr "t1")).
  { find_row. }
  destruct Hrow as [row [Hrow [Hid _]]].
  apply (create_then_delete GateModel (env_at 60) (env_at 61) topology
           (the_db (insert (env_at 60) topology GateModel
              [("id", VStr "gt1"); ("name", VStr "gate"); ("task_id", VStr "t1")]))
           [("id", VStr "gt1"); ("name", VStr "gate"); ("task_id", VStr "t1")] row "gt1").
  - apply in_models. vm_compute. reflexivity.
  - vm_compute. reflexivity.
  - apply references_ok_sound. vm_compute. reflexivity.
  - vm_compute. reflexivity.
  - exact Hrow.
  - intro H. vm_compute in H.
    repeat (destruct H as [H|H]; [discriminate H|]). exact H.
  - exact Hid.
Defined.

(** *** Stored rows fit their columns *)

Lemma models_onupdate_stamps (c : Class) : In c models -> onupdate_stamps c = true.
Proof.
  intro Hin. unfold models in Hin. cbn [In] in Hin.
  repeat (destruct Hin as [<-|Hin]; [vm_compute; reflexivity|]). contradiction.
Qed.

(** A detached row still fits: the columns set to NULL are nullable,
    since the delete was not blocked. *)
Lemma detach_conforms (env : Env) (db : DB) (s : list obj) (c : Class) (t : string)
  (x : Row) :
  In c models -> class_of_table t = Some c ->
  (forall d, In d (detachments db s) -> blocked d = false) ->
  conforms (columns c) x = true ->
  conforms (columns c) (snd (detach env (detachments db s) (t, x))) = true.
Proof.
  intros Hc Ht Hnb Hx. unfold detach. cbn [fst snd]. rewrite Ht.
  destruct (get x "id") as [[j| | | |]|]; try exact Hx.
  destruct (detached_cols (detachments db s) t j) as [|k0 ks] eqn:Ek; [exact Hx|].
  cbn [snd]. pose proof (models_columns_distinct c Hc) as Hd.
  pose proof (models_onupdate_stamps c Hc) as Hst.
  unfold onupdate_stamps in Hst. rewrite forallb_forall in Hst.
  unfold conforms in *. rewrite forallb_forall in Hx. apply forallb_forall.
  intros [k col] Hkc. cbn [fst snd]. specialize (Hx (k, col) Hkc).
  specialize (Hst (k, col) Hkc). cbn [fst snd] in Hx, Hst.
  rewrite updated_row_get by exact Hd. rewrite (lookup_of_In k col _ Hd Hkc).
  destruct (in_dec string_dec k (k0 :: ks)) as [Hin|Hnin].
  - rewrite (lookup_nulls_present k (k0 :: ks) Hin).
    rewrite <- Ek in Hin. apply detached_cols_In in Hin.
    pose proof (Hnb _ Hin) as Hb. unfold blocked in Hb.
    rewrite Ht, (lookup_of_In k col _ Hd Hkc) in Hb. now apply negb_false_iff in Hb.
  - rewrite (lookup_nulls_absent k (k0 :: ks) Hnin).
    destruct (arg_onupdate (col_args col)) as [[sql| |v]|]; try discriminate Hst.
    + cbn [eval_default]. exact (stamp_type_ok _ 0 (now env) Hst).
    + exact Hx.
Qed.

(** X19: what is stored always fits the declared columns.  If every row
    of the store holds a value in each required column, one of the
    declared values in each [Enum] column and at most [n] characters in
    each [String(n)] column, then so does every row after a create, an
    update or a delete that goes through. *)
Theorem stored_rows_conform (c : Class) (env : Env) (db db' : DB) :
  In c models -> all_conform db = true ->
  (forall kw, insert env db c kw = Ok db' -> all_conform db' = true) /\
  (forall i changes, update env db c i changes = Ok db' -> all_conform db' = true) /\
  (forall i, delete env db c i = Ok db' -> all_conform db' = true).
Proof.
  intros Hc Hall. unfold all_conform in Hall. rewrite forallb_forall in Hall.
  split; [|split].
  - intros kw Hins. destruct (insert_ok env db db' c kw Hins) as [-> Hchk].
    unfold all_conform. apply forallb_forall. intros e He.
    apply in_app_or in He. destruct He as [He|[<-|[]]]; [exact (Hall e He)|].
    cbn [fst snd]. rewrite (class_of_own_table c Hc).
    exact (check_row_conforms _ _ _ _ Hchk).
  - intros i changes Hup.
    destruct (update_cases env db db' c i changes Hup)
      as [old [_ [_ [[_ ->]|[_ [Hchk [_ ->]]]]]]].
    + unfold all_conform. now apply forallb_forall.
    + unfold all_conform. apply forallb_forall. intros e He.
      apply in_app_or in He. destruct He as [He|[<-|[]]].
      * apply filter_In in He. exact (Hall e (proj1 He)).
      * cbn [fst snd]. rewrite (class_of_own_table c Hc).
        exact (check_row_conforms _ _ _ _ Hchk).
  - intros i Hok. destruct (delete_shape env db db' c i Hok) as [-> _].
    unfold all_conform. apply forallb_forall. intros e He.
    apply filter_In in He. destruct He as [He _]. unfold delete_kept in He.
    apply in_map_iff in He. destruct He as [[t x] [<- He]].
    apply filter_In in He. destruct He as [He _].
    apply filter_In in He. destruct He as [He _].
    specialize (Hall (t, x) He). cbn [fst snd] in Hall.
    rewrite detach_table. cbn [fst].
    destruct (class_of_table t) as [c0|] eqn:Ec; [|reflexivity].
    exact (detach_conforms env db _ c0 t x (proj1 (class_of_table_sound _ _ Ec)) Ec
             (delete_unblocked env db _ c i Hok) Hall).
Qed.

Lemma stored_rows_conform_witness :
  all_conform (the_db (delete (env_at 50) topology TaskModel "t1")) = true.
Proof.
  apply (proj2 (proj2 (stored_rows_conform TaskModel (env_at 50) topology
                         (the_db (delete (env_at 50) topology TaskModel "t1"))
                         (in_models TaskModel eq_refl) eq_refl)) "t1").
  vm_compute. reflexivity.
Defined.

(** *** The two sides of a relationship *)

Lemma value_eqb_sym (a b : value) : value_eqb a b = value_eqb b a.
Proof.
  destruct a, b; simpl; try reflexivity.
  - apply String.eqb_sym.
  - now destruct b, b0.
  - apply Z.eqb_sym.
  - apply Z.eqb_sym.
  - apply String.eqb_sym.
Qed.

Lemma sql_eqb_sym (a b : option value) : sql_eqb a b = sql_eqb b a.
Proof. destruct a, b; simpl; try reflexivity. apply value_eqb_sym. Qed.

Lemma mirror_joined (db : DB) (j j' : Join) (o x : Row) :
  mirror j j' = true -> joined db j o x = joined db j' x o.
Proof.
  destruct j as [conds|st oc ok tcol tk|lc rk|rc lk|];
    destruct j' as [conds'|st' oc' ok' tcol' tk'|lc' rk'|rc' lk'|];
    simpl; intro H; try discriminate.
  - repeat (apply andb_true_iff in H; destruct H as [H ?]).
    repeat match goal with E : String.eqb _ _ = true |- _ =>
      apply String.eqb_eq in E end.
    subst. apply existsb_agree. intros a _. apply andb_comm.
  - apply andb_true_iff in H. destruct H as [H1 H2].
    apply String.eqb_eq in H1, H2. subst. apply sql_eqb_sym.
  - apply andb_true_iff in H. destruct H as [H1 H2].
    apply String.eqb_eq in H1, H2. subst. apply sql_eqb_sym.
Qed.

(** The relationships declared with [back_populates] or [backref], and
    whether their two sides read the same link: all do but [EventModel.call],
    which follows [event.call_id] while [CallModel.events] reads
    [calls_events]. *)
Lemma two_sided_relationships :
  two_sided =
  [ ("FileModel", "versions", "VersionModel", "file", true);
    ("AgentModel", "workers", "WorkerModel", "agent", true);
    ("WorkerModel", "deployment", "DeploymentModel", "worker", true);
    ("DeploymentModel", "worker", "WorkerModel", "deployment", true);
    ("ProcessorModel", "user", "UserModel", "processor", true);
    ("ProcessorModel", "plugs", "PlugModel", "processor", true);
    ("ProcessorModel", "deployments", "DeploymentModel", "processor", true);
    ("ProcessorModel", "sockets", "SocketModel", "processor", true);
    ("NetworkModel", "schedulers", "SchedulerModel", "network", true);
    ("NetworkModel", "queues", "QueueModel", "network", true);
    ("NetworkModel", "nodes", "NodeModel", "network", true);
    ("CallModel", "socket", "SocketModel", "call", true);
    ("SchedulerModel", "nodes", "NodeModel", "scheduler", true);
    ("NodeModel", "agent", "AgentModel", "node", true);
    ("ArgumentModel", "plugs", "PlugModel", "argument", true);
    ("TaskModel", "sockets", "SocketModel", "task", true);
    ("TaskModel", "arguments", "ArgumentModel", "task", true);
    ("EventModel", "call", "CallModel", "events", false);
    ("SocketModel", "task", "TaskModel", "sockets", true);
    ("SocketModel", "call", "CallModel", "socket", true);
    ("PlugModel", "source", "SocketModel", "sourceplugs", true);
    ("PlugModel", "target", "SocketModel", "targetplugs", true) ].
Proof. by_computation. Qed.

Lemma first_all {A : Type} (l : list A) : length l <= 1 -> firstn 1 l = l.
Proof.
  destruct l as [|a [|b l]]; intro H; try reflexivity.
  cbn [length] in H. apply Nat.succ_le_mono in H. inversion H.
Qed.

(** X20: the two sides of a relationship show the same link.  When a
    relationship [r] of class [c] and a relationship [r'] of its target
    read the same foreign key or the same association table, a stored
    record [x] is the one, or among those, [r] loads for [o] exactly when
    [o] is the one, or among those, [r'] loads for [x]: a socket is in
    [task.sockets] exactly when the task is its [socket.task], a plug is
    in [socket.sourceplugs] exactly when the socket is its [plug.source].
    A side that holds one record shows the first row that matches; the
    statement is for the stores in which no second row matches it. *)
Theorem two_sides_agree (c tc : Class) (r r' : RelDecl) (db : DB) (o x : Row) :
  find_class (rel_target r) = Some tc ->
  find_class (rel_target r') = Some c ->
  mirror (join_of c r tc) (join_of tc r' c) = true ->
  In (cls_tablename c, o) db -> In (cls_tablename tc, x) db ->
  (scalar r (join_of c r tc) = true -> length (matching db c r tc o) <= 1) ->
  (scalar r' (join_of tc r' c) = true -> length (matching db tc r' c x) <= 1) ->
  (In x (related db c r o) <-> In o (related db tc r' x)).
Proof.
  intros Htc Hc Hm Ho Hx H1 H2.
  assert (E1 : related db c r o = matching db c r tc o).
  { unfold related. rewrite Htc. destruct (scalar r (join_of c r tc)); [|reflexivity].
    apply first_all. now apply H1. }
  assert (E2 : related db tc r' x = matching db tc r' c x).
  { unfold related. rewrite Hc. destruct (scalar r' (join_of tc r' c)); [|reflexivity].
    apply first_all. now apply H2. }
  rewrite E1, E2, !matching_In, (mirror_joined db _ _ o x Hm). tauto.
Qed.

Lemma two_sides_agree_witness :
  exists r r' o x,
    lookup "sockets" (all_relationships TaskModel) = Some r /\
    lookup "task" (all_relationships SocketModel) = Some r' /\
    In ("task", o) topology /\ In ("socket", x) topology /\
    get o "id" = Some (VStr "t1") /\ get x "id" = Some (VStr "s1") /\
    scalar r' (join_of SocketModel r' TaskModel) = true /\
    (In x (related topology TaskModel r o) <-> In o (related topology SocketModel r' x)).
Proof.
  assert (H : exists r r' o x,
            lookup "sockets" (all_relationships TaskModel) = Some r /\
            lookup "task" (all_relationships SocketModel) = Some r' /\
            In ("task", o) topology /\ In ("socket", x) topology /\
            get o "id" = Some (VStr "t1") /\ get x "id" = Some (VStr "s1") /\
            scalar r' (join_of SocketModel r' TaskModel) = true /\
            find_class (rel_target r) = Some SocketModel /\
            find_class (rel_target r') = Some TaskModel /\
            mirror (join_of TaskModel r SocketModel) (join_of SocketModel r' TaskModel)
              = true /\
            scalar r (join_of TaskModel r SocketModel) = false /\
            length (matching topology SocketModel r' TaskModel x) = 1).
  { do 4 eexists.
    split; [vm_compute; reflexivity|]. split; [vm_compute; reflexivity|].
    split; [unfold topology; do 2 right; left; reflexivity|].
    split; [unfold topology; do 3 right; left; reflexivity|].
    repeat split; vm_compute; reflexivity. }
  destruct H as [r [r' [o [x [Hr [Hr' [Ho [Hx [Hoid [Hxid [Hs' [Htc [Hc [Hm [Hs Hl]]]]]]]]]]]]]]].
  exists r, r', o, x. split; [exact Hr|]. split; [exact Hr'|]. split; [exact Ho|].
  split; [exact Hx|]. split; [exact Hoid|]. split; [exact Hxid|]. split; [exact Hs'|].
  apply (two_sides_agree TaskModel SocketModel r r' topology o x Htc Hc Hm Ho Hx).
  - intro H. rewrite Hs in H. discriminate H.
  - intros _. rewrite Hl. apply le_n.
Defined.

(** * The column DDL hook *)

Lemma replace_skipping_drop (old new : string) (n : nat) (s : string) :
  replace_skipping old new n s = replace_skipping old new 0 (drop n s).
Proof.
  revert s. induction n as [|n IH]; intro s.
  - now destruct s.
  - destruct s as [|a rest]; [reflexivity|]. cbn [replace_skipping drop]. apply IH.
Qed.

Lemma drop_length (n : nat) (s : string) : String.length (drop n s) <= String.length s.
Proof.
  revert s. induction n as [|n IH]; intro s; [destruct s; apply le_n|].
  destruct s as [|a rest]; [apply le_n|]. cbn [drop String.length].
  apply Nat.le_trans with (String.length rest); [apply IH|apply Nat.le_succ_diag_r].
Qed.

Lemma use_identity_step (a : ascii) (rest : string) :
  use_identity (String a rest) =
  if String.prefix "SERIAL" (String a rest)
  then "INT GENERATED BY DEFAULT AS IDENTITY" ++ use_identity (drop 5 rest)
  else String a (use_identity rest).
Proof.
  unfold use_identity, str_replace. cbn [replace_skipping].
  destruct (String.prefix "SERIAL" (String a rest)); [|reflexivity].
  f_equal. apply (replace_skipping_drop _ _ 5 rest).
Qed.

Lemma prefix_empty (s : string) : String.prefix "" s = true.
Proof. now destruct s. Qed.

(** The replacement text starts no end of [SERIAL] and holds no [SERIAL]. *)
Lemma identity_apart :
  apart_from "INT GENERATED BY DEFAULT AS IDENTITY" "ERIAL".
Proof. repeat split. Qed.

Lemma identity_then (u : string) :
  contains "SERIAL" ("INT GENERATED BY DEFAULT AS IDENTITY" ++ u) = contains "SERIAL" u.
Proof. reflexivity. Qed.

(** What the output starts with, as far as it is part of [SERIAL], the
    input started with. *)
Lemma head_copied (w : string) :
  apart_from "INT GENERATED BY DEFAULT AS IDENTITY" w ->
  forall t, String.prefix w (use_identity t) = true -> String.prefix w t = true.
Proof.
  induction w as [|c w IH]; intros Hw t H; [apply prefix_empty|].
  destruct Hw as [Hnew Hw'].
  destruct t as [|b t]; [exact H|].
  rewrite use_identity_step in H.
  destruct (String.prefix "SERIAL" (String b t)).
  - rewrite Hnew in H. discriminate.
  - cbn [String.prefix] in H |- *. destruct (ascii_dec c b); [|discriminate].
    exact (IH Hw' t H).
Qed.

Lemma use_identity_clean_upto (n : nat) :
  forall text, String.length text <= n -> contains "SERIAL" (use_identity text) = false.
Proof.
  induction n as [|n IH]; intros text Hl.
  - destruct text; [reflexivity|]. cbn [String.length] in Hl. inversion Hl.
  - destruct text as [|a rest]; [reflexivity|]. cbn [String.length] in Hl.
    apply le_S_n in Hl. rewrite use_identity_step.
    destruct (String.prefix "SERIAL" (String a rest)) eqn:Ep.
    + rewrite identity_then. apply IH.
      apply Nat.le_trans with (String.length rest); [apply drop_length|exact Hl].
    + cbn [contains]. rewrite (IH rest Hl), orb_false_r.
      apply not_true_is_false. intro H.
      cbn [String.prefix] in H, Ep.
      destruct (ascii_dec "S" a); [|discriminate].
      rewrite (head_copied "ERIAL" identity_apart rest H) in Ep. discriminate.
Qed.

Lemma use_identity_fixed (text : string) :
  contains "SERIAL" text = false -> use_identity text = text.
Proof.
  induction text as [|a rest IH]; intro H; [reflexivity|].
  cbn [contains] in H. apply orb_false_iff in H. destruct H as [Hp Hc].
  rewrite use_identity_step, Hp. f_equal. exact (IH Hc).
Qed.

(** X21: the column DDL that [use_identity] returns never holds [SERIAL];
    a text without [SERIAL] comes back unchanged; so running the hook on
    its own result changes nothing. *)
Theorem use_identity_leaves_no_serial (text : string) :
  contains "SERIAL" (use_identity text) = false /\
  (contains "SERIAL" text = false -> use_identity text = text) /\
  use_identity (use_identity text) = use_identity text.
Proof.
  assert (H : contains "SERIAL" (use_identity text) = false)
    by exact (use_identity_clean_upto (String.length text) text (le_n _)).
  split; [exact H|]. split; [apply use_identity_fixed|].
  exact (use_identity_fixed _ H).
Qed.

Lemma use_identity_leaves_no_serial_witness :
  use_identity "id INTEGER NOT NULL" = "id INTEGER NOT NULL" /\
  contains "SERIAL" (use_identity "id BIGSERIAL NOT NULL") = false.
Proof.
  split.
  - apply (proj1 (proj2 (use_identity_leaves_no_serial "id INTEGER NOT NULL"))).
    vm_compute. reflexivity.
  - exact (proj1 (use_identity_leaves_no_serial "id BIGSERIAL NOT NULL")).
Defined.

Lemma append_assoc (a b c : string) : ((a ++ b) ++ c = a ++ (b ++ c))%string.
Proof. induction a as [|x a IH]; [reflexivity|]. cbn [append]. now rewrite IH. Qed.

Lemma append_length (a b : string) :
  String.length (a ++ b) = String.length a + String.length b.
Proof. induction a as [|x a IH]; [reflexivity|]. cbn [append String.length]. now rewrite IH. Qed.

Lemma prefix_app_long (pat u v : string) :
  String.length pat <= String.length u ->
  String.prefix pat (u ++ v) = String.prefix pat u.
Proof.
  revert u. induction pat as [|c pat IH]; intros u Hl.
  - now rewrite !prefix_empty.
  - destruct u as [|b u]; [cbn [String.length] in Hl; inversion Hl|].
    cbn [append String.prefix]. destruct (ascii_dec c b); [|reflexivity].
    apply IH. cbn [String.length] in Hl. now apply le_S_n.
Qed.

(** X22: [use_identity] rewrites the first [SERIAL] where it stands and
    goes on behind it: for a text [p ++ "SERIAL" ++ q] in which no
    [SERIAL] starts inside [p], the result is [p], the IDENTITY clause,
    and the result for [q].  [BIGSERIAL] becomes [BIGINT GENERATED BY
    DEFAULT AS IDENTITY]. *)
Theorem use_identity_rewrites_in_place (p q : string) :
  contains "SERIAL" (p ++ "SERIA") = false ->
  use_identity (p ++ "SERIAL" ++ q) =
  (p ++ "INT GENERATED BY DEFAULT AS IDENTITY" ++ use_identity q)%string.
Proof.
  induction p as [|a p IH]; intro H.
  - cbn [append]. rewrite use_identity_step.
    change (String.prefix "SERIAL" (String "S" (String "E" (String "R" (String "I"
              (String "A" (String "L" q)))))))
      with (String.prefix "" q).
    rewrite prefix_empty. reflexivity.
  - cbn [append] in H |- *. cbn [contains] in H.
    apply orb_false_iff in H. destruct H as [Hp Hc].
    rewrite use_identity_step.
    replace (String a (p ++ String "S" (String "E" (String "R" (String "I"
               (String "A" (String "L" q)))))))
      with (String a (p ++ "SERIA") ++ String "L" q)%string
      by (cbn [append]; f_equal; now rewrite append_assoc).
    rewrite prefix_app_long, Hp.
    + f_equal. exact (IH Hc).
    + cbn [String.length]. rewrite append_length. cbn [String.length].
      rewrite Nat.add_comm. apply le_n_S. cbn [Nat.add].
      do 5 apply le_n_S. apply Nat.le_0_l.
Qed.

Lemma use_identity_rewrites_in_place_witness :
  use_identity "id BIGSERIAL NOT NULL" =
  "id BIGINT GENERATED BY DEFAULT AS IDENTITY NOT NULL".
Proof.
  apply (use_identity_rewrites_in_place "id BIG" " NOT NULL").
  vm_compute. reflexivity.
Defined.

(** * The JSON encoder *)

Lemma encode_field_ok (data : pyvalue) : json_ok (encode_field data) = true.
Proof.
  unfold encode_field.
  destruct (json_ok match data with PDatetime shown => PStr shown | _ => data end) eqn:E;
    [exact E|reflexivity].
Qed.

(** X23: what [AlchemyEncoder.default] returns for a model can always be
    encoded.  For an object of a declarative class the encoder returns a
    dict whose keys are the names of [dir(obj)] that do not start with an
    underscore and are not [metadata], in their order, and every value of
    the dict is one the stock encoder takes, so that encoding a model
    never ends in a [TypeError]; for any other object it raises
    [TypeError]. *)
Theorem encoder_result_encodable (obj : pyobject) :
  (is_declarative obj = true ->
   exists fields,
     AlchemyEncoder.default obj = Returned (PDict fields) /\
     json_ok (PDict fields) = true /\
     map fst fields = filter public (map fst (dir obj)) /\
     forall f, In f (map fst fields) ->
       String.prefix "_" f = false /\ f <> "metadata") /\
  (is_declarative obj = false -> AlchemyEncoder.default obj = Raised "TypeError").
Proof.
  unfold AlchemyEncoder.default. split; intro Hd; rewrite Hd; [|reflexivity].
  eexists. split; [reflexivity|].
  assert (Hk : forall l : list (string * pyvalue),
            map fst (map (fun fd => (fst fd, encode_field (snd fd)))
                         (filter (fun fd => public (fst fd)) l))
            = filter public (map fst l)).
  { induction l as [|[f d] l IH]; [reflexivity|]. cbn [filter map fst].
    destruct (public f); cbn [map fst]; now rewrite IH. }
  split; [|split].
  - cbn [json_ok]. apply forallb_forall. intros [f d] Hin.
    apply in_map_iff in Hin. destruct Hin as [[f0 d0] [[= <- <-] _]].
    apply encode_field_ok.
  - apply Hk.
  - intros f Hf. rewrite Hk in Hf. apply filter_In in Hf. destruct Hf as [_ Hp].
    unfold public in Hp. apply andb_true_iff in Hp. destruct Hp as [H1 H2].
    apply negb_true_iff in H1, H2. split; [exact H1|].
    now apply String.eqb_neq.
Qed.

Lemma encoder_result_encodable_witness :
  exists fields,
    AlchemyEncoder.default (mkObject true "SettingsModel"
               [("__tablename__", PStr "settings"); ("_sa_instance_state", PObject "InstanceState");
                ("created", PDatetime "2024-01-01 00:00:00"); ("enabled", PNone);
                ("metadata", PObject "MetaData"); ("name", PStr "k");
                ("registry", PObject "registry"); ("value", PStr "v")])
    = Returned (PDict fields) /\
    json_ok (PDict fields) = true /\
    map fst fields = ["created"; "enabled"; "name"; "registry"; "value"].
Proof.
  destruct (proj1 (encoder_result_encodable
              (mkObject true "SettingsModel"
                 [("__tablename__", PStr "settings");
                  ("_sa_instance_state", PObject "InstanceState");
                  ("created", PDatetime "2024-01-01 00:00:00"); ("enabled", PNone);
                  ("metadata", PObject "MetaData"); ("name", PStr "k");
                  ("registry", PObject "registry"); ("value", PStr "v")])) eq_refl)
    as [fields [H1 [H2 [H3 _]]]].
  exists fields. split; [exact H1|]. split; [exact H2|]. exact H3.
Defined.

Lemma lookup_encoded (f : string) (d : pyvalue) (l : list (string * pyvalue)) :
  NoDup (map fst l) -> In (f, d) l -> public f = true ->
  lookup f (map (fun fd => (fst fd, encode_field (snd fd)))
                (filter (fun fd => public (fst fd)) l))
  = Some (encode_field d).
Proof.
  intros Hn Hin Hp. induction l as [|[f0 d0] l IH]; [destruct Hin|].
  cbn [map fst] in Hn. apply NoDup_cons_iff in Hn. destruct Hn as [Hf0 Hn].
  cbn [filter fst]. destruct Hin as [[= -> ->]|Hin].
  - rewrite Hp. cbn [map lookup fst snd]. now rewrite String.eqb_refl.
  - assert (Hne : f <> f0).
    { intros ->. apply Hf0. apply in_map_iff. now exists (f0, d). }
    destruct (public f0); [|exact (IH Hn Hin)].
    cbn [map lookup fst snd]. destruct (String.eqb_spec f f0); [contradiction|].
    exact (IH Hn Hin).
Qed.

(** X24: what becomes of each attribute.  In the dict the encoder
    returns for a model, a public attribute whose value the stock encoder
    takes keeps its value, a [datetime] is given as its text, and every
    other value, a related model or a list that holds one among them, is
    given as [None]; underscore names and [metadata] are absent. *)
Theorem encoder_field_values (obj : pyobject) (fields : list (string * pyvalue))
  (f : string) (d : pyvalue) :
  NoDup (map fst (dir obj)) ->
  AlchemyEncoder.default obj = Returned (PDict fields) ->
  In (f, d) (dir obj) ->
  (public f = false -> lookup f fields = None) /\
  (public f = true ->
     (json_ok d = true -> lookup f fields = Some d) /\
     (forall shown, d = PDatetime shown -> lookup f fields = Some (PStr shown)) /\
     (json_ok d = false -> (forall shown, d <> PDatetime shown) ->
        lookup f fields = Some PNone)).
Proof.
  intros Hn Hdef Hin. unfold AlchemyEncoder.default in Hdef.
  destruct (is_declarative obj); [|discriminate]. injection Hdef as <-.
  split.
  - intro Hp. apply lookup_none_not_in. intro H.
    rewrite map_map in H. cbn [fst] in H. apply in_map_iff in H.
    destruct H as [[f0 d0] [E H]]. cbn [fst] in E. subst f0.
    apply filter_In in H. destruct H as [_ H]. cbn [fst] in H.
    rewrite Hp in H. discriminate.
  - intro Hp. rewrite (lookup_encoded f d (dir obj) Hn Hin Hp).
    split; [|split].
    + intro Hok. unfold encode_field.
      destruct d; try discriminate Hok; now rewrite ?Hok.
    + intros shown ->. reflexivity.
    + intros Hno Hnd. unfold encode_field.
      destruct d; try discriminate Hno; try (now rewrite Hno).
      exfalso. exact (Hnd shown eq_refl).
Qed.

Lemma encoder_field_values_witness :
  lookup "created"
    (map (fun fd => (fst fd, encode_field (snd fd)))
         (filter (fun fd => public (fst fd))
                 [("_sa_instance_state", PObject "InstanceState");
                  ("created", PDatetime "2024-01-01 00:00:00");
                  ("sockets", PList [PObject "SocketModel"])]))
  = Some (PStr "2024-01-01 00:00:00").
Proof.
  refine (proj1 (proj2 (proj2 (encoder_field_values
            (mkObject true "TaskModel"
               [("_sa_instance_state", PObject "InstanceState");
                ("created", PDatetime "2024-01-01 00:00:00");
                ("sockets", PList [PObject "SocketModel"])])
            _ "created" (PDatetime "2024-01-01 00:00:00") _ eq_refl _) eq_refl))
          "2024-01-01 00:00:00" eq_refl).
  - cbn [dir map fst]. repeat constructor; cbn [In]; intuition discriminate.
  - cbn [dir In]. right. left. reflexivity.
Defined.

(** * Updates and the integrity of the store *)

(** X25: an update that leaves [id] alone keeps the store sound.  After
    a successful update of a record of any class the ids of each table
    are as distinct as before, and every foreign key, those of the
    updated row among them, still points at a stored row. *)
Theorem update_keeps_integrity (c : Class) (env : Env) (db db' : DB) (i : string)
  (changes : list (string * option value)) :
  In c models -> lookup "id" changes = None ->
  update env db c i changes = Ok db' ->
  (ids_unique db -> ids_unique db') /\
  (references_valid db -> references_valid db').
Proof.
  intros Hc Hid Hup.
  destruct (update_cases env db db' c i changes Hup)
    as [old [Ef [_ [[_ ->]|[_ [Hchk [_ ->]]]]]]]; [now split|].
  set (row := updated_row env (columns c) changes old) in *.
  set (rest := filter (fun e => negb (is_row (cls_tablename c) i e)) db).
  apply find_some in Ef. destruct Ef as [Hold Hhas]. apply has_id_get in Hhas.
  assert (Hrid : get row "id" = Some (VStr i)).
  { unfold row. rewrite (updated_row_plain env c changes old "id"
                           (models_columns_distinct c Hc) (models_id_plain c Hc) Hid).
    exact Hhas. }
  assert (Hmove : forall t' r1 v, In (t', r1) db -> get r1 "id" = Some v ->
            exists r2, In (t', r2) (rest ++ [(cls_tablename c, row)])%list /\
                       get r2 "id" = Some v).
  { intros t' r1 v Hr1 Hv1.
    destruct (is_row (cls_tablename c) i (t', r1)) eqn:Er.
    - unfold is_row in Er. cbn [fst snd] in Er. apply andb_true_iff in Er.
      destruct Er as [Et Ei]. apply String.eqb_eq in Et. apply has_id_get in Ei.
      subst t'. rewrite Ei in Hv1. injection Hv1 as <-.
      exists row. split; [apply in_or_app; right; now left|exact Hrid].
    - exists r1. split; [|exact Hv1]. apply in_or_app. left.
      apply filter_In. split; [exact Hr1|]. cbv beta. now rewrite Er. }
  split.
  - unfold ids_unique. intro Hu. rewrite keys_app. apply NoDup_app.
    + now apply keys_filter_NoDup.
    + unfold keys. cbn [flat_map snd fst app]. rewrite Hrid. repeat constructor.
      intros [].
    + intros [t v] Hin Hin'. unfold keys in Hin'. cbn [flat_map snd fst app] in Hin'.
      rewrite Hrid in Hin'. destruct Hin' as [[= <- <-]|[]].
      apply keys_In in Hin. destruct Hin as [r [Hr Hr']].
      apply filter_In in Hr. destruct Hr as [_ Hr]. unfold is_row in Hr.
      cbn [fst snd] in Hr. rewrite String.eqb_refl in Hr.
      apply has_id_get in Hr'. rewrite Hr' in Hr. discriminate.
  - intros Hv t r k t' c' od v Hin Hfk Hg.
    destruct (fk_steady t k t' c' od Hfk) as [-> _].
    assert (Hdb : exists r', In (t', r') db /\ get r' "id" = Some v).
    { apply in_app_or in Hin. destruct Hin as [Hin|[[= <- <-]|[]]].
      - apply filter_In in Hin. destruct Hin as [Hin _].
        exact (Hv t r k t' "id" od v Hin Hfk Hg).
      - unfold table_fks in Hfk. rewrite (class_of_own_table c Hc) in Hfk.
        unfold check_row in Hchk.
        destruct (check_not_null _ _); [discriminate|].
        destruct (check_types _ _); [discriminate|].
        destruct (check_unique _ _ _); [discriminate|].
        destruct (negb (check_primary_key _ _ _)); [discriminate|].
        destruct (check_foreign_keys db (columns c) row) eqn:Efk; [discriminate|].
        apply fks_in_In in Hfk. destruct Hfk as [args [tg [Hin' [Ea Et]]]].
        apply in_map_iff in Hin'. destruct Hin' as [[k' col] [[= <- <-] Hcol]].
        unfold check_foreign_keys in Efk.
        pose proof (first_name_none _ _ Efk _ Hcol) as H. cbn [fst snd] in H.
        unfold col_fk in H. rewrite Ea, Et, Hg in H.
        apply negb_false_iff, existsb_exists in H. destruct H as [r' [Hr' He]].
        exists r'. split; [now apply table_rows_In|now apply sql_eqb_some]. }
    destruct Hdb as [r' [Hr' Hr'v]].
    exact (Hmove t' r' v Hr' Hr'v).
Qed.

Lemma update_keeps_integrity_witness :
  references_valid
    (the_db (update (env_at 50) cluster NodeModel "nd1"
               [("scheduler_id", None); ("hostname", Some (VStr "host7"))])).
Proof.
  apply (proj2 (update_keeps_integrity NodeModel (env_at 50) cluster
                  (the_db (update (env_at 50) cluster NodeModel "nd1"
                             [("scheduler_id", None); ("hostname", Some (VStr "host7"))]))
                  "nd1" [("scheduler_id", None); ("hostname", Some (VStr "host7"))]
                  (in_models NodeModel eq_refl) eq_refl eq_refl)).
  apply references_ok_sound. vm_compute. reflexivity.
Defined.

(** * The execution ledger *)

(** ** Updating one free column *)

Lemma left_behind_same_id (t : string) (old new : Row) (e : string * Row) :
  get new "id" = get old "id" -> left_behind t old new e = false.
Proof.
  intro E. unfold left_behind. apply not_true_is_false. intro H.
  apply existsb_exists in H. destruct H as [[[k [t' c']] od] [Hfk H]].
  destruct (fk_steady _ _ _ _ _ Hfk) as [-> _].
  unfold points_into in H. cbn [existsb fst snd] in H. rewrite E in H.
  apply andb_true_iff in H. destruct H as [H1 H2]. rewrite H1 in H2. discriminate.
Qed.

Lemma models_stamps_free (c : Class) : In c models -> stamps_free c = true.
Proof.
  intro Hin. unfold models in Hin. cbn [In] in Hin.
  repeat (destruct Hin as [<-|Hin]; [vm_compute; reflexivity|]). contradiction.
Qed.

(** A stored record whose row satisfies the constraints of its table
    takes any value its column takes in a column that carries no other
    constraint.  When the value is the one stored, nothing is written;
    otherwise the row is written anew with the value and the [onupdate]
    stamps. *)
Lemma update_free_column (env : Env) (db : DB) (c : Class) (i k0 : string) (v : value) :
  In c models -> k0 <> "id" ->
  bound k0 (columns c) = true ->
  free_column k0 v (columns c) = true ->
  well_stored db c i = true ->
  exists old db1 row,
    find (has_id i) (table_rows db (cls_tablename c)) = Some old /\
    update env db c i [(k0, Some v)] = Ok db1 /\
    In (cls_tablename c, row) db1 /\
    get row "id" = Some (VStr i) /\
    get row k0 = Some v /\
    (get old k0 = Some v -> db1 = db) /\
    (get old k0 <> Some v -> row = updated_row env (columns c) [(k0, Some v)] old).
Proof.
  intros Hc Hk0 Hb Hfree Hws.
  pose proof (models_columns_distinct c Hc) as Hd.
  unfold well_stored in Hws.
  destruct (find (has_id i) (table_rows db (cls_tablename c))) as [old|] eqn:Ef;
    [|discriminate].
  set (rest := filter (fun e => negb (is_row (cls_tablename c) i e)) db) in *.
  destruct (check_row db (columns c) (table_rows rest (cls_tablename c)) old) eqn:E0;
    [discriminate|].
  clear Hws.
  pose proof (find_some _ _ Ef) as [Hold Hid]. apply table_rows_In in Hold.
  apply has_id_get in Hid.
  exists old.
  assert (Eun : first_name (fun kv : string * option value =>
                              negb (bound (fst kv) (columns c))) [(k0, Some v)] = None).
  { apply first_name_none_intro. intros x [<-|[]]. cbn [fst]. now rewrite Hb. }
  destruct (unchanged old (k0, Some v)) eqn:Eu.
  - pose proof (proj1 (unchanged_spec old (k0, Some v)) Eu) as Eu'.
    cbn [fst snd] in Eu'.
    exists db, old. split; [reflexivity|]. split.
    + unfold update. rewrite Eun, Ef. cbn [forallb]. now rewrite Eu.
    + split; [exact Hold|]. split; [exact Hid|]. split; [exact Eu'|].
      split; [reflexivity|]. intro H. contradiction.
  - set (row1 := updated_row env (columns c) [(k0, Some v)] old).
    assert (Hne : get old k0 <> Some v).
    { intro H. apply (proj2 (unchanged_spec old (k0, Some v))) in H.
      rewrite H in Eu. discriminate. }
    assert (Hv : get row1 k0 = Some v).
    { unfold row1. rewrite updated_row_get by exact Hd.
      apply bound_lookup in Hb. destruct Hb as [col ->].
      cbn [lookup]. now rewrite String.eqb_refl. }
    assert (Hrid : get row1 "id" = Some (VStr i)).
    { unfold row1.
      rewrite (updated_row_plain env c _ old "id" Hd (models_id_plain c Hc)); [exact Hid|].
      cbn [lookup]. destruct (String.eqb_spec "id" k0) as [E|_]; [|reflexivity].
      exfalso. now apply Hk0. }
    assert (Hchk : check_row db (columns c) (table_rows rest (cls_tablename c)) row1
                   = None).
    { apply (check_row_free db (columns c) _ old row1); [|exact E0].
      intros k col Hin. unfold row1. rewrite updated_row_get by exact Hd.
      rewrite (lookup_of_In k col _ Hd Hin). cbn [lookup].
      destruct (String.eqb_spec k k0) as [->|Hkk].
      - right. unfold free_column in Hfree. rewrite forallb_forall in Hfree.
        specialize (Hfree (k0, col) Hin). cbn [fst snd] in Hfree.
        rewrite String.eqb_refl in Hfree. cbn [negb orb] in Hfree.
        repeat (apply andb_true_iff in Hfree; destruct Hfree as [Hfree ?]).
        split; [exists v; now split|]. split; [now apply negb_true_iff|].
        split; [now apply negb_true_iff|].
        destruct (col_fk col); [discriminate|reflexivity].
      - destruct (arg_onupdate (col_args col)) as [d|] eqn:Eo; [|now left].
        right. pose proof (models_stamps_free c Hc) as Hst.
        unfold stamps_free in Hst. rewrite forallb_forall in Hst.
        specialize (Hst (k, col) Hin). cbn [fst snd] in Hst. rewrite Eo in Hst.
        repeat (apply andb_true_iff in Hst; destruct Hst as [Hst ?]).
        apply default_eqb_eq in Hst. subst d. cbn [eval_default].
        split; [exists (VTime (now env)); split;
                  [reflexivity|now apply stamp_type_ok with (t := 0%Z)]|].
        split; [now apply negb_true_iff|]. split; [now apply negb_true_iff|].
        destruct (col_fk col); [discriminate|reflexivity]. }
    assert (Hlb : find (left_behind (cls_tablename c) old row1) rest = None).
    { destruct (find (left_behind (cls_tablename c) old row1) rest) as [e|] eqn:El;
        [|reflexivity].
      apply find_some in El. destruct El as [_ El].
      rewrite left_behind_same_id in El; [discriminate|]. now rewrite Hrid, Hid. }
    exists (rest ++ [(cls_tablename c, row1)])%list, row1. split; [reflexivity|]. split.
    + unfold update. rewrite Eun, Ef. cbn [forallb]. rewrite Eu. cbn [andb].
      fold rest. fold row1. now rewrite Hchk, Hlb.
    + split; [apply in_or_app; right; now left|]. split; [exact Hrid|].
      split; [exact Hv|]. split; [intro H; contradiction|reflexivity].
Qed.

Lemma check_foreign_keys_more (db : DB) (e : string * Row)
  (cols : list (string * ColumnDecl)) (row : Row) :
  check_foreign_keys db cols row = None ->
  check_foreign_keys (db ++ [e])%list cols row = None.
Proof.
  intro H. apply first_name_none_intro. intros [k col] Hin. cbn [fst snd].
  pose proof (first_name_none _ _ H _ Hin) as H0. cbn [fst snd] in H0.
  destruct (col_fk col) as [[t rc]|]; [|reflexivity].
  destruct (get row k) as [v|]; [|reflexivity].
  apply negb_false_iff in H0. apply negb_false_iff.
  apply existsb_exists in H0. destruct H0 as [r [Hr He]].
  apply existsb_exists. exists r. split; [|exact He].
  apply table_rows_In. apply in_or_app. left. now apply table_rows_In.
Qed.

(** A record is well stored as soon as it is created. *)
Lemma created_is_well_stored (env : Env) (db db' : DB) (c : Class) (kw : Row)
  (i : string) :
  In c models -> insert env db c kw = Ok db' ->
  get (with_defaults env (columns c) kw) "id" = Some (VStr i) ->
  well_stored db' c i = true.
Proof.
  intros Hc Hins Hid. destruct (insert_ok env db db' c kw Hins) as [-> Hchk].
  set (row := with_defaults env (columns c) kw) in *.
  assert (Hfresh : forall r, In (cls_tablename c, r) db -> has_id i r = false).
  { intros r Hr. destruct (has_id i r) eqn:E; [|reflexivity].
    apply has_id_get in E.
    destruct (insert_fresh_id env db c row r (VStr i) Hc Hchk Hid Hr E). }
  assert (Hfind : find (has_id i) (table_rows (db ++ [(cls_tablename c, row)])%list
                                              (cls_tablename c)) = Some row).
  { unfold table_rows. rewrite filter_app, map_app. cbn [filter fst].
    rewrite String.eqb_refl. cbn [map snd app].
    assert (Hn : find (has_id i)
                   (map snd (filter (fun e => String.eqb (fst e) (cls_tablename c)) db))
                 = None).
    { destruct (find _ _) as [r|] eqn:E; [|reflexivity].
      apply find_some in E. destruct E as [Hr Hh].
      apply (table_rows_In db (cls_tablename c) r) in Hr.
      rewrite (Hfresh r Hr) in Hh. discriminate. }
    induction (map snd (filter (fun e => String.eqb (fst e) (cls_tablename c)) db))
      as [|r l IH].
    - cbn [app find]. now rewrite (proj2 (has_id_get i row) Hid).
    - cbn [app find] in *. destruct (has_id i r); [discriminate|]. now apply IH. }
  assert (Hrest : filter (fun e => negb (is_row (cls_tablename c) i e))
                    (db ++ [(cls_tablename c, row)])%list = db).
  { rewrite filter_app. cbn [filter]. unfold is_row at 2. cbn [fst snd].
    rewrite String.eqb_refl, (proj2 (has_id_get i row) Hid). cbn [andb negb].
    rewrite app_nil_r. apply filter_all. intros [t r] Hr. unfold is_row. cbn [fst snd].
    destruct (String.eqb_spec t (cls_tablename c)) as [->|_]; [|reflexivity].
    now rewrite (Hfresh r Hr). }
  unfold well_stored. rewrite Hfind, Hrest.
  unfold check_row in *.
  destruct (check_not_null (columns c) row); [discriminate|].
  destruct (check_types (columns c) row); [discriminate|].
  destruct (check_unique (columns c) _ row); [discriminate|].
  destruct (negb (check_primary_key (columns c) _ row)); [discriminate|].
  destruct (check_foreign_keys db (columns c) row) eqn:Efk; [discriminate|].
  now rewrite (check_foreign_keys_more db _ (columns c) row Efk).
Qed.

(** ** The state of a call *)

(** C6, refuted on two counts.  A call created without a state has no
    state at all, so it does not start in [CREATED]; and a call in
    [CREATED] can be moved straight to [SUCCESS], the store accepting
    the update. *)
Lemma call_state_unconstrained :
  (exists db' row,
     insert (env_at 10) topology CallModel (call_kw "c1") = Ok db' /\
     In ("call", row) db' /\ get row "id" = Some (VStr "c1") /\
     get row "state" = None) /\
  (exists db1 db2 row,
     insert (env_at 10) topology CallModel (("state", VStr "CREATED") :: call_kw "c1")
       = Ok db1 /\
     update (env_at 11) db1 CallModel "c1" [("state", Some (VStr "SUCCESS"))] = Ok db2 /\
     In ("call", row) db2 /\ get row "id" = Some (VStr "c1") /\
     get row "state" = Some (VStr "SUCCESS")).
Proof.
  split.
  - eexists. eexists. split; [by_computation|].
    split; [in_row|]. split; reflexivity.
  - eexists. eexists. eexists. split; [by_computation|].
    split; [by_computation|].
    split; [in_row|]. split; reflexivity.
Qed.

Lemma call_state_free (s : string) :
  String.length s <= 10 -> nul_free s = true ->
  free_column "state" (VStr s) (columns CallModel) = true.
Proof.
  intros H Hn. apply Nat.leb_le in H.
  assert (Hm : In CallModel models) by (apply in_models; by_computation).
  apply (free_column_intro "state" (VStr s) (columns CallModel)
           (mkColumn (String_ (Some 10)) []) (models_columns_distinct _ Hm));
    try by_computation.
  cbn [type_ok col_type]. now rewrite H, Hn.
Qed.

(** C6, amended: what the model fixes about a call.  At creation
    [started] is the time of creation, or the time the creator passes;
    [state] and [finished] are unset when nothing is passed, and hold
    what is passed otherwise, a text of at most ten characters and a
    time.  Afterwards the [state] of a stored call whose row satisfies the
    constraints of its table can be set to any text of at most ten
    characters that the database holds, whatever it was before. *)
Theorem call_state_is_free_form :
  (forall env db db' kw,
     insert env db CallModel kw = Ok db' ->
     exists row, db' = (db ++ [("call", row)])%list /\
       (lookup "state" kw = None -> get row "state" = None) /\
       (forall s, lookup "state" kw = Some (VStr s) -> String.length s <= 10 ->
                  get row "state" = Some (VStr s)) /\
       (lookup "finished" kw = None -> get row "finished" = None) /\
       (forall t, lookup "finished" kw = Some (VTime t) ->
                  get row "finished" = Some (VTime t)) /\
       (lookup "started" kw = None -> get row "started" = Some (VTime (now env))) /\
       (forall t, lookup "started" kw = Some (VTime t) ->
                  get row "started" = Some (VTime t))) /\
  (forall env db i s,
     String.length s <= 10 -> nul_free s = true ->
     well_stored db CallModel i = true ->
     exists db1 row,
       update env db CallModel i [("state", Some (VStr s))] = Ok db1 /\
       In ("call", row) db1 /\ get row "id" = Some (VStr i) /\
       get row "state" = Some (VStr s)).
Proof.
  split.
  - intros env db db' kw H. apply insert_ok in H. destruct H as [-> _].
    exists (with_defaults env (columns CallModel) kw). split; [reflexivity|].
    split; [|split; [|split; [|split; [|split]]]].
    + intro E. apply get_with_defaults_null; [exact E|].
      apply undefaulted_spec. by_computation.
    + intros s E _. apply get_with_defaults_given; [by_computation|exact E].
    + intro E. apply get_with_defaults_null; [exact E|].
      apply undefaulted_spec. by_computation.
    + intros t E. apply get_with_defaults_given; [by_computation|exact E].
    + intro E. apply get_with_defaults_default
        with (c := mkColumn DateTime [default datetime_now; nullable false])
             (d := datetime_now); try reflexivity.
      exact E.
    + intros t E. apply get_with_defaults_given; [by_computation|exact E].
  - intros env db i s Hs Hn Hws.
    assert (Hm : In CallModel models) by (apply in_models; by_computation).
    assert (Hb : bound "state" (columns CallModel) = true) by by_computation.
    destruct (update_free_column env db CallModel i "state" (VStr s) Hm
                ltac:(discriminate) Hb (call_state_free s Hs Hn) Hws)
      as [old [db1 [row [_ [Hu [Hin [Hid [Hst _]]]]]]]].
    exists db1, row. split; [exact Hu|]. split; [exact Hin|]. split; [exact Hid|exact Hst].
Qed.

Lemma call_state_is_free_form_witness :
  (exists row, the_db (insert (env_at 10) topology CallModel (call_kw "c1"))
                 = (topology ++ [("call", row)])%list /\
               get row "state" = None /\
               get row "finished" = None /\
               get row "started" = Some (VTime 10)) /\
  (exists db1 row,
     update (env_at 13) ledger CallModel "c1" [("state", Some (VStr "FAILURE"))] = Ok db1 /\
     In ("call", row) db1 /\ get row "id" = Some (VStr "c1") /\
     get row "state" = Some (VStr "FAILURE")).
Proof.
  split.
  - destruct (proj1 call_state_is_free_form (env_at 10) topology
                (the_db (insert (env_at 10) topology CallModel (call_kw "c1")))
                (call_kw "c1")) as [row [E [H1 [_ [H2 [_ [H3 _]]]]]]].
    + by_computation.
    + exists row. split; [exact E|]. split; [exact (H1 eq_refl)|].
      split; [exact (H2 eq_refl)|exact (H3 eq_refl)].
  - apply (proj2 call_state_is_free_form (env_at 13) ledger "c1" "FAILURE").
    + vm_compute. repeat constructor.
    + reflexivity.
    + by_computation.
Defined.

(** ** The events of a call *)

(** C7, refuted on two counts.  The events of call [c1] come back oldest
    first, since [CallModel.events] declares no order; and the note of a
    stored event can be rewritten. *)
Lemma events_unordered_and_mutable :
  map (fun r => (get r "id", get r "created")) (load ledger CallModel "c1" "events")
    = [ (Some (VStr "e1"), Some (VTime 11)); (Some (VStr "e2"), Some (VTime 12)) ] /\
  newest_first "created" (load ledger CallModel "c1" "events") = false /\
  exists db' row,
    update (env_at 31) ledger EventModel "e1" [("note", Some (VStr "edited"))] = Ok db' /\
    In ("event", row) db' /\ get row "id" = Some (VStr "e1") /\
    get row "note" = Some (VStr "edited") /\
    get row "lastupdated" = Some (VTime 31).
Proof.
  split; [by_computation|]. split; [by_computation|].
  eexists. eexists. split; [by_computation|].
  (split; [in_row|idtac]); solve [repeat split].
Qed.

Lemma event_note_free (s : string) :
  String.length s <= 80 -> nul_free s = true ->
  free_column "note" (VStr s) (columns EventModel) = true.
Proof.
  intros H Hn. apply Nat.leb_le in H.
  assert (Hm : In EventModel models) by (apply in_models; by_computation).
  apply (free_column_intro "note" (VStr s) (columns EventModel)
           (mkColumn (String_ (Some 80)) [nullable false])
           (models_columns_distinct _ Hm));
    try by_computation.
  cbn [type_ok col_type]. now rewrite H, Hn.
Qed.

(** C7, amended: [CallModel.events] loads exactly the events linked to
    the call through [calls_events], and declares no order for them; and
    a stored event can be changed: the note of an event whose row
    satisfies the constraints of its table can be set to any text of at
    most eighty characters that the database holds.  When that changes
    the note, [lastupdated] takes the time of the update; when the note is
    that text already, nothing is written. *)
Theorem call_events_unordered_and_mutable :
  (forall db i x, In x (load db CallModel i "events") <->
     (exists o, In ("call", o) db /\ get o "id" = Some (VStr i)) /\
     In ("event", x) db /\
     exists a, In ("calls_events", a) db /\
               get a "call_id" = Some (VStr i) /\
               sql_eqb (get a "event_id") (get x "id") = true) /\
  (exists r, lookup "events" (all_relationships CallModel) = Some r /\
             arg_order_by (rel_args r) = None) /\
  (forall env db i s,
     String.length s <= 80 -> nul_free s = true ->
     well_stored db EventModel i = true ->
     exists old db1 row,
       find (has_id i) (table_rows db "event") = Some old /\
       update env db EventModel i [("note", Some (VStr s))] = Ok db1 /\
       In ("event", row) db1 /\ get row "id" = Some (VStr i) /\
       get row "note" = Some (VStr s) /\
       (get old "note" = Some (VStr s) -> db1 = db) /\
       (get old "note" <> Some (VStr s) ->
        get row "lastupdated" = Some (VTime (now env)))).
Proof.
  assert (Hload : forall db i,
    load db CallModel i "events" =
      match find (has_id i) (table_rows db "call") with
      | Some o =>
          filter (joined db (ManyToMany "calls_events" "call_id" "id" "event_id" "id") o)
                 (table_rows db "event")
      | None => []
      end).
  { intros db i.
    now rewrite (load_unfold db CallModel i "events"
               (mkRel "EventModel"
                  [secondary "calls_events"; lazy_ "True"; cascade "all, delete"])
               EventModel
               (ManyToMany "calls_events" "call_id" "id" "event_id" "id"))
      by by_computation. }
  split; [|split].
  - intros db i x. rewrite Hload.
    destruct (owner_found db "call" i) as [[o [Ef Hid]]|[Ef Hno]]; rewrite Ef.
    + rewrite filter_In, table_rows_In. cbn [joined]. rewrite existsb_exists.
      split.
      * intros [Hx [a [Ha Hj]]]. apply andb_true_iff in Hj. destruct Hj as [H1 H2].
        rewrite Hid in H1. apply sql_eqb_some in H1. apply table_rows_In in Ha.
        split; [|split; [exact Hx|]].
        -- exists o. split; [|exact Hid]. apply table_rows_In.
           now apply find_some in Ef.
        -- now exists a.
      * intros [_ [Hx [a [Ha [H1 H2]]]]]. split; [exact Hx|].
        exists a. split; [now apply table_rows_In|].
        rewrite Hid, H2, andb_true_r. now apply sql_eqb_some.
    + split; [intros []|]. intros [[o [Ho Hid]] _]. now apply (Hno o).
  - eexists. split; by_computation.
  - intros env db i s Hs Hn Hws.
    assert (Hm : In EventModel models) by (apply in_models; by_computation).
    assert (Hb : bound "note" (columns EventModel) = true) by by_computation.
    destruct (update_free_column env db EventModel i "note" (VStr s) Hm
                ltac:(discriminate) Hb (event_note_free s Hs Hn) Hws)
      as [old [db1 [row [Ef [Hu [Hin [Hid [Hnote [Hsame Hnew]]]]]]]]].
    exists old, db1, row. split; [exact Ef|]. split; [exact Hu|]. split; [exact Hin|].
    split; [exact Hid|]. split; [exact Hnote|]. split; [exact Hsame|].
    intro Hne. rewrite (Hnew Hne).
    rewrite updated_row_get by (exact (models_columns_distinct _ Hm)).
    reflexivity.
Qed.

Lemma call_events_unordered_and_mutable_witness :
  exists old db1 row,
    find (has_id "e1") (table_rows ledger "event") = Some old /\
    update (env_at 31) ledger EventModel "e1" [("note", Some (VStr "edited"))] = Ok db1 /\
    In ("event", row) db1 /\ get row "id" = Some (VStr "e1") /\
    get row "note" = Some (VStr "edited") /\
    get row "lastupdated" = Some (VTime 31).
Proof.
  destruct (proj2 (proj2 call_events_unordered_and_mutable) (env_at 31) ledger
              "e1" "edited") as [old [db1 [row [Ef [Hu [Hin [Hid [Hnote [_ Hnew]]]]]]]]].
  - vm_compute. repeat constructor.
  - reflexivity.
  - by_computation.
  - exists old, db1, row. split; [exact Ef|]. split; [exact Hu|]. split; [exact Hin|].
    split; [exact Hid|]. split; [exact Hnote|]. apply Hnew.
    vm_compute in Ef. injection Ef as <-. vm_compute. discriminate.
Defined.

(** * The package *)

(** X26: the package exports what it imports.  Every name the package
    imports is bound in [models.py], every name of [__all__] is one the
    package imported, so a star import finds each of them, and the
    package passes on every mapped class but [PrivilegeModel],
    [ContainerModel] and [GateModel]. *)
Theorem exports_are_bound :
  (forall n, In n imported ->
     In n module_objects \/ exists c, In c models /\ cls_name c = n) /\
  (forall n, In n __all__ -> In n imported) /\
  (forall c, In c models ->
     (In (cls_name c) __all__ /\ In (cls_name c) imported) \/
     (In (cls_name c) ["PrivilegeModel"; "ContainerModel"; "GateModel"] /\
      ~ In (cls_name c) __all__ /\ ~ In (cls_name c) imported)).
Proof.
  split; [|split].
  - assert (H : forallb (fun n => mem_string n module_objects ||
                          match find_class n with Some _ => true | None => false end)
                        imported = true) by by_computation.
    rewrite forallb_forall in H. intros n Hn. specialize (H n Hn).
    apply orb_true_iff in H. destruct H as [H|H].
    + left. now apply mem_string_In.
    + right. destruct (find_class n) as [c|] eqn:E; [|discriminate].
      exists c. exact (find_class_sound n c E).
  - assert (H : forallb (fun n => mem_string n imported) __all__ = true)
      by by_computation.
    rewrite forallb_forall in H. intros n Hn. apply mem_string_In. exact (H n Hn).
  - assert (H : forallb (fun c =>
                  (mem_string (cls_name c) __all__ && mem_string (cls_name c) imported) ||
                  (mem_string (cls_name c) ["PrivilegeModel"; "ContainerModel"; "GateModel"]
                   && negb (mem_string (cls_name c) __all__)
                   && negb (mem_string (cls_name c) imported))) models = true)
      by by_computation.
    rewrite forallb_forall in H. intros c Hc. specialize (H c Hc).
    apply orb_true_iff in H. destruct H as [H|H].
    + left. apply andb_true_iff in H. destruct H as [H1 H2].
      split; now apply mem_string_In.
    + right. apply andb_true_iff in H. destruct H as [H H3].
      apply andb_true_iff in H. destruct H as [H1 H2].
      apply negb_true_iff in H2, H3.
      split; [now apply mem_string_In|].
      split; intro Hin; apply mem_string_In in Hin; congruence.
Qed.

Lemma exports_are_bound_witness : In "SocketModel" imported.
Proof.
  apply (proj1 (proj2 exports_are_bound) "SocketModel"). in_list.
Defined.

(** * What a delete removes, and what a create shows *)

(** X27: a delete removes the marked records and no others.  After a
    delete that goes through, a record of a class whose table has no
    [ondelete="CASCADE"] key is stored exactly when it was stored before
    and the cascade did not mark it. *)
Theorem delete_removes_exactly_the_marked (c tx : Class) (env : Env) (db db' : DB)
  (i j : string) :
  In tx models -> no_db_cascade (cls_tablename tx) = true ->
  delete env db c i = Ok db' ->
  ((exists x', In (cls_tablename tx, x') db' /\ get x' "id" = Some (VStr j)) <->
   ((exists x, In (cls_tablename tx, x) db /\ get x "id" = Some (VStr j)) /\
    ~ In (cls_name tx, j) (delete_set db (cls_name c, i)))).
Proof.
  intros Htx Hnc Hok.
  set (s := delete_set db (cls_name c, i)).
  destruct (delete_shape env db db' c i Hok) as [Edb _]. fold s in Edb.
  split.
  - intros [x' [Hx' Hid']]. rewrite Edb in Hx'.
    apply filter_In in Hx'. destruct Hx' as [Hx' _].
    unfold delete_kept in Hx'. apply in_map_iff in Hx'.
    destruct Hx' as [[t0 x0] [E Hx0]].
    apply filter_In in Hx0. destruct Hx0 as [Hx0 _].
    apply filter_In in Hx0. destruct Hx0 as [Hx0 Hm]. apply negb_true_iff in Hm.
    assert (Et : t0 = cls_tablename tx).
    { pose proof (detach_table env (detachments db s) (t0, x0)) as Ht.
      rewrite E in Ht. cbn [fst] in Ht. now symmetry. }
    subst t0.
    assert (Hid0 : get x0 "id" = Some (VStr j)).
    { pose proof (detach_get_id env db s (cls_tablename tx, x0)) as H.
      rewrite E in H. cbn [snd] in H. now rewrite <- H. }
    split; [now exists x0|]. intro Hin.
    rewrite (marked_intro s (cls_tablename tx) x0 tx j
               (class_of_own_table tx Htx) Hid0 Hin) in Hm. discriminate.
  - intros [[x [Hx Hid]] Hnin].
    pose proof (detach_table env (detachments db s) (cls_tablename tx, x)) as Ht.
    pose proof (detach_get_id env db s (cls_tablename tx, x)) as Hd.
    assert (Hk : In (detach env (detachments db s) (cls_tablename tx, x))
                    (delete_kept env db s)).
    { unfold delete_kept. apply in_map. apply filter_In. split.
      - apply filter_In. split; [exact Hx|]. apply negb_true_iff.
        unfold marked. cbn [fst snd]. rewrite (class_of_own_table tx Htx), Hid.
        apply not_true_is_false. intro H. apply Hnin. now apply mem_obj_In.
      - apply negb_true_iff.
        destruct (unlinked (unlinks db s) (cls_tablename tx, x)) eqn:E; [|reflexivity].
        apply unlinked_association in E. cbn [fst] in E.
        rewrite (class_of_own_table tx Htx) in E. discriminate. }
    destruct (detach env (detachments db s) (cls_tablename tx, x)) as [t1 x1].
    cbn [fst snd] in Ht, Hd. subst t1.
    exists x1. split; [|now rewrite Hd].
    rewrite Edb. apply filter_In. split; [exact Hk|].
    apply negb_true_iff. now apply no_db_cascade_spared.
Qed.

Lemma delete_removes_exactly_the_marked_witness :
  exists x', In ("node", x') (the_db (delete (env_at 50) cluster AgentModel "ag1")) /\
             get x' "id" = Some (VStr "nd1").
Proof.
  apply (proj2 (delete_removes_exactly_the_marked AgentModel NodeModel (env_at 50) cluster
                  (the_db (delete (env_at 50) cluster AgentModel "ag1")) "ag1" "nd1"
                  (in_models NodeModel eq_refl) eq_refl eq_refl)).
  split.
  - find_row.
  - intro H. vm_compute in H.
    repeat (destruct H as [H|H]; [discriminate H|]). exact H.
Defined.

Lemma insert_stores_keywords (env : Env) (db db' : DB) (c : Class) (kw : Row) :
  insert env db c kw = Ok db' ->
  exists row, db' = (db ++ [(cls_tablename c, row)])%list /\
              forall f v, lookup f kw = Some v -> get row f = Some v.
Proof.
  intro Hins. unfold insert in Hins.
  destruct (first_name _ kw) eqn:Ek; [discriminate|].
  destruct (check_row _ _ _ _); [discriminate|]. injection Hins as <-.
  eexists. split; [reflexivity|]. intros f v Hf.
  apply get_with_defaults_given; [|exact Hf].
  pose proof (first_name_none _ _ Ek (f, v) (lookup_In _ _ _ Hf)) as H.
  cbn [fst] in H. now apply negb_false_iff in H.
Qed.

(** X28: what is created or linked shows up in a relationship that holds
    a list.  A record created with the foreign key of a one-to-many
    relationship set to a stored parent is among the records the
    relationship loads for that parent, with every value it was given
    that fits its column; and a row added to the association table of a
    many-to-many relationship makes its target one of the records the
    relationship loads for its owner. *)
Theorem created_child_is_loaded (c tc : Class) (r : RelDecl) (db db' : DB) (o : Row)
  (i : value) :
  find_class (rel_target r) = Some tc ->
  scalar r (join_of c r tc) = false ->
  In (cls_tablename c, o) db -> get o "id" = Some i ->
  (forall k env kw,
     join_of c r tc = OneToMany k "id" -> lookup k kw = Some i ->
     insert env db tc kw = Ok db' ->
     exists x, In x (related db' c r o) /\
               forall f v col, lookup f kw = Some v ->
                 lookup f (columns tc) = Some col -> fits (col_type col) v = true ->
                 get x f = Some v) /\
  (forall st oc tcol td link x j,
     join_of c r tc = ManyToMany st oc "id" tcol "id" -> find_table st = Some td ->
     In (cls_tablename tc, x) db -> get x "id" = Some j ->
     get link oc = Some i -> get link tcol = Some j ->
     associate db td link = Ok db' ->
     In x (related db' c r o)).
Proof.
  intros Htc Hsc Ho Hoid. split.
  - intros k env kw Hj Hk Hins.
    destruct (insert_stores_keywords env db db' tc kw Hins) as [row [-> Hrow]].
    exists row. split; [|intros f v col Hf _ _; exact (Hrow f v Hf)].
    apply related_intro with (tc := tc); [exact Htc|exact Hsc| |].
    + apply in_or_app. right. now left.
    + rewrite Hj. cbn [joined]. rewrite (Hrow k i Hk), Hoid. now apply sql_eqb_some.
  - intros st oc tcol td link x j Hj Htd Hx Hxid Hlo Hlt Has.
    unfold associate in Has. destruct (check_row db _ _ link); [discriminate|].
    injection Has as <-.
    apply related_intro with (tc := tc); [exact Htc|exact Hsc| |].
    + apply in_or_app. now left.
    + rewrite Hj. cbn [joined]. apply existsb_exists. exists link. split.
      * apply table_rows_In. apply in_or_app. right. left.
        now rewrite (proj2 (find_table_sound st td Htd)).
      * rewrite Hlo, Hlt, Hoid, Hxid. apply andb_true_iff.
        split; now apply sql_eqb_some.
Qed.

Lemma created_child_is_loaded_witness :
  exists r x,
    lookup "sockets" (all_relationships ProcessorModel) = Some r /\
    In x (load (the_db (insert (env_at 50) topology SocketModel
                          [("id", VStr "s9"); ("name", VStr "in9");
                           ("processor_id", VStr "p1"); ("user_id", VStr "u1")]))
               ProcessorModel "p1" "sockets") /\
    get x "id" = Some (VStr "s9").
Proof.
  assert (Hr : exists r, lookup "sockets" (all_relationships ProcessorModel) = Some r /\
                 find_class (rel_target r) = Some SocketModel /\
                 join_of ProcessorModel r SocketModel = OneToMany "processor_id" "id" /\
                 scalar r (join_of ProcessorModel r SocketModel) = false).
  { eexists. split; [vm_compute; reflexivity|]. repeat split; vm_compute; reflexivity. }
  destruct Hr as [r [Hr [Htc [Hj Hsc]]]].
  assert (Ho : exists o, In ("processor", o) topology /\ get o "id" = Some (VStr "p1") /\
                 find (has_id "p1")
                      (table_rows
                         (the_db (insert (env_at 50) topology SocketModel
                            [("id", VStr "s9"); ("name", VStr "in9");
                             ("processor_id", VStr "p1"); ("user_id", VStr "u1")]))
                         "processor") = Some o).
  { find_row. }
  destruct Ho as [o [Ho [Hoid Hfind]]].
  assert (Hcol : exists col, lookup "id" (columns SocketModel) = Some col /\
                   fits (col_type col) (VStr "s9") = true).
  { eexists. split; vm_compute; reflexivity. }
  destruct Hcol as [col [Hcol Hfit]].
  destruct (proj1 (created_child_is_loaded ProcessorModel SocketModel r topology
              (the_db (insert (env_at 50) topology SocketModel
                 [("id", VStr "s9"); ("name", VStr "in9");
                  ("processor_id", VStr "p1"); ("user_id", VStr "u1")]))
              o (VStr "p1") Htc Hsc Ho Hoid)
              "processor_id" (env_at 50)
              [("id", VStr "s9"); ("name", VStr "in9");
               ("processor_id", VStr "p1"); ("user_id", VStr "u1")]
              Hj eq_refl eq_refl) as [x [Hx Hkw]].
  exists r, x. split; [exact Hr|].
  split; [|exact (Hkw "id" (VStr "s9") col eq_refl Hcol Hfit)].
  unfold load. change (cls_tablename ProcessorModel) with "processor".
  rewrite Hr, Hfind. exact Hx.
Defined.

(** * Workers and [ondelete="CASCADE"] *)

Lemma delete_error_cases (env : Env) (db : DB) (c : Class) (i t : string) :
  delete env db c i = Err (CascadeConflict t) ->
  (exists i0 k0,
     In (t, i0, k0) (detachments db (delete_set db (cls_name c, i))) /\
     blocked (t, i0, k0) = true) \/
  (exists e,
     fst e = t /\
     In e (delete_kept env db (delete_set db (cls_name c, i))) /\
     db_cascaded (delete_gone db (delete_set db (cls_name c, i))) e = false /\
     dangling (delete_gone db (delete_set db (cls_name c, i)) ++
               filter (db_cascaded (delete_gone db (delete_set db (cls_name c, i))))
                      (delete_kept env db (delete_set db (cls_name c, i))))%list e
     = true).
Proof.
  unfold delete, delete_gone, delete_kept.
  destruct (find blocked _) as [[[t0 i0] k0]|] eqn:Eb.
  - intros [= <-]. left. exists i0, k0. apply find_some in Eb. exact Eb.
  - destruct (find (dangling _) _) as [e|] eqn:Ed; [|discriminate].
    intros [= <-]. right. exists e. apply find_some in Ed. destruct Ed as [Hin Hd].
    apply filter_In in Hin. destruct Hin as [Hin Hc]. apply negb_true_iff in Hc.
    split; [reflexivity|]. split; [exact Hin|]. split; [exact Hc|exact Hd].
Qed.

Lemma worker_links_hold : worker_links = true.
Proof. by_computation. Qed.

Lemma worker_class (tc : Class) :
  In tc models -> cls_tablename tc = "worker" -> tc = WorkerModel.
Proof.
  intros Hin Ht. pose proof (class_of_own_table tc Hin) as H. rewrite Ht in H.
  assert (Hw : class_of_table "worker" = Some WorkerModel) by by_computation.
  rewrite Hw in H. now injection H.
Qed.

(** Only [worker] has keys with an [ondelete] rule. *)
Lemma cascade_only_worker (t : string) : no_db_cascade t = true \/ t = "worker".
Proof.
  unfold no_db_cascade, table_fks.
  destruct (class_of_table t) as [c|] eqn:Ec.
  - destruct (class_of_table_sound t c Ec) as [Hin <-].
    assert (H : forallb (fun c => String.eqb (cls_tablename c) "worker" ||
                                  no_db_cascade (cls_tablename c)) models = true)
      by by_computation.
    rewrite forallb_forall in H. specialize (H c Hin).
    apply orb_true_iff in H. destruct H as [H|H].
    + right. now apply String.eqb_eq.
    + left. unfold no_db_cascade, table_fks in H.
      now rewrite (class_of_own_table c Hin) in H.
  - left. destruct (find_table t) as [td|] eqn:Et; [|reflexivity].
    destruct (find_table_sound t td Et) as [Hin <-].
    assert (H : forallb (fun td => no_db_cascade (tbl_name td)) association_tables = true)
      by by_computation.
    rewrite forallb_forall in H. specialize (H td Hin).
    unfold no_db_cascade, table_fks in H.
    now rewrite (association_not_mapped td Hin), Et in H.
Qed.

Lemma worker_relationships :
  (exists r, lookup "workers" (all_relationships AgentModel) = Some r /\
             cascades_delete r && participates r = true /\
             find_class (rel_target r) = Some WorkerModel /\
             join_of AgentModel r WorkerModel = OneToMany "agent_id" "id" /\
             scalar r (OneToMany "agent_id" "id") = false) /\
  (exists r, lookup "worker" (all_relationships DeploymentModel) = Some r /\
             participates r = true /\
             find_class (rel_target r) = Some WorkerModel /\
             join_of DeploymentModel r WorkerModel = OneToMany "deployment_id" "id").
Proof. vm_compute. split; eexists; repeat split. Qed.

Lemma marked_elim (s : list obj) (g : string * Row) :
  marked s g = true ->
  exists cg j, class_of_table (fst g) = Some cg /\ get (snd g) "id" = Some (VStr j) /\
               In (cls_name cg, j) s.
Proof.
  unfold marked. destruct (class_of_table (fst g)) as [cg|]; [|discriminate].
  destruct (get (snd g) "id") as [[j| | | |]|]; try discriminate.
  intro H. exists cg, j. repeat split. now apply mem_obj_In.
Qed.

(** X29: while no deployment has two workers, a worker never stands in
    the way of a delete.  [worker] points at its processor with
    [ondelete="CASCADE"], at its agent through [AgentModel.workers], which
    takes the workers along, and at its deployment through a column that
    may be NULL and that [DeploymentModel.worker], which holds one
    record, clears for the worker it loads: whatever record is deleted,
    if the delete is refused, it is not for a row of [worker]. *)
Theorem workers_never_block_a_delete (c : Class) (env : Env) (db : DB) (i : string) :
  (forall x, In ("worker", x) db -> exists j, get x "id" = Some (VStr j)) ->
  one_worker_each db = true ->
  delete env db c i <> Err (CascadeConflict "worker").
Proof.
  intros Hids Huniq Herr.
  set (s := delete_set db (cls_name c, i)) in *.
  assert (Mw : In WorkerModel models) by (apply in_models; by_computation).
  assert (Ma : In AgentModel models) by (apply in_models; by_computation).
  assert (Md : In DeploymentModel models) by (apply in_models; by_computation).
  destruct worker_relationships
    as [[ra [Hra [Hca [Hta [Hja Hsa]]]]] [rd [Hrd [Hpd [Htd Hjd]]]]].
  destruct (delete_error_cases env db c i "worker" Herr)
    as [[i0 [k0 [Hd Hb]]]|[e [Het [Hk [Hnc Hdg]]]]].
  - (* a detachment of a required column of worker *)
    fold s in Hd.
    destruct (detachments_elim db s _ _ _ Hd)
      as [o [c0 [row [a [r [tc [Ho [Hc0 [Hrow [Hr [Hp [Htc [Ht [Hj [Hm Hk]]]]]]]]]]]]]]].
    destruct (find_class_sound _ _ Htc) as [Htcm Hn].
    pose proof (worker_class tc Htcm (eq_sym Ht)) as ->.
    destruct (find_class_sound _ _ Hc0) as [Hc0m Hn0].
    pose proof worker_links_hold as Hl. unfold worker_links in Hl.
    rewrite forallb_forall in Hl. specialize (Hl c0 Hc0m).
    rewrite forallb_forall in Hl. specialize (Hl (a, r) Hr). cbn [snd] in Hl.
    rewrite Hp, <- Hn in Hl. cbn [negb orb cls_name WorkerModel] in Hl.
    rewrite String.eqb_refl in Hl. cbn [negb orb] in Hl.
    assert (Hgo : worker_lets_go k0 = false).
    { unfold worker_lets_go. apply negb_false_iff. exact Hb. }
    destruct (join_of c0 r WorkerModel) as [conds|st oc ok tcol tk|lc rk|rc lk|] eqn:Ej.
    + rewrite forallb_forall in Hl. rewrite (Hl k0 Hk) in Hgo. discriminate.
    + destruct Hk.
    + destruct Hk.
    + cbn [foreign_cols] in Hk. destruct Hk as [->|[]].
      rewrite Hgo, orb_false_r in Hl. apply andb_true_iff in Hl.
      destruct Hl as [Hcd _].
      assert (Hin : In (rel_target r, i0) (delete_set db (cls_name c, i))).
      { apply (delete_set_closed db (cls_name c, i) o); [exact Ho|].
        unfold delete_targets. rewrite Hc0. apply in_flat_map. exists row.
        split; [exact Hrow|]. apply in_flat_map. exists (a, r). split; [exact Hr|].
        cbn [snd]. rewrite Hcd, Hp. cbn [andb]. apply in_map_iff. now exists i0. }
      rewrite <- Hn in Hin. apply mem_obj_In in Hin. fold s in Hin.
      rewrite Hin in Hm. discriminate.
    + destruct Hk.
  - (* a worker row left pointing at a removed row *)
    fold s in Hk. fold s in Hnc. fold s in Hdg.
    unfold delete_kept in Hk. apply in_map_iff in Hk. destruct Hk as [[t x] [E Hx]].
    apply filter_In in Hx. destruct Hx as [Hx _].
    apply filter_In in Hx. destruct Hx as [Hx Hxm]. apply negb_true_iff in Hxm.
    assert (Etx : t = "worker").
    { pose proof (detach_table env (detachments db s) (t, x)) as H.
      rewrite E, Het in H. cbn [fst] in H. now symmetry. }
    subst t. destruct (Hids x Hx) as [jx Hxid].
    assert (Hxs : ~ In ("WorkerModel", jx) s).
    { intro H. rewrite (marked_intro s "worker" x WorkerModel jx eq_refl Hxid H) in Hxm.
      discriminate. }
    unfold dangling in Hdg. rewrite Het in Hdg.
    apply existsb_exists in Hdg. destruct Hdg as [fk [Hfk Hpt]].
    assert (Hfks : table_fks "worker" =
                   [("processor_id", ("processor", "id"), Some "CASCADE");
                    ("deployment_id", ("deployment", "id"), None);
                    ("agent_id", ("agent", "id"), None)]) by by_computation.
    destruct fk as [[k [t' c']] od]. unfold points_into in Hpt.
    apply existsb_exists in Hpt. destruct Hpt as [g [Hg Hgv]].
    apply andb_true_iff in Hgv. destruct Hgv as [Hgt Hgv].
    apply String.eqb_eq in Hgt.
    apply in_app_or in Hg. destruct Hg as [Hg|Hg].
    + (* the removed row was marked *)
      unfold delete_gone in Hg. apply filter_In in Hg. destruct Hg as [Hgdb Hgm].
      destruct (marked_elim s g Hgm) as [cg [j [Hcg [Hgid Hgs]]]].
      destruct g as [tg grow]. cbn [fst snd] in *. subst tg.
      assert (Hev : get (snd e) k = Some (VStr j) /\ c' = "id").
      { rewrite Hfks in Hfk. cbn [In] in Hfk.
        destruct Hfk as [[= <- <- <- <-]|[[= <- <- <- <-]|[[= <- <- <- <-]|[]]]];
          (split; [|reflexivity]); rewrite Hgid in Hgv;
          destruct (get (snd e) _) as [v|]; try discriminate Hgv;
          cbn [sql_eqb] in Hgv; apply value_eqb_eq in Hgv; now subst v. }
      destruct Hev as [Hev ->].
      assert (Hxv : get x k = Some (VStr j)).
      { rewrite <- E in Hev.
        exact (detach_fk_value env db s ("worker", x) k t' "id" od (VStr j) Hfk Hev). }
      rewrite Hfks in Hfk. cbn [In] in Hfk.
      destruct Hfk as [[= <- <- <-]|[[= <- <- <-]|[[= <- <- <-]|[]]]].
      * (* processor_id: the database removes the worker itself *)
        assert (Hc : db_cascaded (delete_gone db s) e = true).
        { unfold db_cascaded. rewrite Het, Hfks. cbn [existsb snd].
          rewrite String.eqb_refl. cbn [andb]. apply orb_true_iff. left.
          unfold points_into. apply existsb_exists. exists ("processor", grow).
          split.
          - unfold delete_gone. apply filter_In. split; [exact Hgdb|exact Hgm].
          - cbn [fst snd]. rewrite String.eqb_refl, Hgid, Hev. cbn [andb sql_eqb].
            apply value_eqb_refl. }
        rewrite Hc in Hnc. discriminate.
      * (* deployment_id: Deployment.worker has set it to NULL *)
        assert (Hcgd : cg = DeploymentModel).
        { assert (H : class_of_table "deployment" = Some DeploymentModel)
            by by_computation.
          rewrite H in Hcg. now injection Hcg. }
        subst cg.
        assert (Hdt : In ("worker", jx, "deployment_id") (detachments db s)).
        { destruct (related_some db DeploymentModel WorkerModel rd grow x Htd Hx)
            as [y [Hy Hym]].
          { rewrite Hjd. cbn [joined]. rewrite Hxv, Hgid. apply value_eqb_refl. }
          apply matching_In in Hym. destruct Hym as [Hydb Hyj].
          rewrite Hjd in Hyj. cbn [joined] in Hyj. rewrite Hgid in Hyj.
          apply sql_eqb_some in Hyj.
          assert (Hyid : get y "id" = Some (VStr jx)).
          { unfold one_worker_each in Huniq. rewrite forallb_forall in Huniq.
            specialize (Huniq x (proj2 (table_rows_In db "worker" x) Hx)).
            rewrite forallb_forall in Huniq.
            specialize (Huniq y (proj2 (table_rows_In db "worker" y) Hydb)).
            rewrite Hxv, Hyj in Huniq. cbn [sql_eqb] in Huniq.
            rewrite value_eqb_refl in Huniq. cbn [negb orb] in Huniq.
            rewrite Hxid, sql_eqb_sym in Huniq. now apply sql_eqb_some in Huniq. }
          apply (detachments_intro db s DeploymentModel WorkerModel "worker"
                   "deployment_id" rd j jx grow y (find_own_class _ Md) Hgs Hgdb Hgid
                   (lookup_In _ _ _ Hrd) Hpd Htd).
          - exact Hy.
          - exact Hyid.
          - apply not_true_is_false. intro H. apply Hxs. now apply mem_obj_In in H.
          - rewrite Hjd. now left. }
        apply detached_cols_intro in Hdt.
        rewrite <- E in Hev. unfold detach in Hev. cbn [fst snd] in Hev.
        assert (Hw : class_of_table "worker" = Some WorkerModel) by by_computation.
        rewrite Hw, Hxid in Hev.
        destruct (detached_cols (detachments db s) "worker" jx) as [|k1 ks] eqn:Ek;
          [destruct Hdt|].
        cbn [snd] in Hev.
        rewrite updated_row_get in Hev by (apply models_columns_distinct; exact Mw).
        destruct (lookup "deployment_id" (columns WorkerModel)); [|discriminate].
        rewrite (lookup_nulls_present "deployment_id" (k1 :: ks) Hdt) in Hev.
        discriminate.
      * (* agent_id: Agent.workers has marked the worker *)
        assert (Hcga : cg = AgentModel).
        { assert (H : class_of_table "agent" = Some AgentModel) by by_computation.
          rewrite H in Hcg. now injection Hcg. }
        subst cg.
        apply Hxs.
        pose proof (cascade_one_to_many_list db (cls_name c, i) AgentModel WorkerModel
                      "workers" "agent_id" ra j jx grow x Hra Hca (find_own_class _ Ma)
                      Hta Hja Hsa Hgs Hgdb Hgid Hx Hxv Hxid) as H.
        rewrite <- (proj2 (find_class_sound _ _ Hta)) in H. exact H.
    + (* the removed row went by ondelete: it is a worker, no key points there *)
      apply filter_In in Hg. destruct Hg as [_ Hgc].
      destruct (cascade_only_worker (fst g)) as [Hn|Hw].
      * rewrite (no_db_cascade_spared _ g Hn) in Hgc. discriminate.
      * rewrite Hw in Hgt. rewrite Hfks in Hfk. cbn [In] in Hfk.
        destruct Hfk as [[= _ <- _ _]|[[= _ <- _ _]|[[= _ <- _ _]|[]]]]; discriminate Hgt.
Qed.

Lemma workers_never_block_a_delete_witness :
  delete (env_at 50) cluster ProcessorModel "p1" <> Err (CascadeConflict "worker").
Proof.
  apply (workers_never_block_a_delete ProcessorModel (env_at 50) cluster "p1").
  - intros x Hx. vm_compute in Hx.
    repeat (destruct Hx as [Hx|Hx];
            [first [discriminate Hx | injection Hx as <-; eexists; reflexivity]|]).
    destruct Hx.
  - vm_compute. reflexivity.
Defined.
